(** * kinder-activities: the Google-Sheets activity store and its handlers

    A shallow embedding of [netlify/lib/sheets.js] (credentials, row
    codec, row locator, store client) and of the Netlify functions that
    call it (update-rating.js, update-comment.js, the listing and the
    removal function), together with the properties the specification
    states about them and further properties read off the code.

    Layout:
    - [Module JS]: the fragment of the JavaScript value model the code relies
      on (truthiness, [===], [ToString] and the values for which it
      throws, [ToNumber], [<], [parseInt], [parseFloat],
      [Number::toString], object spread);
    - the sheet (backing table) as a state with a request log, and a small
      state-and-exception monad for the [async] functions;
    - the codec, the locator, the store client and the handlers, each
      transcribed from its source function;
    - the vocabulary of the statements and the sample data;
    - the lemmas and theorems: first those of the specification, then the
      further properties of the code.

    Assumptions on the environment: for the store client the credentials
    are configured ([getAuthClient], modelled on its own, does not throw)
    and the service answers every well-formed request; [JSON.parse] and
    [JSON.stringify] are parameters (class [JSON]).  The cells of the
    table are values; where the decoder converts a cell to a string the
    result is that for a cell that can be converted, as the strings,
    numbers and booleans of the service can. *)

From Stdlib Require Import ZArith NArith String Ascii List Bool Lia.
From Stdlib Require Import DecimalFacts DecimalPos DecimalN.
From stdpp Require Import base tactics option list strings.

Set Warnings "-register-all".

Local Open Scope string_scope.
Local Open Scope list_scope.

(* ===================================================================== *)
(** * The JavaScript fragment *)
(* ===================================================================== *)

Module JS.

(** ** Numbers

    A finite double is carried by the decimal numeral that
    [Number::toString] prints for it: a sign, an integer part and the
    fraction digits (most significant first).  Integers of magnitude below
    2^53, and decimals of at most 15 significant digits, are exactly the
    doubles they denote; binary rounding is outside the model.  [-0] is
    identified with [+0]: no operation used by the code ([===], [<],
    [String], truthiness) tells them apart. *)

Inductive number : Type :=
| NaN
| Inf (neg : bool)
| Fin (neg : bool) (ip : N) (fp : list digits).

Definition Int (z : Z) : number := Fin (z <? 0)%Z (Z.abs_N z) [].

Definition digit_val (d : digits) : N :=
  match d with
  | d0 => 0 | d1 => 1 | d2 => 2 | d3 => 3 | d4 => 4
  | d5 => 5 | d6 => 6 | d7 => 7 | d8 => 8 | d9 => 9
  end%N.

(** Strip the zeros at the front, resp. at the end, of a digit list. *)
Fixpoint strip_leading (ds : list digits) : list digits :=
  match ds with
  | d0 :: r => strip_leading r
  | _ => ds
  end.

Definition strip_trailing (ds : list digits) : list digits :=
  rev (strip_leading (rev ds)).

Definition all_zero (ds : list digits) : bool :=
  match strip_leading ds with [] => true | _ => false end.

(** The digits of a natural number ([0] prints as the single digit 0) and
    back. *)
Definition digits_of_N (n : N) : list digits := to_list (N.to_uint n).
Definition N_of_digits (ds : list digits) : N := N.of_uint (of_list ds).

Definition is_zero (ip : N) (fp : list digits) : bool :=
  (ip =? 0)%N && all_zero fp.

(** The finite number with the given sign, integer part and fraction
    digits, in canonical form: no trailing fraction zeros, no negative
    zero. *)
Definition mk_fin (neg : bool) (ip : N) (fp : list digits) : number :=
  Fin (neg && negb (is_zero ip fp)) ip (strip_trailing fp).

Definition canonical (x : number) : Prop :=
  match x with
  | Fin neg ip fp => mk_fin neg ip fp = x
  | _ => True
  end.

(** *** Comparison *)

(** Fractions compare digit by digit, a missing digit counting as 0. *)
Fixpoint frac_compare (a b : list digits) : comparison :=
  match a, b with
  | [], _ => if all_zero b then Eq else Lt
  | _, [] => if all_zero a then Eq else Gt
  | x :: a', y :: b' =>
      match (digit_val x ?= digit_val y)%N with
      | Eq => frac_compare a' b'
      | c => c
      end
  end.

Definition mag_compare (ip1 : N) (fp1 : list digits)
                       (ip2 : N) (fp2 : list digits) : comparison :=
  match (ip1 ?= ip2)%N with
  | Eq => frac_compare fp1 fp2
  | c => c
  end.

(** [None] when one side is [NaN] (the comparison is then "undefined"). *)
Definition num_compare (x y : number) : option comparison :=
  match x, y with
  | NaN, _ | _, NaN => None
  | Inf n1, Inf n2 =>
      Some (match n1, n2 with
            | true, false => Lt | false, true => Gt | _, _ => Eq end)
  | Inf n1, Fin _ _ _ => Some (if n1 then Lt else Gt)
  | Fin _ _ _, Inf n2 => Some (if n2 then Gt else Lt)
  | Fin n1 i1 f1, Fin n2 i2 f2 =>
      Some (if is_zero i1 f1 && is_zero i2 f2 then Eq
            else match n1, n2 with
                 | false, false => mag_compare i1 f1 i2 f2
                 | true, true => mag_compare i2 f2 i1 f1
                 | true, false => Lt
                 | false, true => Gt
                 end)
  end.

(** [x < y] on numbers: false as soon as one side is [NaN]. *)
Definition num_ltb (x y : number) : bool :=
  match num_compare x y with Some Lt => true | _ => false end.

(** [x === y] on numbers. *)
Definition num_eqb (x y : number) : bool :=
  match num_compare x y with Some Eq => true | _ => false end.

(** *** Characters *)

Definition ascii_of_digit (d : digits) : ascii :=
  match d with
  | d0 => "0" | d1 => "1" | d2 => "2" | d3 => "3" | d4 => "4"
  | d5 => "5" | d6 => "6" | d7 => "7" | d8 => "8" | d9 => "9"
  end%char.

Definition digit_of_ascii (c : ascii) : option digits :=
  match c with
  | "0" => Some d0 | "1" => Some d1 | "2" => Some d2 | "3" => Some d3
  | "4" => Some d4 | "5" => Some d5 | "6" => Some d6 | "7" => Some d7
  | "8" => Some d8 | "9" => Some d9
  | _ => None
  end%char.

(** White space and line terminators, as far as they are code units below
    256: TAB, LF, VT, FF, CR, SP and NBSP. *)
Definition is_ws (c : ascii) : bool :=
  match N_of_ascii c with
  | 9 | 10 | 11 | 12 | 13 | 32 | 160 => true
  | _ => false
  end%N.

Fixpoint string_of_digits (ds : list digits) : string :=
  match ds with
  | [] => EmptyString
  | d :: r => String (ascii_of_digit d) (string_of_digits r)
  end.

(** *** [Number::toString] (radix 10) *)

Definition string_of_nat (n : nat) : string :=
  string_of_digits (digits_of_N (N.of_nat n)).

(** Scientific notation: first digit, the others after a point, then the
    exponent with its sign. *)
Definition exp_notation (s : list digits) (e_neg : bool) (e : nat) : string :=
  match s with
  | [] => "0"
  | d :: r =>
      String (ascii_of_digit d)
        ((match r with [] => "" | _ => "." +:+ string_of_digits r end)
         +:+ "e" +:+ (if e_neg then "-" else "+") +:+ string_of_nat e)
  end.

(** The numeral of a non-negative finite number.  With [k] significant
    digits and the decimal point after the [n]-th of them, the plain
    notation is used for [-5 <= n <= 21]. *)
Definition unsigned_toString (ip : N) (fp : list digits) : string :=
  let ds := digits_of_N ip in
  if (ip =? 0)%N then
    match fp with
    | [] => "0"
    | _ =>
        let z := length fp - length (strip_leading fp) in
        if (z <=? 5)%nat then "0." +:+ string_of_digits fp
        else exp_notation (strip_leading fp) true (S z)
    end
  else if (length ds <=? 21)%nat then
    string_of_digits ds
    +:+ match fp with [] => "" | _ => "." +:+ string_of_digits fp end
  else exp_notation (strip_trailing (ds ++ fp)) false (length ds - 1).

Definition Number_toString (x : number) : string :=
  match x with
  | NaN => "NaN"
  | Inf neg => (if neg then "-" else "") +:+ "Infinity"
  | Fin neg ip fp =>
      (if neg && negb (is_zero ip fp) then "-" else "")
      +:+ unsigned_toString ip fp
  end.

(** *** Reading numerals *)

Fixpoint trim_start (s : string) : string :=
  match s with
  | String c r => if is_ws c then trim_start r else s
  | EmptyString => s
  end.

Fixpoint trim_end (s : string) : string :=
  match s with
  | EmptyString => EmptyString
  | String c r =>
      match trim_end r with
      | EmptyString => if is_ws c then EmptyString else String c EmptyString
      | r' => String c r'
      end
  end.

(** [String.prototype.trim]. *)
Definition trim (s : string) : string := trim_end (trim_start s).

(** The longest run of decimal digits at the front, and what follows. *)
Fixpoint read_digits (s : string) : list digits * string :=
  match s with
  | String c r =>
      match digit_of_ascii c with
      | Some d => let (ds, rest) := read_digits r in (d :: ds, rest)
      | None => ([], s)
      end
  | EmptyString => ([], s)
  end.

(** An optional sign: [true] for a minus. *)
Definition read_sign (s : string) : bool * string :=
  match s with
  | String "-" r => (true, r)
  | String "+" r => (false, r)
  | _ => (false, s)
  end.

Fixpoint strip_prefix (p s : string) : option string :=
  match p, s with
  | EmptyString, _ => Some s
  | String a p', String b s' =>
      if Ascii.eqb a b then strip_prefix p' s' else None
  | _, _ => None
  end.

(** [parseInt(s, 10)]: leading white space, an optional sign, then the
    longest run of digits; [NaN] when there is none. *)
Definition parseInt10 (s : string) : number :=
  let (neg, s1) := read_sign (trim_start s) in
  let (ds, _) := read_digits s1 in
  match ds with
  | [] => NaN
  | _ => mk_fin neg (N_of_digits ds) []
  end.

(** An exponent part [e], [e+] or [e-] followed by digits; when the
    digits are missing nothing is consumed. *)
Definition read_exponent (s : string) : Z * string :=
  match s with
  | String c r =>
      if Ascii.eqb c "e" || Ascii.eqb c "E" then
        let (neg, r1) := read_sign r in
        let (ds, r2) := read_digits r1 in
        match ds with
        | [] => (0%Z, s)
        | _ => let e := Z.of_N (N_of_digits ds) in
               ((if neg then - e else e)%Z, r2)
        end
      else (0%Z, s)
  | EmptyString => (0%Z, s)
  end.

(** Multiply the numeral [ipd.fpd] by [10^e]: move the decimal point. *)
Definition scale10 (ipd fpd : list digits) (e : Z)
  : list digits * list digits :=
  if (0 <=? e)%Z then
    let k := Z.to_nat e in
    (ipd ++ take k (fpd ++ replicate k d0), drop k fpd)
  else
    let k := Z.to_nat (- e) in
    let padded := replicate k d0 ++ ipd in
    (take (length ipd) padded, drop (length ipd) padded ++ fpd).

(** The longest prefix that is a [StrUnsignedDecimalLiteral], its value
    with the sign [neg], and the rest of the string. *)
Definition read_unsigned_decimal (neg : bool) (s1 : string)
  : option (number * string) :=
  match strip_prefix "Infinity" s1 with
  | Some rest => Some (Inf neg, rest)
  | None =>
      let (ipd, s2) := read_digits s1 in
      let (fpd, s3) :=
        match s2 with
        | String "." r => read_digits r
        | _ => ([], s2)
        end in
      match ipd, fpd with
      | [], [] => None
      | _, _ =>
          let (e, s4) := read_exponent s3 in
          let (i', f') := scale10 ipd fpd e in
          Some (mk_fin neg (N_of_digits i') f', s4)
      end
  end.

(** The longest prefix that is a [StrDecimalLiteral]. *)
Definition read_decimal (s : string) : option (number * string) :=
  let (neg, s1) := read_sign s in
  read_unsigned_decimal neg s1.

(** [parseFloat] on a string. *)
Definition parseFloat_string (s : string) : number :=
  match read_decimal (trim_start s) with
  | Some (x, _) => x
  | None => NaN
  end.

(** Digits in radix 2, 8 or 16, for the literals [0b..], [0o..], [0x..]. *)
Definition radix_digit (radix : N) (c : ascii) : option N :=
  let n := N_of_ascii c in
  let v := if (48 <=? n)%N && (n <=? 57)%N then Some (n - 48)%N
           else if (97 <=? n)%N && (n <=? 102)%N then Some (n - 87)%N
           else if (65 <=? n)%N && (n <=? 70)%N then Some (n - 55)%N
           else None in
  match v with
  | Some d => if (d <? radix)%N then Some d else None
  | None => None
  end.

Fixpoint read_radix (radix : N) (acc : N) (s : string) : option N :=
  match s with
  | EmptyString => Some acc
  | String c r =>
      match radix_digit radix c with
      | Some d => read_radix radix (acc * radix + d)%N r
      | None => None
      end
  end.

Definition read_non_decimal (s : string) : option N :=
  match s with
  | String "0" (String c (String d r)) =>
      let body := String d r in
      if Ascii.eqb c "x" || Ascii.eqb c "X" then read_radix 16 0 body
      else if Ascii.eqb c "o" || Ascii.eqb c "O" then read_radix 8 0 body
      else if Ascii.eqb c "b" || Ascii.eqb c "B" then read_radix 2 0 body
      else None
  | _ => None
  end.

(** [ToNumber] on a string ([StringToNumber]): the whole trimmed string
    must be a numeric literal; the empty string is 0. *)
Definition StringToNumber (s : string) : number :=
  let t := trim s in
  match t with
  | EmptyString => Int 0
  | _ =>
      match read_decimal t with
      | Some (x, EmptyString) => x
      | _ =>
          match read_non_decimal t with
          | Some n => Fin false n []
          | None => NaN
          end
      end
  end.

(** [String.prototype.split] with a one-character separator. *)
Fixpoint split_on (sep : ascii) (s : string) : list string :=
  match s with
  | EmptyString => [EmptyString]
  | String c r =>
      if Ascii.eqb c sep then EmptyString :: split_on sep r
      else match split_on sep r with
           | h :: t => String c h :: t
           | [] => [String c EmptyString]
           end
  end.

(** ** Values *)

Inductive value : Type :=
| VUndefined
| VNull
| VBool (b : bool)
| VNum (n : number)
| VStr (s : string)
| VArr (elems : list value)
| VObj (props : list (string * value)).

(** An object is its list of own properties, in insertion order. *)
Abbreviation object := (list (string * value)).

(** [o.k]: [undefined] when [o] has no property [k]. *)
Fixpoint obj_get (o : object) (k : string) : value :=
  match o with
  | [] => VUndefined
  | (k', v) :: r => if String.eqb k' k then v else obj_get r k
  end.

Fixpoint obj_has (o : object) (k : string) : bool :=
  match o with
  | [] => false
  | (k', _) :: r => String.eqb k' k || obj_has r k
  end.

(** [o.k = v]: overwrite in place, or add as the last property.  (An
    engine lists a key that is an array index before the others; none of
    the fifteen field names is one.) *)
Fixpoint obj_set (o : object) (k : string) (v : value) : object :=
  match o with
  | [] => [(k, v)]
  | (k', v') :: r =>
      if String.eqb k' k then (k', v) :: r else (k', v') :: obj_set r k v
  end.

(** [if (c) o.k = v]. *)
Definition assign_if (c : bool) (o : object) (k : string) (v : value)
  : object :=
  if c then obj_set o k v else o.

(** [ToBoolean]. *)
Definition truthy (v : value) : bool :=
  match v with
  | VUndefined | VNull => false
  | VBool b => b
  | VNum NaN => false
  | VNum (Inf _) => true
  | VNum (Fin _ ip fp) => negb (is_zero ip fp)
  | VStr s => negb (String.eqb s "")
  | VArr _ | VObj _ => true
  end.

(** [a === b].  Arrays and objects compare by reference; the code only
    ever compares a value it just received with a literal or with a value
    from another source, so two of them are never the same reference. *)
Definition strict_eq (a b : value) : bool :=
  match a, b with
  | VUndefined, VUndefined => true
  | VNull, VNull => true
  | VBool x, VBool y => Bool.eqb x y
  | VNum x, VNum y => num_eqb x y
  | VStr x, VStr y => String.eqb x y
  | _, _ => false
  end.

(** [v != null]: neither [null] nor [undefined]. *)
Definition not_nullish (v : value) : bool :=
  match v with
  | VUndefined | VNull => false
  | _ => true
  end.

(** [a || b]. *)
Definition js_or (a b : value) : value := if truthy a then a else b.

(** [ToString], for a value whose conversion returns ([printable] below
    tells which do).  An array joins its elements with commas, [null] and
    [undefined] elements giving the empty string. *)
Fixpoint ToString (v : value) : string :=
  match v with
  | VUndefined => "undefined"
  | VNull => "null"
  | VBool b => if b then "true" else "false"
  | VNum n => Number_toString n
  | VStr s => s
  | VArr l =>
      (fix join (l : list value) : string :=
         match l with
         | [] => ""
         | x :: r =>
             match x with
             | VUndefined | VNull => ""
             | _ => ToString x
             end +:+ match r with [] => "" | _ => "," +:+ join r end
         end) l
  | VObj _ => "[object Object]"
  end.

(** The conversion of an object to a string calls its method [toString],
    which it inherits from [Object.prototype] unless it has a property of
    that name of its own.  No value of the model is a function, so an
    object with an own property [toString] has no method to call (its
    [valueOf], inherited or not, gives no primitive either) and the
    conversion throws a [TypeError].  An array converts its elements,
    [null] and [undefined] excepted.  [printable v]: the conversion of [v]
    returns. *)
Fixpoint printable (v : value) : bool :=
  match v with
  | VObj o => negb (obj_has o "toString")
  | VArr l =>
      (fix all (l : list value) : bool :=
         match l with
         | [] => true
         | x :: r => printable x && all r
         end) l
  | _ => true
  end.

(** [ToPrimitive] with hint number, for a [printable] value: objects fall
    through [valueOf] to [toString]. *)
Definition ToPrimitive (v : value) : value :=
  match v with
  | VArr _ | VObj _ => VStr (ToString v)
  | _ => v
  end.

Definition ToNumber (v : value) : number :=
  match ToPrimitive v with
  | VUndefined => NaN
  | VNull => Int 0
  | VBool b => Int (if b then 1 else 0)
  | VNum n => n
  | VStr s => StringToNumber s
  | _ => NaN
  end.

(** The result of [a < b] for [printable] operands: two strings compare
    as strings, anything else as numbers. *)
Definition js_lt (a b : value) : bool :=
  match ToPrimitive a, ToPrimitive b with
  | VStr s, VStr t => String.ltb s t
  | pa, pb => num_ltb (ToNumber pa) (ToNumber pb)
  end.

(** [parseInt(v, 10)] and [parseFloat(v)] convert their argument to a
    string first; the results are those for a [printable] argument. *)
Definition parseInt (v : value) : number := parseInt10 (ToString v).
Definition parseFloat (v : value) : number := parseFloat_string (ToString v).

(** The own enumerable properties that [{...v}] copies. *)
Definition own_props (v : value) : object :=
  match v with
  | VObj o => o
  | VArr l => imap (fun i x => (string_of_nat i, x)) l
  | VStr s =>
      imap (fun i c => (string_of_nat i, VStr (String c EmptyString)))
           (list_ascii_of_string s)
  | _ => []
  end.

(** [{...o, ...v}]: every own property of [v] is set on [o], in order. *)
Definition spread (o : object) (v : value) : object :=
  fold_left (fun acc kv => obj_set acc kv.1 kv.2) (own_props v) o.

(** Exceptions. *)
Inductive exn : Type :=
| Error (message : string)   (* [new Error(message)] *)
| TypeError                  (* raised by the engine *)
| SyntaxError                (* raised by [JSON.parse] *)
| ServiceError.              (* a request the backing service rejects *)

Inductive outcome (A : Type) : Type :=
| Ok (a : A)
| Throw (e : exn).
Arguments Ok {A} a.
Arguments Throw {A} e.

(** [String(v)]: the string, or the [TypeError] of the conversion. *)
Definition String_of (v : value) : outcome string :=
  if printable v then Ok (ToString v) else Throw TypeError.

(** [a < b]: the comparison converts both operands first. *)
Definition less_than (a b : value) : outcome bool :=
  if printable a && printable b then Ok (js_lt a b) else Throw TypeError.

(** The engine's JSON module.  [JSON_parse] is [None] where [JSON.parse]
    throws a [SyntaxError]. *)
Class JSON : Type := {
  JSON_parse : string -> option value;
  JSON_stringify : value -> string
}.

End JS.

Import JS.

(* ===================================================================== *)
(** * The backing table and the monad of the store client *)
(* ===================================================================== *)

(** A row is the array of its cells; the table is the list of its rows,
    the header row first.  A cell beyond the end of a row reads as
    [undefined].  The service leaves trailing empty cells out of its
    answers, where the model keeps a row as it was written: the decoder
    reads the two alike, and the locator tells them apart only for a url
    that is itself empty or [undefined], which no handler passes on. *)
Abbreviation row := (list value).
Abbreviation table := (list (list value)).

(** [r[i]]. *)
Definition cell (r : row) (i : nat) : value := default VUndefined (r !! i).

(** The ranges the code addresses, rows counted from 1. *)
Inductive range : Type :=
| ColumnA                      (* Sheet1!A:A *)
| DataRows                     (* Sheet1!A2:O *)
| RowAO (r : nat)              (* Sheet1!A<r>:O<r> *)
| Cell (col : nat) (r : nat)   (* Sheet1!<letter><r> *)
| TableAO.                     (* Sheet1!A:O *)

(** [String.fromCharCode(65 + columnIndex)]. *)
Definition columnLetter (columnIndex : nat) : string :=
  String (ascii_of_nat (65 + columnIndex)) EmptyString.

(** The A1 text of a range, as the code builds it. *)
Definition range_text (rg : range) : string :=
  "Sheet1!" +:+
  match rg with
  | ColumnA => "A:A"
  | DataRows => "A2:O"
  | RowAO r => "A" +:+ string_of_nat r +:+ ":O" +:+ string_of_nat r
  | Cell c r => columnLetter c +:+ string_of_nat r
  | TableAO => "A:O"
  end.

(** The requests sent to the service. *)
Inductive request : Type :=
| Get (rg : range)
| Update (rg : range) (values : list row)
| Append (rg : range) (values : list row).

Definition is_write (q : request) : bool :=
  match q with Get _ => false | _ => true end.

(** The state: the table, and the requests sent so far (latest last). *)
Record store : Type := mkStore { sheet : table; log : list request }.

(** Computations that read and write the store and may throw. *)
Definition M (A : Type) : Type := store -> outcome A * store.

Definition ret {A} (a : A) : M A := fun st => (Ok a, st).
Definition throw {A} (e : exn) : M A := fun st => (Throw e, st).
Definition bind {A B} (m : M A) (k : A -> M B) : M B :=
  fun st =>
    match m st with
    | (Ok a, st') => k a st'
    | (Throw e, st') => (Throw e, st')
    end.
Definition try_catch {A} (m : M A) (h : exn -> M A) : M A :=
  fun st =>
    match m st with
    | (Ok a, st') => (Ok a, st')
    | (Throw e, st') => h e st'
    end.
Definition lift {A} (o : outcome A) : M A := fun st => (o, st).

Declare Scope store_scope.
Delimit Scope store_scope with M.
Notation "'await' x := m 'in' k" := (bind m (fun x => k))
  (at level 10, x name, m at level 100, k at level 200) : store_scope.
Local Open Scope store_scope.

(** Pure code that may throw. *)
Definition obind {A B} (o : outcome A) (k : A -> outcome B) : outcome B :=
  match o with
  | Ok a => k a
  | Throw e => Throw e
  end.

(** [xs.map(f)] for an [f] that may throw: left to right, the first
    exception wins. *)
Fixpoint map_outcome {A B} (f : A -> outcome B) (xs : list A)
  : outcome (list B) :=
  match xs with
  | [] => Ok []
  | x :: r => obind (f x) (fun y => obind (map_outcome f r)
                                          (fun ys => Ok (y :: ys)))
  end.

(** ** The service *)

Definition pad_to {A} (n : nat) (x : A) (l : list A) : list A :=
  l ++ replicate (n - length l) x.

(** Writing one cell of a row: a row that is too short is filled up with
    empty cells. *)
Definition set_cell (c : nat) (v : value) (r : row) : row :=
  <[c := v]> (pad_to (S c) (VStr "") r).

(** Writing the cells A..O of a row. *)
Definition set_cells_AO (new : row) (r : row) : row :=
  take 15 (pad_to 15 (VStr "") new) ++ drop 15 r.

(** The row numbered [n] (from 1); beyond the table, an empty row. *)
Definition row_at (t : table) (n : nat) : row := default [] (t !! (n - 1)).

Definition alter_row (f : row -> row) (n : nat) (t : table) : table :=
  <[n - 1 := f (row_at t n)]> (pad_to (S (n - 1)) [] t).

(** [sheets.spreadsheets.values.get]: the rows of the range. *)
Definition read_range (rg : range) (t : table) : list row :=
  match rg with
  | ColumnA => take 1 <$> t
  | DataRows => take 15 <$> drop 1 t
  | RowAO r => match t !! (r - 1) with
               | Some x => [take 15 x]
               | None => []
               end
  | Cell c r => match t !! (r - 1) with
                | Some x => [[cell x c]]
                | None => []
                end
  | TableAO => take 15 <$> t
  end.

Definition values_get (rg : range) : M (list row) :=
  fun st => (Ok (read_range rg (sheet st)),
             mkStore (sheet st) (log st ++ [Get rg])).

(** [sheets.spreadsheets.values.update] with one row of values. *)
Definition write_range (rg : range) (values : list row) (t : table) : table :=
  match rg, values with
  | Cell c r, [[v]] => alter_row (set_cell c v) r t
  | RowAO r, [new] => alter_row (set_cells_AO new) r t
  | _, _ => t
  end.

Definition values_update (rg : range) (values : list row) : M unit :=
  fun st => (Ok tt, mkStore (write_range rg values (sheet st))
                            (log st ++ [Update rg values])).

(** [sheets.spreadsheets.values.append] with [INSERT_ROWS]. *)
Definition values_append (rg : range) (values : list row) : M unit :=
  fun st => (Ok tt, mkStore (sheet st ++ values)
                            (log st ++ [Append rg values])).

(* ===================================================================== *)
(** * netlify/lib/sheets.js *)
(* ===================================================================== *)

Definition COLUMNS : list (string * nat) :=
  [ ("url", 0); ("shortName", 1); ("alive", 2); ("lastUpdated", 3);
    ("category", 4); ("openHours", 5); ("address", 6); ("services", 7);
    ("description", 8); ("userRating", 9); ("drivingMinutes", 10);
    ("transitMinutes", 11); ("distanceKm", 12); ("userComment", 13);
    ("userRemoved", 14) ].

Definition HEADER_ROW : list string :=
  [ "url"; "shortName"; "alive"; "lastUpdated"; "category"; "openHours";
    "address"; "services"; "description"; "userRating"; "drivingMinutes";
    "transitMinutes"; "distanceKm"; "userComment"; "userRemoved" ].

(** [COLUMNS[field]] for an own property. *)
Fixpoint assoc {A} (l : list (string * A)) (k : string) : option A :=
  match l with
  | [] => None
  | (k', a) :: r => if String.eqb k' k then Some a else assoc r k
  end.

(** [COLUMNS.<name>] for one of the fifteen names. *)
Definition COL (name : string) : nat := default 0 (assoc COLUMNS name).

(** The names every object inherits from [Object.prototype]: for these
    [COLUMNS[field]] is not [undefined] although [field] is no column. *)
Definition Object_prototype_names : list string :=
  [ "constructor"; "hasOwnProperty"; "isPrototypeOf";
    "propertyIsEnumerable"; "toLocaleString"; "toString"; "valueOf";
    "__proto__"; "__defineGetter__"; "__defineSetter__";
    "__lookupGetter__"; "__lookupSetter__" ].

Section Sheets.
Context `{JSON}.

(** The [try]/[catch] that decodes the services cell: the parsed JSON,
    or else the comma-separated pieces, trimmed.  A cell that is not a
    string has no [split]. *)
Definition parse_services (c : value) : outcome value :=
  match JSON_parse (ToString c) with
  | Some v => Ok v
  | None =>
      match c with
      | VStr s => Ok (VArr ((fun s => VStr (trim s)) <$> split_on "," s))
      | _ => Throw TypeError
      end
  end.

(** [rowToActivity(row)]: [None] is [null].  The arguments of
    [JSON.parse], [parseInt] and [parseFloat] are cells of the table. *)
Definition rowToActivity (r : row) : outcome (option object) :=
  if negb (truthy (cell r (COL "url"))) then Ok None else
  let activity : object :=
    [ ("url", js_or (cell r (COL "url")) (VStr ""));
      ("shortName", js_or (cell r (COL "shortName")) (VStr ""));
      ("alive", VBool (strict_eq (cell r (COL "alive")) (VStr "true")
                       || strict_eq (cell r (COL "alive")) (VBool true)));
      ("lastUpdated", js_or (cell r (COL "lastUpdated")) (VStr "")) ] in
  let activity :=
    assign_if (truthy (cell r (COL "category")))
      activity "category" (cell r (COL "category")) in
  let activity :=
    assign_if (truthy (cell r (COL "openHours")))
      activity "openHours" (cell r (COL "openHours")) in
  let activity :=
    assign_if (truthy (cell r (COL "address")))
      activity "address" (cell r (COL "address")) in
  obind
    (if truthy (cell r (COL "services")) then
       obind (parse_services (cell r (COL "services")))
             (fun services => Ok (obj_set activity "services" services))
     else Ok activity)
    (fun activity =>
  let activity :=
    assign_if (truthy (cell r (COL "description")))
      activity "description" (cell r (COL "description")) in
  let activity :=
    assign_if (truthy (cell r (COL "userRating")))
      activity "userRating" (VNum (parseInt (cell r (COL "userRating")))) in
  let activity :=
    assign_if (truthy (cell r (COL "drivingMinutes")))
      activity "drivingMinutes"
      (VNum (parseInt (cell r (COL "drivingMinutes")))) in
  let activity :=
    assign_if (truthy (cell r (COL "transitMinutes")))
      activity "transitMinutes"
      (VNum (parseInt (cell r (COL "transitMinutes")))) in
  let activity :=
    assign_if (truthy (cell r (COL "distanceKm")))
      activity "distanceKm" (VNum (parseFloat (cell r (COL "distanceKm")))) in
  let activity :=
    assign_if (truthy (cell r (COL "userComment")))
      activity "userComment" (cell r (COL "userComment")) in
  let activity :=
    assign_if (strict_eq (cell r (COL "userRemoved")) (VStr "true")
               || strict_eq (cell r (COL "userRemoved")) (VBool true))
      activity "userRemoved" (VBool true) in
  Ok (Some activity)).

(** The row [activityToRow(activity)] returns.  The call returns unless
    one of its four [String(...)] throws, see [activityToRow_call]. *)
Definition activityToRow (activity : object) : row :=
  let r : row := replicate (length HEADER_ROW) (VStr "") in
  let r := <[COL "url" := js_or (obj_get activity "url") (VStr "")]> r in
  let r := <[COL "shortName" :=
               js_or (obj_get activity "shortName") (VStr "")]> r in
  let r := <[COL "alive" :=
               VStr (if truthy (obj_get activity "alive")
                     then "true" else "false")]> r in
  let r := <[COL "lastUpdated" :=
               js_or (obj_get activity "lastUpdated") (VStr "")]> r in
  let r := <[COL "category" :=
               js_or (obj_get activity "category") (VStr "")]> r in
  let r := <[COL "openHours" :=
               js_or (obj_get activity "openHours") (VStr "")]> r in
  let r := <[COL "address" :=
               js_or (obj_get activity "address") (VStr "")]> r in
  let r := <[COL "services" :=
               if truthy (obj_get activity "services")
               then VStr (JSON_stringify (obj_get activity "services"))
               else VStr ""]> r in
  let r := <[COL "description" :=
               js_or (obj_get activity "description") (VStr "")]> r in
  let r := <[COL "userRating" :=
               if not_nullish (obj_get activity "userRating")
               then VStr (ToString (obj_get activity "userRating"))
               else VStr ""]> r in
  let r := <[COL "drivingMinutes" :=
               if not_nullish (obj_get activity "drivingMinutes")
               then VStr (ToString (obj_get activity "drivingMinutes"))
               else VStr ""]> r in
  let r := <[COL "transitMinutes" :=
               if not_nullish (obj_get activity "transitMinutes")
               then VStr (ToString (obj_get activity "transitMinutes"))
               else VStr ""]> r in
  let r := <[COL "distanceKm" :=
               if not_nullish (obj_get activity "distanceKm")
               then VStr (ToString (obj_get activity "distanceKm"))
               else VStr ""]> r in
  let r := <[COL "userComment" :=
               js_or (obj_get activity "userComment") (VStr "")]> r in
  let r := <[COL "userRemoved" :=
               VStr (if truthy (obj_get activity "userRemoved")
                     then "true" else "")]> r in
  r.

(** The fields [activityToRow] converts with [String(...)]. *)
Definition String_fields : list string :=
  [ "userRating"; "drivingMinutes"; "transitMinutes"; "distanceKm" ].

(** One of the conversions [String(activity.<field>)] throws. *)
Definition activityToRow_throws (activity : object) : bool :=
  negb (forallb (fun name => printable (obj_get activity name))
                String_fields).

(** The call [activityToRow(activity)]: the row, or the [TypeError] of a
    conversion. *)
Definition activityToRow_call (activity : object) : outcome row :=
  if activityToRow_throws activity then Throw TypeError
  else Ok (activityToRow activity).

(** The filter of [getAllActivities]: [a && !a.userRemoved]. *)
Definition visible (a : option object) : bool :=
  match a with
  | Some o => negb (truthy (obj_get o "userRemoved"))
  | None => false
  end.

(** [getAllActivities()]. *)
Definition getAllActivities : M (list object) :=
  await rows := values_get DataRows in
  await decoded := lift (map_outcome rowToActivity rows) in
  ret (omap id (List.filter visible decoded)).

(** The loop of [findActivityRowIndex]: [rows] are the rows from index
    [i] on. *)
Fixpoint find_row (url : value) (rows : list row) (i : nat) : option nat :=
  match rows with
  | [] => None
  | r :: rest =>
      if strict_eq (cell r 0) url then Some (i + 1)
      else find_row url rest (S i)
  end.

(** [findActivityRowIndex(url)]: [None] is [null]. *)
Definition findActivityRowIndex (url : value) : M (option nat) :=
  await rows := values_get ColumnA in
  ret (find_row url (drop 1 rows) 1).

(** [allActivities.find(a => a.url === url)], [undefined] when there is
    none. *)
Definition find_by_url (url : value) (activities : list object) : value :=
  match List.find (fun a => strict_eq (obj_get a "url") url) activities with
  | Some a => VObj a
  | None => VUndefined
  end.

(** The cell text [updateActivityField] writes for a value. *)
Definition format_cell (v : value) : value :=
  if negb (not_nullish v) then VStr ""
  else match v with
       | VBool b => VStr (if b then "true" else "false")
       | VArr _ => VStr (JSON_stringify v)
       | _ => VStr (ToString v)
       end.

(** The last branch, [String(value)], throws: an array is written by
    [JSON.stringify] and every other value but an object is printable. *)
Definition format_cell_throws (v : value) : bool :=
  match v with
  | VArr _ => false
  | _ => negb (printable v)
  end.

(** The formatting of the value: the cell text, or the [TypeError] of
    [String(value)]. *)
Definition format_cell_call (v : value) : outcome value :=
  if format_cell_throws v then Throw TypeError else Ok (format_cell v).

(** [updateActivityField(url, field, value)]. *)
Definition updateActivityField (url : value) (field : string) (v : value)
  : M value :=
  await rowIndex := findActivityRowIndex url in
  match rowIndex with
  | None => throw (Error "Activity not found")
  | Some rowIndex =>
      match assoc COLUMNS field with
      | None =>
          if bool_decide (field ∈ Object_prototype_names)
          then throw ServiceError
          else throw (Error ("Unknown field: " +:+ field))
      | Some columnIndex =>
          await cellValue := lift (format_cell_call v) in
          await _ := values_update (Cell columnIndex rowIndex)
                              [[cellValue]] in
          await allActivities := getAllActivities in
          ret (find_by_url url allActivities)
      end
  end.

(** [markActivityRemoved(url)]. *)
Definition markActivityRemoved (url : value) : M value :=
  updateActivityField url "userRemoved" (VBool true).

(** [getActivityByUrl(url)]. *)
Definition getActivityByUrl (url : value) : M value :=
  await activities := getAllActivities in
  ret (find_by_url url activities).

(** [addActivity(activity)]. *)
Definition addActivity (activity : object) : M object :=
  await r := lift (activityToRow_call activity) in
  await _ := values_append TableAO [r] in
  ret activity.

(** [updateActivity(url, updates)]. *)
Definition updateActivity (url : value) (updates : value) : M object :=
  await rowIndex := findActivityRowIndex url in
  match rowIndex with
  | None => throw (Error "Activity not found")
  | Some rowIndex =>
      await values := values_get (RowAO rowIndex) in
      let currentRow := default [] (head values) in
      await currentActivity := lift (rowToActivity currentRow) in
      let updatedActivity :=
        spread (spread [] (from_option VObj VNull currentActivity))
               updates in
      await newRow := lift (activityToRow_call updatedActivity) in
      await _ := values_update (RowAO rowIndex) [newRow] in
      ret updatedActivity
  end.

End Sheets.

(* ===================================================================== *)
(** * netlify/functions/update-rating.js *)
(* ===================================================================== *)

Record event : Type := mkEvent { httpMethod : string; body : string }.

Record response : Type := mkResponse {
  statusCode : nat;
  headers : list (string * string);
  response_body : string
}.

(** [v.k] for the destructuring [const { url, rating } = v]: a
    [TypeError] on [null] and [undefined]; primitives and arrays have no
    property of these names. *)
Definition get_prop (v : value) (k : string) : outcome value :=
  match v with
  | VUndefined | VNull => Throw TypeError
  | VObj o => Ok (obj_get o k)
  | _ => Ok VUndefined
  end.

(** [error.message === m]; the messages of the engine's and the service's
    own errors are none of the code's. *)
Definition message_is (e : exn) (m : string) : bool :=
  match e with
  | Error m' => String.eqb m' m
  | _ => false
  end.

Section UpdateRating.
Context `{JSON}.

Definition error_response (status : nat) (msg : string) : response :=
  mkResponse status [("Access-Control-Allow-Origin", "*")]
             (JSON_stringify (VObj [("error", VStr msg)])).

(** [rating !== null && (rating < 1 || rating > 5)]: [null] is not
    compared; any other rating is converted by the comparison, which
    throws for a rating that cannot be. *)
Definition rating_out_of_range (rating : value) : outcome bool :=
  if negb (strict_eq rating VNull) then
    obind (less_than rating (VNum (Int 1)))
          (fun below =>
             if below then Ok true
             else less_than (VNum (Int 5)) rating)
  else Ok false.

(** [handler(event)] of update-rating.js. *)
Definition handler (ev : event) : M response :=
  if String.eqb (httpMethod ev) "OPTIONS" then
    ret (mkResponse 200
           [ ("Access-Control-Allow-Origin", "*");
             ("Access-Control-Allow-Headers", "Content-Type");
             ("Access-Control-Allow-Methods", "PUT, OPTIONS") ]
           "")
  else if negb (String.eqb (httpMethod ev) "PUT") then
    ret (error_response 405 "Method not allowed")
  else
    try_catch
      (await parsed := lift (match JSON_parse (body ev) with
                            | Some v => Ok v
                            | None => Throw SyntaxError
                            end) in
       await url := lift (get_prop parsed "url") in
       await rating := lift (get_prop parsed "rating") in
       if negb (truthy url) then
         ret (error_response 400 "URL is required")
       else
         await outside := lift (rating_out_of_range rating) in
         if outside then
           ret (error_response 400 "Rating must be between 1 and 5")
         else
           await activity := updateActivityField url "userRating" rating in
           ret (mkResponse 200
                  [ ("Content-Type", "application/json");
                    ("Access-Control-Allow-Origin", "*") ]
                  (JSON_stringify
                     (VObj [ ("success", VBool true);
                             ("activity", activity) ]))))
      (fun error =>
         if message_is error "Activity not found" then
           ret (error_response 404 "Activity not found")
         else
           ret (error_response 500 "Failed to update rating")).

End UpdateRating.

(* ===================================================================== *)
(** * Vocabulary of the statements *)
(* ===================================================================== *)

(** The literal [true] of a boolean column. *)
Definition is_true_literal (v : value) : Prop :=
  v = VStr "true" \/ v = VBool true.

(** The fields a record may lack. *)
Definition optional_fields : list string :=
  [ "category"; "openHours"; "address"; "services"; "description";
    "userRating"; "drivingMinutes"; "transitMinutes"; "distanceKm";
    "userComment"; "userRemoved" ].

(** ** A JSON module for examples

    [json_stringify] writes JSON text as [JSON.stringify] does.
    [json_of known] reads back exactly the texts of the values listed in
    [known] and rejects every other text; it serves where an example
    needs an engine that knows the texts occurring in it. *)

Definition hex_digit (n : N) : ascii :=
  ascii_of_N (if (n <? 10)%N then 48 + n else 87 + n).

Definition json_escape (c : ascii) : string :=
  let n := N_of_ascii c in
  if (n =? 34)%N then String "\" (String c EmptyString)
  else if (n =? 92)%N then String "\" (String "\" EmptyString)
  else if (n =? 8)%N then "\b"
  else if (n =? 12)%N then "\f"
  else if (n =? 10)%N then "\n"
  else if (n =? 13)%N then "\r"
  else if (n =? 9)%N then "\t"
  else if (n <? 32)%N then
    "\u00" +:+ String (hex_digit (n / 16)) (String (hex_digit (n mod 16))
                                              EmptyString)
  else String c EmptyString.

Fixpoint json_escape_all (s : string) : string :=
  match s with
  | EmptyString => EmptyString
  | String c r => json_escape c +:+ json_escape_all r
  end.

Definition json_quote (s : string) : string :=
  String "034" (json_escape_all s +:+ String "034" EmptyString).

Fixpoint json_stringify (v : value) : string :=
  match v with
  | VUndefined => "undefined"
  | VNull => "null"
  | VBool b => if b then "true" else "false"
  | VNum (Fin _ _ _ as n) => Number_toString n
  | VNum _ => "null"
  | VStr s => json_quote s
  | VArr l =>
      "[" +:+
      (fix elems (l : list value) : string :=
         match l with
         | [] => ""
         | x :: r =>
             match x with
             | VUndefined => "null"
             | _ => json_stringify x
             end +:+ match r with [] => "" | _ => "," +:+ elems r end
         end) l
      +:+ "]"
  | VObj o =>
      "{" +:+
      (fix props (o : list (string * value)) (first : bool) : string :=
         match o with
         | [] => ""
         | (k, x) :: r =>
             match x with
             | VUndefined => props r first
             | _ => (if first then "" else ",") +:+ json_quote k +:+ ":"
                    +:+ json_stringify x +:+ props r false
             end
         end) o true
      +:+ "}"
  end.

Definition json_of (known : list value) : JSON :=
  {| JSON_parse := fun s =>
       List.find (fun v => String.eqb (json_stringify v) s) known;
     JSON_stringify := json_stringify |}.

Section CodecVocabulary.
Context `{JSON}.

(** The record a row with a url decodes to, given the decoded services
    [svc]: the assignments of [rowToActivity] in their order. *)
Definition decoded (r : row) (svc : value) : object :=
  let activity : object :=
    [ ("url", js_or (cell r (COL "url")) (VStr ""));
      ("shortName", js_or (cell r (COL "shortName")) (VStr ""));
      ("alive", VBool (strict_eq (cell r (COL "alive")) (VStr "true")
                       || strict_eq (cell r (COL "alive")) (VBool true)));
      ("lastUpdated", js_or (cell r (COL "lastUpdated")) (VStr "")) ] in
  let activity :=
    assign_if (truthy (cell r (COL "category")))
      activity "category" (cell r (COL "category")) in
  let activity :=
    assign_if (truthy (cell r (COL "openHours")))
      activity "openHours" (cell r (COL "openHours")) in
  let activity :=
    assign_if (truthy (cell r (COL "address")))
      activity "address" (cell r (COL "address")) in
  let activity :=
    assign_if (truthy (cell r (COL "services")))
      activity "services" svc in
  let activity :=
    assign_if (truthy (cell r (COL "description")))
      activity "description" (cell r (COL "description")) in
  let activity :=
    assign_if (truthy (cell r (COL "userRating")))
      activity "userRating" (VNum (parseInt (cell r (COL "userRating")))) in
  let activity :=
    assign_if (truthy (cell r (COL "drivingMinutes")))
      activity "drivingMinutes"
      (VNum (parseInt (cell r (COL "drivingMinutes")))) in
  let activity :=
    assign_if (truthy (cell r (COL "transitMinutes")))
      activity "transitMinutes"
      (VNum (parseInt (cell r (COL "transitMinutes")))) in
  let activity :=
    assign_if (truthy (cell r (COL "distanceKm")))
      activity "distanceKm" (VNum (parseFloat (cell r (COL "distanceKm")))) in
  let activity :=
    assign_if (truthy (cell r (COL "userComment")))
      activity "userComment" (cell r (COL "userComment")) in
  assign_if (strict_eq (cell r (COL "userRemoved")) (VStr "true")
             || strict_eq (cell r (COL "userRemoved")) (VBool true))
    activity "userRemoved" (VBool true).

(** The services cell cannot make [rowToActivity] throw: it is empty, a
    string, or text the JSON module accepts. *)
Definition services_readable (r : row) : Prop :=
  truthy (cell r (COL "services")) = true ->
  (exists s, cell r (COL "services") = VStr s)
  \/ JSON_parse (ToString (cell r (COL "services"))) <> None.

(** The cells [rowToActivity] converts to a string, for [JSON.parse],
    [parseInt] or [parseFloat], can all be converted. *)
Definition cells_printable (r : row) : bool :=
  forallb (fun name => printable (cell r (COL name)))
          ("services" :: String_fields).

(** What the cell of a field holds, by the kind of the field: the flag
    [alive] as ["true"] or ["false"], the flag [userRemoved] as ["true"]
    or nothing, the list of services as JSON text, a number as [String]
    prints it, a text as it is; and the empty string for a field that is
    not set. *)
Definition encoded_field (name : string) (v : value) : value :=
  if String.eqb name "alive" then
    VStr (if truthy v then "true" else "false")
  else if String.eqb name "userRemoved" then
    VStr (if truthy v then "true" else "")
  else if String.eqb name "services" then
    if truthy v then VStr (JSON_stringify v) else VStr ""
  else if bool_decide (name ∈ String_fields) then
    if not_nullish v then VStr (ToString v) else VStr ""
  else js_or v (VStr "").

End CodecVocabulary.

(** ** Sample data: the table of the specification's scenarios *)

Definition header : row := VStr <$> HEADER_ROW.

Definition zoo_row : row :=
  VStr <$> [ "https://a"; "Zoo"; "true"; "2024-01-01"; "zoo";
             ""; ""; ""; ""; "" ].

Definition zoo_table : table := [header; zoo_row].

Definition zoo : object :=
  [ ("url", VStr "https://a"); ("shortName", VStr "Zoo");
    ("alive", VBool true); ("lastUpdated", VStr "2024-01-01");
    ("category", VStr "zoo") ].

(** The zoo row with a stored rating of 9. *)
Definition rated_row : row :=
  VStr <$> [ "https://a"; "Zoo"; "true"; "2024-01-01"; "zoo";
             ""; ""; ""; ""; "9" ].

(** Two cells hold the same content: the same value, or both are empty
    (missing from the row, or the empty string). *)
Definition blank (v : value) : Prop := v = VUndefined \/ v = VStr "".
Definition same_content (v w : value) : Prop := v = w \/ (blank v /\ blank w).

(** A removed zoo row, for tables with a duplicated key. *)
Definition zoo_removed_row : row :=
  VStr <$> [ "https://a"; "Old zoo"; "true"; "2023-01-01"; "zoo";
             ""; ""; ""; ""; ""; ""; ""; ""; ""; "true" ].


Section HandlerVocabulary.
Context `{JSON}.

(** The response of the rating handler once the store has answered:
    success, or the [catch] branch. *)
Definition respond (r : outcome value * store) : outcome response * store :=
  match r with
  | (Ok activity, st) =>
      (Ok (mkResponse 200
             [ ("Content-Type", "application/json");
               ("Access-Control-Allow-Origin", "*") ]
             (JSON_stringify
                (VObj [ ("success", VBool true); ("activity", activity) ]))),
       st)
  | (Throw e, st) =>
      (Ok (if message_is e "Activity not found"
           then error_response 404 "Activity not found"
           else error_response 500 "Failed to update rating"),
       st)
  end.

End HandlerVocabulary.

(** An object that cannot be converted to a string: the JSON text
    [{"toString":0}] parses to it. *)
Definition unprintable : value := VObj [ ("toString", VNum (Int 0)) ].

(** A request body whose rating is that object. *)
Definition object_rating_body : value :=
  VObj [ ("url", VStr "https://a"); ("rating", unprintable) ].

(** A request body whose rating is a text without numeric value. *)
Definition text_rating_body : value :=
  VObj [ ("url", VStr "https://a"); ("rating", VStr "abc") ].

(** A request body with a boolean rating. *)
Definition false_rating_body : value :=
  VObj [ ("url", VStr "https://a"); ("rating", VBool false) ].

(** Request bodies of the examples. *)
Definition six_rating_body : value :=
  VObj [ ("url", VStr "https://a"); ("rating", VNum (Int 6)) ].

Definition no_rating_body : value := VObj [ ("url", VStr "https://a") ].

Definition sample_bodies : list value :=
  [ six_rating_body; no_rating_body; false_rating_body ].


(** ** Numerals as text *)

(** A string that does not begin with a digit. *)
Definition no_digit_head (s : string) : Prop :=
  match s with
  | EmptyString => True
  | String c _ => digit_of_ascii c = None
  end.

(** The exponent part as [Number::toString] writes it. *)
Definition exponent_text (e_neg : bool) (e : nat) : string :=
  "e" +:+ (if e_neg then "-" else "+") +:+ string_of_nat e.

(** The text of a numeral: integer digits, an optional fraction, an
    optional exponent. *)
Definition numeral_text (ipd fpd : list digits) (ex : option (bool * nat))
  : string :=
  string_of_digits ipd
  +:+ match fpd with [] => "" | _ => "." +:+ string_of_digits fpd end
  +:+ match ex with Some (e_neg, e) => exponent_text e_neg e | None => "" end.

Definition exponent_value (ex : option (bool * nat)) : Z :=
  match ex with
  | Some (e_neg, e) => if e_neg then - Z.of_nat e else Z.of_nat e
  | None => 0
  end.


(** ** Valid activity records *)

Global Instance digits_eq_dec : EqDecision digits.
Proof. solve_decision. Defined.
Global Instance number_eq_dec : EqDecision number.
Proof. solve_decision. Defined.
Global Instance canonical_dec (x : number) : Decision (canonical x).
Proof. destruct x; simpl; apply _. Defined.


(** The types of the data model. *)
Definition is_text (v : value) : bool :=
  match v with VStr _ => true | _ => false end.

Definition is_nonempty_text (v : value) : bool :=
  match v with VStr s => negb (String.eqb s "") | _ => false end.

Definition is_flag (v : value) : bool :=
  match v with VBool _ => true | _ => false end.

Definition is_text_list (v : value) : bool :=
  match v with VArr l => forallb is_text l | _ => false end.

(** An integer. *)
Definition is_integer (v : value) : bool :=
  match v with
  | VNum (Fin neg ip []) => bool_decide (canonical (Fin neg ip []))
  | _ => false
  end.

(** A number of magnitude below 10^21, which [String] prints without
    exponent when it is an integer. *)
Definition below_1e21 (v : value) : bool :=
  match v with
  | VNum (Fin _ ip _) => (ip <? 10 ^ 21)%N
  | _ => true
  end.

(** An integer from 1 to 5. *)
Definition is_rating (v : value) : bool :=
  match v with
  | VNum (Fin false ip []) => (1 <=? ip)%N && (ip <=? 5)%N
  | _ => false
  end.

(** A finite number. *)
Definition is_finite (v : value) : bool :=
  match v with
  | VNum (Fin neg ip fp) => bool_decide (canonical (Fin neg ip fp))
  | _ => false
  end.

(** A field that is absent, or of the given type. *)
Definition absent_or (p : value -> bool) (v : value) : bool :=
  match v with VUndefined => true | _ => p v end.

(** A valid Activity: a non-empty url, and every other field of the data
    model absent or of its type. *)
Definition valid_activity (a : object) : bool :=
  is_nonempty_text (obj_get a "url")
  && absent_or is_text (obj_get a "shortName")
  && absent_or is_flag (obj_get a "alive")
  && absent_or is_text (obj_get a "lastUpdated")
  && absent_or is_text (obj_get a "category")
  && absent_or is_text (obj_get a "openHours")
  && absent_or is_text (obj_get a "address")
  && absent_or is_text_list (obj_get a "services")
  && absent_or is_text (obj_get a "description")
  && absent_or is_rating (obj_get a "userRating")
  && absent_or is_integer (obj_get a "drivingMinutes")
  && absent_or is_integer (obj_get a "transitMinutes")
  && absent_or is_finite (obj_get a "distanceKm")
  && absent_or is_text (obj_get a "userComment")
  && absent_or is_flag (obj_get a "userRemoved").

(** The value of a digit list read from the least significant digit. *)
Fixpoint lu_val (l : list digits) : N :=
  match l with
  | [] => 0
  | d :: r => digit_val d + 10 * lu_val r
  end%N.

(** A record with every kind of field. *)
Definition playground : object :=
  [ ("url", VStr "https://b"); ("shortName", VStr "Playground");
    ("alive", VBool true); ("lastUpdated", VStr "2024-02-02");
    ("category", VStr "outdoor");
    ("services", VArr [VStr "slide"; VStr "swing"]);
    ("userRating", VNum (Int 5)); ("drivingMinutes", VNum (Int 25));
    ("distanceKm", VNum (Fin false 12 [d5])); ("userComment", VStr "");
    ("userRemoved", VBool false) ].

(** A valid record whose driving time is the integer 10^21. *)
Definition far_away : object :=
  [ ("url", VStr "https://c"); ("shortName", VStr "Far away");
    ("alive", VBool true); ("lastUpdated", VStr "2024-03-03");
    ("drivingMinutes", VNum (Int (10 ^ 21))) ].


(* ===================================================================== *)
(** * netlify/lib/sheets.js: the credentials *)
(* ===================================================================== *)

(** [process.env]: the variables that are set, each with its string. *)
Abbreviation environment := (list (string * string)).

(** [process.env.NAME]: [undefined] for a variable that is not set. *)
Definition env_get (env : environment) (name : string) : value :=
  match assoc env name with
  | Some s => VStr s
  | None => VUndefined
  end.

(** [s.replace(/\\n/g, '\n')]: every backslash followed by [n], from left
    to right, becomes a line feed. *)
Fixpoint replace_escaped_newlines (s : string) : string :=
  match s with
  | EmptyString => EmptyString
  | String c r =>
      match r with
      | String "n" r' =>
          if Ascii.eqb c "\" then String "010" (replace_escaped_newlines r')
          else String c (replace_escaped_newlines r)
      | _ => String c (replace_escaped_newlines r)
      end
  end.

(** The argument of [new google.auth.GoogleAuth(...)]. *)
Record auth_options : Type := mkAuth {
  client_email : string;
  private_key : string;
  scopes : list string
}.

(** [getAuthClient()], as far as the client it builds is determined by its
    options. *)
Definition getAuthClient (env : environment) : outcome auth_options :=
  let clientEmail := env_get env "GOOGLE_SERVICE_ACCOUNT_EMAIL" in
  let privateKey := env_get env "GOOGLE_PRIVATE_KEY" in
  if negb (truthy clientEmail) || negb (truthy privateKey) then
    Throw (Error "Missing GOOGLE_SERVICE_ACCOUNT_EMAIL or GOOGLE_PRIVATE_KEY")
  else
    let privateKey := replace_escaped_newlines (ToString privateKey) in
    Ok (mkAuth (ToString clientEmail) privateKey
               ["https://www.googleapis.com/auth/spreadsheets"]).

(* ===================================================================== *)
(** * The other handlers *)
(* ===================================================================== *)

(** ** The function behind /update-comment *)

Module UpdateComment.
Section Handler.
Context `{JSON}.

(** [comment?.trim() || null]: only a string has a [trim]; the call on any
    other value that is neither [null] nor [undefined] is a [TypeError]. *)
Definition userComment_of (comment : value) : outcome value :=
  match comment with
  | VUndefined | VNull => Ok (js_or VUndefined VNull)
  | VStr s => Ok (js_or (VStr (trim s)) VNull)
  | _ => Throw TypeError
  end.

(** [handler(event)] of the comment function. *)
Definition handler (ev : event) : M response :=
  if String.eqb (httpMethod ev) "OPTIONS" then
    ret (mkResponse 200
           [ ("Access-Control-Allow-Origin", "*");
             ("Access-Control-Allow-Headers", "Content-Type");
             ("Access-Control-Allow-Methods", "PUT, OPTIONS") ]
           "")
  else if negb (String.eqb (httpMethod ev) "PUT") then
    ret (error_response 405 "Method not allowed")
  else
    try_catch
      (await parsed := lift (match JSON_parse (body ev) with
                            | Some v => Ok v
                            | None => Throw SyntaxError
                            end) in
       await url := lift (get_prop parsed "url") in
       await comment := lift (get_prop parsed "comment") in
       if negb (truthy url) then
         ret (error_response 400 "URL is required")
       else
         await userComment := lift (userComment_of comment) in
         await activity := updateActivityField url "userComment" userComment in
         ret (mkResponse 200
                [ ("Content-Type", "application/json");
                  ("Access-Control-Allow-Origin", "*") ]
                (JSON_stringify
                   (VObj [ ("success", VBool true);
                           ("activity", activity) ]))))
      (fun error =>
         if message_is error "Activity not found" then
           ret (error_response 404 "Activity not found")
         else
           ret (error_response 500 "Failed to update comment")).

End Handler.
End UpdateComment.

(** ** The function behind /activities *)

Module GetActivities.
Section Handler.
Context `{JSON}.

(** [handler(event)] of the listing function. *)
Definition handler (ev : event) : M response :=
  if String.eqb (httpMethod ev) "OPTIONS" then
    ret (mkResponse 200
           [ ("Access-Control-Allow-Origin", "*");
             ("Access-Control-Allow-Headers", "Content-Type");
             ("Access-Control-Allow-Methods", "GET, OPTIONS") ]
           "")
  else if negb (String.eqb (httpMethod ev) "GET") then
    ret (error_response 405 "Method not allowed")
  else
    try_catch
      (await activities := getAllActivities in
       ret (mkResponse 200
              [ ("Content-Type", "application/json");
                ("Access-Control-Allow-Origin", "*") ]
              (JSON_stringify (VArr (VObj <$> activities)))))
      (fun error => ret (error_response 500 "Failed to load activities")).

End Handler.
End GetActivities.

(** ** The function behind /delete-activity *)

Module DeleteActivity.
Section Handler.
Context `{JSON}.

(** [handler(event)] of the removal function. *)
Definition handler (ev : event) : M response :=
  if String.eqb (httpMethod ev) "OPTIONS" then
    ret (mkResponse 200
           [ ("Access-Control-Allow-Origin", "*");
             ("Access-Control-Allow-Headers", "Content-Type");
             ("Access-Control-Allow-Methods", "DELETE, OPTIONS") ]
           "")
  else if negb (String.eqb (httpMethod ev) "DELETE") then
    ret (error_response 405 "Method not allowed")
  else
    try_catch
      (await parsed := lift (match JSON_parse (body ev) with
                            | Some v => Ok v
                            | None => Throw SyntaxError
                            end) in
       await url := lift (get_prop parsed "url") in
       if negb (truthy url) then
         ret (error_response 400 "URL is required")
       else
         await _ := markActivityRemoved url in
         ret (mkResponse 200
                [ ("Content-Type", "application/json");
                  ("Access-Control-Allow-Origin", "*") ]
                (JSON_stringify
                   (VObj [ ("success", VBool true);
                           ("message",
                            VStr "Activity removed successfully") ]))))
      (fun error =>
         if message_is error "Activity not found" then
           ret (error_response 404 "Activity not found")
         else
           ret (error_response 500 "Failed to remove activity")).

End Handler.
End DeleteActivity.

(* ===================================================================== *)
(** * Vocabulary for the store and the handlers *)
(* ===================================================================== *)

(** A table whose cells are all strings, as the service returns them. *)
Definition text_row (r : row) : bool := forallb is_text r.
Definition text_table (t : table) : bool := forallb text_row t.

(** The data rows whose key cell is the url. *)
Definition key_rows (url : value) (t : table) : list row :=
  List.filter (fun r => strict_eq (cell r 0) url) (drop 1 t).

(** [{ ...currentActivity, ...updates }], the record [updateActivity]
    makes of the decoded row and the update. *)
Definition merged_record (current : option object) (updates : value)
  : object :=
  spread (spread [] (from_option VObj VNull current)) updates.

(** [a.url !== url], the records a listing keeps once [url] is gone. *)
Definition other_url (url : value) (a : object) : bool :=
  negb (strict_eq (obj_get a "url") url).

(** A string that is empty or begins with a character that is no white
    space. *)
Definition no_ws_head (s : string) : Prop :=
  match s with
  | EmptyString => True
  | String c _ => is_ws c = false
  end.


(** A backslash followed by [n] occurs in the string. *)
Fixpoint has_escaped_newline (s : string) : bool :=
  match s with
  | EmptyString => false
  | String c r =>
      match r with
      | String "n" _ => Ascii.eqb c "\" || has_escaped_newline r
      | _ => has_escaped_newline r
      end
  end.

Section ListingVocabulary.
Context `{JSON}.

(** The records [getAllActivities] makes of the rows it has read:
    [rows.map(rowToActivity).filter(a => a && !a.userRemoved)]. *)
Definition visible_records (rows : list row) : outcome (list object) :=
  obind (map_outcome rowToActivity rows)
        (fun d => Ok (omap id (List.filter visible d))).

End ListingVocabulary.

(** The status codes the handlers answer with. *)
Definition status_codes : list nat := [200; 400; 404; 405; 500].

Section Endpoints.
Context `{JSON}.

(** The four functions, each with the method it serves. *)
Definition endpoints : list (string * (event -> M response)) :=
  [ ("PUT", handler); ("PUT", UpdateComment.handler);
    ("GET", GetActivities.handler); ("DELETE", DeleteActivity.handler) ].

(** The three functions that read a url from the request body, each with
    its method and the message of its status 500. *)
Definition writers : list (string * string * (event -> M response)) :=
  [ ("PUT", "Failed to update rating", handler);
    ("PUT", "Failed to update comment", UpdateComment.handler);
    ("DELETE", "Failed to remove activity", DeleteActivity.handler) ].

(** The answer with status 200 that carries the record read back. *)
Definition success_response (activity : value) : response :=
  mkResponse 200
    [ ("Content-Type", "application/json");
      ("Access-Control-Allow-Origin", "*") ]
    (JSON_stringify (VObj [ ("success", VBool true);
                            ("activity", activity) ])).

(** What every answer has in common. *)
Definition answered (r : outcome response * store) : Prop :=
  exists (resp : response) (st' : store),
    r = (Ok resp, st') /\
    statusCode resp ∈ status_codes /\
    ("Access-Control-Allow-Origin", "*") ∈ headers resp.

End Endpoints.

(** ** Sample data for the handlers *)

(** A second record of the sample table. *)
Definition park_row : row :=
  VStr <$> [ "https://p"; "Park"; "true"; "2024-05-05"; "outdoor";
             ""; ""; "slide, swing"; ""; "3" ].

Definition park : object :=
  [ ("url", VStr "https://p"); ("shortName", VStr "Park");
    ("alive", VBool true); ("lastUpdated", VStr "2024-05-05");
    ("category", VStr "outdoor");
    ("services", VArr [VStr "slide"; VStr "swing"]);
    ("userRating", VNum (Int 3)) ].

Definition two_table : table := [header; zoo_row; park_row].

(** Request bodies. *)
Definition comment_body : value :=
  VObj [ ("url", VStr "https://a"); ("comment", VStr "  nice place ") ].

Definition number_comment_body : value :=
  VObj [ ("url", VStr "https://a"); ("comment", VNum (Int 7)) ].

Definition url_body : value := VObj [ ("url", VStr "https://a") ].

Definition no_url_body : value := VObj [ ("rating", VNum (Int 3)) ].

Definition unknown_url_body : value := VObj [ ("url", VStr "https://z") ].

Definition half_rating_body : value :=
  VObj [ ("url", VStr "https://a"); ("rating", VNum (Fin false 4 [d5])) ].

Definition more_bodies : list value :=
  [ comment_body; number_comment_body; url_body; no_url_body;
    unknown_url_body; half_rating_body ].
(* ===================================================================== *)
(** * Properties *)
(* ===================================================================== *)

(** ** Objects *)

Lemma obj_get_set (o : object) (k k' : string) (v : value) :
  obj_get (obj_set o k v) k' = if String.eqb k k' then v else obj_get o k'.
Proof.
  induction o as [|[k0 v0] o IH]; simpl.
  - reflexivity.
  - destruct (String.eqb k0 k) eqn:E0; simpl.
    + apply String.eqb_eq in E0; subst k0.
      destruct (String.eqb k k'); reflexivity.
    + rewrite IH. destruct (String.eqb k0 k') eqn:E1; [|reflexivity].
      apply String.eqb_eq in E1; subst k0.
      rewrite String.eqb_sym, E0. reflexivity.
Qed.

Lemma obj_has_set (o : object) (k k' : string) (v : value) :
  obj_has (obj_set o k v) k' = String.eqb k k' || obj_has o k'.
Proof.
  induction o as [|[k0 v0] o IH]; simpl.
  - rewrite orb_false_r. reflexivity.
  - destruct (String.eqb k0 k) eqn:E0; simpl.
    + apply String.eqb_eq in E0; subst k0.
      destruct (String.eqb k k'); reflexivity.
    + rewrite IH. destruct (String.eqb k0 k'), (String.eqb k k'); reflexivity.
Qed.

Lemma obj_get_assign_if (b : bool) (o : object) (k k' : string) (v : value) :
  obj_get (assign_if b o k v) k'
  = if b && String.eqb k k' then v else obj_get o k'.
Proof. destruct b; simpl; [apply obj_get_set | reflexivity]. Qed.

Lemma obj_has_assign_if (b : bool) (o : object) (k k' : string) (v : value) :
  obj_has (assign_if b o k v) k'
  = (b && String.eqb k k') || obj_has o k'.
Proof. destruct b; simpl; [apply obj_has_set | reflexivity]. Qed.

Lemma obj_has_false_get (o : object) (k : string) :
  obj_has o k = false -> obj_get o k = VUndefined.
Proof.
  induction o as [|[k0 v0] o IH]; simpl; [reflexivity|].
  destruct (String.eqb k0 k); simpl; [discriminate | exact IH].
Qed.

Lemma is_true_literal_spec (v : value) :
  strict_eq v (VStr "true") || strict_eq v (VBool true) = true
  <-> is_true_literal v.
Proof.
  unfold is_true_literal. split.
  - destruct v as [| |b|n|s|l|o]; simpl; try discriminate.
    + destruct b; [right; reflexivity | discriminate].
    + rewrite orb_false_r. intros E%String.eqb_eq. left; congruence.
  - intros [->| ->]; reflexivity.
Qed.


(** ** The codec, field by field *)

(** Reading one field of a decoded record. *)
Ltac decoded_field :=
  unfold decoded; cbv zeta;
  rewrite ?obj_get_assign_if, ?obj_has_assign_if;
  cbn [String.eqb Ascii.eqb Bool.eqb obj_get obj_has];
  rewrite ?andb_false_r, ?andb_true_r, ?orb_false_r, ?orb_false_l.

Section CodecFacts.
Context `{JSON}.

Lemma rowToActivity_unfold (r : row) :
  rowToActivity r =
    if negb (truthy (cell r (COL "url"))) then Ok None
    else if truthy (cell r (COL "services")) then
      obind (parse_services (cell r (COL "services")))
            (fun svc => Ok (Some (decoded r svc)))
    else Ok (Some (decoded r VUndefined)).
Proof.
  unfold rowToActivity, decoded.
  destruct (truthy (cell r (COL "url"))); simpl; [|reflexivity].
  destruct (truthy (cell r (COL "services"))); simpl; [|reflexivity].
  destruct (parse_services _); reflexivity.
Qed.

Lemma rowToActivity_Some (r : row) (a : object) :
  rowToActivity r = Ok (Some a) ->
  truthy (cell r (COL "url")) = true /\
  exists svc, a = decoded r svc /\
    (truthy (cell r (COL "services")) = true ->
     parse_services (cell r (COL "services")) = Ok svc).
Proof.
  rewrite rowToActivity_unfold.
  destruct (truthy (cell r (COL "url"))); simpl; [|discriminate].
  destruct (truthy (cell r (COL "services"))).
  - destruct (parse_services _) as [svc|]; simpl; [|discriminate].
    intros [= <-]. split; [reflexivity|]. exists svc. auto.
  - intros [= <-]. split; [reflexivity|]. exists VUndefined.
    split; [reflexivity | discriminate].
Qed.

Lemma rowToActivity_None (r : row) :
  truthy (cell r (COL "url")) = false -> rowToActivity r = Ok None.
Proof. intros E. unfold rowToActivity. rewrite E. reflexivity. Qed.

(** A row with a url and a readable services cell decodes to a record. *)
Lemma rowToActivity_total (r : row) :
  truthy (cell r (COL "url")) = true ->
  services_readable r ->
  exists a, rowToActivity r = Ok (Some a).
Proof.
  intros Hurl Hsvc. rewrite rowToActivity_unfold, Hurl. simpl.
  destruct (truthy (cell r (COL "services"))) eqn:Hs; [|eauto].
  unfold parse_services.
  destruct (JSON_parse _) eqn:Hp; simpl; [eauto|].
  destruct (Hsvc Hs) as [[s Hc]|Hne]; [|congruence].
  rewrite Hc. simpl. eauto.
Qed.


Lemma decoded_url r svc :
  obj_get (decoded r svc) "url" = js_or (cell r (COL "url")) (VStr "").
Proof. decoded_field. reflexivity. Qed.

Lemma decoded_alive r svc :
  obj_get (decoded r svc) "alive"
  = VBool (strict_eq (cell r (COL "alive")) (VStr "true")
           || strict_eq (cell r (COL "alive")) (VBool true)).
Proof. decoded_field. reflexivity. Qed.

Lemma decoded_userRemoved r svc :
  obj_get (decoded r svc) "userRemoved"
  = if strict_eq (cell r (COL "userRemoved")) (VStr "true")
       || strict_eq (cell r (COL "userRemoved")) (VBool true)
    then VBool true else VUndefined.
Proof. decoded_field. reflexivity. Qed.

Lemma decoded_has_userRemoved r svc :
  obj_has (decoded r svc) "userRemoved"
  = (strict_eq (cell r (COL "userRemoved")) (VStr "true")
     || strict_eq (cell r (COL "userRemoved")) (VBool true)).
Proof. decoded_field. reflexivity. Qed.

Lemma decoded_userRating r svc :
  obj_get (decoded r svc) "userRating"
  = if truthy (cell r (COL "userRating"))
    then VNum (parseInt (cell r (COL "userRating"))) else VUndefined.
Proof. decoded_field. reflexivity. Qed.

(** The decoder does not see a trailing empty cell: a row decodes the
    same with or without it. *)
Lemma rowToActivity_trailing_blank (r : row) :
  rowToActivity (r ++ [VStr ""]) = rowToActivity r.
Proof.
  do 15 (destruct r as [|? r]; [reflexivity|]). reflexivity.
Qed.

(** C7: every row is decoded: a row without url to no record, and a row
    with a url to a record, provided its services cell can be read and the
    cells the decoder converts can be converted.  In whatever record a row
    decodes to, [alive], resp. [userRemoved], is [true] exactly when the
    cell is the string ["true"] or the boolean [true]; for any other cell,
    ["TRUE"] and ["1"] included, [alive] is [false] and [userRemoved] is
    absent from the record. *)
Theorem rowToActivity_boolean_columns (r : row) :
  (truthy (cell r (COL "url")) = false -> rowToActivity r = Ok None) /\
  (truthy (cell r (COL "url")) = true ->
   services_readable r ->
   cells_printable r = true ->
   exists a : object, rowToActivity r = Ok (Some a)) /\
  (forall a : object,
     rowToActivity r = Ok (Some a) ->
     (obj_get a "alive" = VBool true
        <-> is_true_literal (cell r (COL "alive"))) /\
     (~ is_true_literal (cell r (COL "alive"))
        -> obj_get a "alive" = VBool false) /\
     (obj_get a "userRemoved" = VBool true
        <-> is_true_literal (cell r (COL "userRemoved"))) /\
     (~ is_true_literal (cell r (COL "userRemoved"))
        -> obj_has a "userRemoved" = false)) /\
  ~ is_true_literal (VStr "TRUE") /\ ~ is_true_literal (VStr "1").
Proof.
  split; [apply rowToActivity_None|].
  split; [intros Hurl Hsvc _; apply rowToActivity_total; assumption|].
  split; [|split; intros [E|E]; discriminate E].
  intros a (_ & svc & -> & _)%rowToActivity_Some.
  rewrite decoded_alive, decoded_userRemoved, decoded_has_userRemoved.
  rewrite <- !is_true_literal_spec.
  repeat split.
  - intros [= E]. exact E.
  - intros ->. reflexivity.
  - intros E%not_true_is_false. rewrite E. reflexivity.
  - destruct (_ || _); [reflexivity | discriminate].
  - intros ->. reflexivity.
  - intros E%not_true_is_false. exact E.
Qed.

(** The row [activityToRow] builds, cell by cell. *)
Lemma activityToRow_cells (a : object) :
  activityToRow a =
    [ js_or (obj_get a "url") (VStr "");
      js_or (obj_get a "shortName") (VStr "");
      VStr (if truthy (obj_get a "alive") then "true" else "false");
      js_or (obj_get a "lastUpdated") (VStr "");
      js_or (obj_get a "category") (VStr "");
      js_or (obj_get a "openHours") (VStr "");
      js_or (obj_get a "address") (VStr "");
      (if truthy (obj_get a "services")
       then VStr (JSON_stringify (obj_get a "services")) else VStr "");
      js_or (obj_get a "description") (VStr "");
      (if not_nullish (obj_get a "userRating")
       then VStr (ToString (obj_get a "userRating")) else VStr "");
      (if not_nullish (obj_get a "drivingMinutes")
       then VStr (ToString (obj_get a "drivingMinutes")) else VStr "");
      (if not_nullish (obj_get a "transitMinutes")
       then VStr (ToString (obj_get a "transitMinutes")) else VStr "");
      (if not_nullish (obj_get a "distanceKm")
       then VStr (ToString (obj_get a "distanceKm")) else VStr "");
      js_or (obj_get a "userComment") (VStr "");
      VStr (if truthy (obj_get a "userRemoved") then "true" else "") ].
Proof. reflexivity. Qed.

Lemma activityToRow_length (a : object) : length (activityToRow a) = 15.
Proof. reflexivity. Qed.

(** A field that is not set is written as the empty string. *)
Lemma activityToRow_unset (a : object) (name : string) :
  name ∈ optional_fields -> obj_get a name = VUndefined ->
  cell (activityToRow a) (COL name) = VStr "".
Proof.
  rewrite activityToRow_cells.
  intros Hin Hun. unfold optional_fields in Hin.
  repeat (apply elem_of_cons in Hin as [->|Hin];
          [cbn [COL assoc COLUMNS String.eqb Ascii.eqb Bool.eqb default
                cell lookup list_lookup];
           rewrite Hun; reflexivity|]).
  apply elem_of_nil in Hin. destruct Hin.
Qed.

(** A field of the data model that is absent or of its type can be
    converted to a string. *)
Lemma absent_or_printable (p : value -> bool) (v : value) :
  (forall w, p w = true -> exists n, w = VNum n) ->
  absent_or p v = true -> printable v = true.
Proof.
  intros Hp Hv. destruct v; try reflexivity.
  all: destruct (Hp _ Hv) as [n Hn]; discriminate Hn.
Qed.

(** The encoder throws exactly when one of its four [String(...)] is
    applied to a value that cannot be converted. *)
Lemma activityToRow_throws_String (a : object) :
  activityToRow_throws a = true <->
  exists name : string,
    name ∈ String_fields /\
    not_nullish (obj_get a name) = true /\
    String_of (obj_get a name) = Throw TypeError.
Proof.
  unfold activityToRow_throws, String_fields. cbn [forallb]. split.
  - intros Hthrows.
    assert (Hex : exists name : string,
              name ∈ String_fields /\ printable (obj_get a name) = false).
    { destruct (printable (obj_get a "userRating")) eqn:E1;
        [|exists "userRating"; split;
          [apply list_elem_of_In; simpl; auto | exact E1]].
      destruct (printable (obj_get a "drivingMinutes")) eqn:E2;
        [|exists "drivingMinutes"; split;
          [apply list_elem_of_In; simpl; auto | exact E2]].
      destruct (printable (obj_get a "transitMinutes")) eqn:E3;
        [|exists "transitMinutes"; split;
          [apply list_elem_of_In; simpl; auto | exact E3]].
      destruct (printable (obj_get a "distanceKm")) eqn:E4;
        [discriminate Hthrows|].
      exists "distanceKm". split;
        [apply list_elem_of_In; simpl; auto | exact E4]. }
    destruct Hex as (name & Hin & Hname).
    exists name. split; [exact Hin|].
    unfold String_of. rewrite Hname. split; [|reflexivity].
    destruct (obj_get a name); try reflexivity; discriminate Hname.
  - intros (name & Hin & _ & Hthrow). unfold String_of in Hthrow.
    destruct (printable (obj_get a name)) eqn:E; [discriminate Hthrow|].
    unfold String_fields in Hin.
    repeat (apply elem_of_cons in Hin as [->|Hin];
            [rewrite E, ?andb_false_r; reflexivity|]).
    apply elem_of_nil in Hin. destruct Hin.
Qed.

(** The call of the encoder returns for every valid record. *)
Lemma valid_activity_encodes (a : object) :
  valid_activity a = true -> activityToRow_throws a = false.
Proof.
  unfold valid_activity. rewrite !andb_true_iff.
  intros ((((((((((((((_ & _) & _) & _) & _) & _) & _) & _) & _)
            & Hrating) & Hdriving) & Htransit) & Hdistance) & _) & _).
  unfold activityToRow_throws, String_fields. cbn [forallb].
  rewrite (absent_or_printable is_rating _ ltac:(intros [] E; try discriminate E; eauto) Hrating).
  rewrite (absent_or_printable is_integer _ ltac:(intros [] E; try discriminate E; eauto) Hdriving).
  rewrite (absent_or_printable is_integer _ ltac:(intros [] E; try discriminate E; eauto) Htransit).
  rewrite (absent_or_printable is_finite _ ltac:(intros [] E; try discriminate E; eauto) Hdistance).
  reflexivity.
Qed.

(** C8: for every valid record, and for any record whose numbers can be
    converted, [activityToRow] returns a row of exactly 15 cells in the
    order of the header: the cell at the position of a name in the header
    holds the encoding of the field of that name.  A field that is not set
    is written as the empty string, [alive] as ["true"] or ["false"], and
    [userRemoved] as ["true"] or the empty string. *)
Theorem activityToRow_shape (a : object) :
  (valid_activity a = true -> activityToRow_throws a = false) /\
  (activityToRow_throws a = false ->
   exists r : row,
     activityToRow_call a = Ok r /\
     length r = 15 /\
     length HEADER_ROW = 15 /\
     (forall (i : nat) (name : string),
        HEADER_ROW !! i = Some name ->
        assoc COLUMNS name = Some i /\
        r !! i = Some (encoded_field name (obj_get a name))) /\
     (forall name : string,
        name ∈ optional_fields ->
        obj_get a name = VUndefined ->
        cell r (COL name) = VStr "") /\
     cell r (COL "alive")
       = VStr (if truthy (obj_get a "alive") then "true" else "false") /\
     cell r (COL "userRemoved")
       = VStr (if truthy (obj_get a "userRemoved") then "true" else "")).
Proof.
  split; [apply valid_activity_encodes|].
  intros Hcall. exists (activityToRow a).
  split; [unfold activityToRow_call; rewrite Hcall; reflexivity|].
  split; [apply activityToRow_length|]. split; [reflexivity|].
  split; [|split; [|split]].
  - intros i name Hi. rewrite activityToRow_cells.
    do 15 (destruct i as [|i];
           [injection Hi as <-; split; reflexivity|]).
    discriminate.
  - apply activityToRow_unset.
  - reflexivity.
  - reflexivity.
Qed.

End CodecFacts.

(** ** Reading the table *)

Lemma map_outcome_Ok {A B} (f : A -> outcome B) (xs : list A) (ys : list B) :
  map_outcome f xs = Ok ys <-> Forall2 (fun x y => f x = Ok y) xs ys.
Proof.
  revert ys. induction xs as [|x xs IH]; intros ys; simpl.
  - split.
    + intros [= <-]. constructor.
    + intros Hf. inversion Hf. reflexivity.
  - split.
    + destruct (f x) as [y|] eqn:Hx; simpl; [|discriminate].
      destruct (map_outcome f xs) as [ys'|] eqn:Hxs; simpl; [|discriminate].
      intros [= <-]. constructor; [exact Hx | apply IH; reflexivity].
    + intros Hf. inversion Hf as [|? y ? ys' Hx Hxs]; subst.
      rewrite Hx. simpl. apply IH in Hxs. rewrite Hxs. reflexivity.
Qed.

Lemma map_outcome_total {A B} (f : A -> outcome B) (xs : list A) :
  Forall (fun x => exists y, f x = Ok y) xs ->
  exists ys, map_outcome f xs = Ok ys.
Proof.
  induction 1 as [|x xs [y Hy] _ [ys Hys]]; simpl.
  - eauto.
  - rewrite Hy, Hys. simpl. eauto.
Qed.

Lemma elem_of_visible (d : list (option object)) (a : object) :
  a ∈ omap id (List.filter visible d)
  <-> Some a ∈ d /\ truthy (obj_get a "userRemoved") = false.
Proof.
  rewrite list_elem_of_omap. split.
  - intros (x & Hx & Hid). simpl in Hid. subst x.
    apply list_elem_of_In, filter_In in Hx as [Hin Hv].
    split; [apply list_elem_of_In; exact Hin|].
    simpl in Hv. apply negb_true_iff in Hv. exact Hv.
  - intros [Hin Hv]. exists (Some a). split; [|reflexivity].
    apply list_elem_of_In, filter_In. split.
    + apply list_elem_of_In. exact Hin.
    + simpl. rewrite Hv. reflexivity.
Qed.

Lemma cell_take (n i : nat) (r : row) :
  i < n -> cell (take n r) i = cell r i.
Proof.
  intros Hi. unfold cell. rewrite lookup_take_lt by exact Hi. reflexivity.
Qed.

Lemma find_row_None (url : value) (rows : list row) (i : nat) :
  find_row url rows i = None
  <-> Forall (fun r => strict_eq (cell r 0) url = false) rows.
Proof.
  revert i. induction rows as [|r rows IH]; intros i; simpl.
  - split; [constructor | reflexivity].
  - destruct (strict_eq (cell r 0) url) eqn:E.
    + split; [discriminate|]. intros Hf. inversion Hf; congruence.
    + rewrite IH. split.
      * intros Hf. constructor; assumption.
      * intros Hf. inversion Hf; assumption.
Qed.

(** The row found is the first whose key cell is the url. *)
Lemma find_row_Some (url : value) (rows : list row) (i n : nat) :
  find_row url rows i = Some n ->
  exists j r, n = i + j + 1 /\ rows !! j = Some r
    /\ strict_eq (cell r 0) url = true
    /\ Forall (fun r' => strict_eq (cell r' 0) url = false) (take j rows).
Proof.
  revert i. induction rows as [|r rows IH]; intros i; simpl; [discriminate|].
  destruct (strict_eq (cell r 0) url) eqn:E.
  - intros [= <-]. exists 0, r. repeat split; [lia | exact E | constructor].
  - intros (j & r' & -> & Hj & Hr' & Hbefore)%IH.
    exists (S j), r'. repeat split; [lia | exact Hj | exact Hr' |].
    simpl. constructor; assumption.
Qed.

Lemma column_A_rows (t : table) :
  drop 1 (read_range ColumnA t) = take 1 <$> drop 1 t.
Proof. simpl. rewrite fmap_drop. reflexivity. Qed.

Lemma find_row_column_A (url : value) (rows : list row) (i : nat) :
  find_row url (take 1 <$> rows) i = find_row url rows i.
Proof.
  revert i. induction rows as [|r rows IH]; intros i; simpl; [reflexivity|].
  rewrite cell_take by lia. rewrite IH. reflexivity.
Qed.

Section StoreFacts.
Context `{JSON}.

Lemma findActivityRowIndex_run (url : value) (st : store) :
  findActivityRowIndex url st
  = (Ok (find_row url (drop 1 (sheet st)) 1),
     mkStore (sheet st) (log st ++ [Get ColumnA])).
Proof.
  unfold findActivityRowIndex, bind, values_get, ret.
  rewrite column_A_rows, find_row_column_A. reflexivity.
Qed.

Lemma getAllActivities_run (st : store) :
  getAllActivities st
  = (obind (map_outcome rowToActivity (read_range DataRows (sheet st)))
           (fun d => Ok (omap id (List.filter visible d))),
     mkStore (sheet st) (log st ++ [Get DataRows])).
Proof.
  unfold getAllActivities, bind, values_get, lift, ret.
  destruct (map_outcome _ _); reflexivity.
Qed.

(** The records [getAllActivities] returns are the decoded rows that are
    not marked as removed. *)
Lemma getAllActivities_elem (st st' : store) (l : list object) (a : object) :
  getAllActivities st = (Ok l, st') ->
  a ∈ l <->
  (exists r, r ∈ read_range DataRows (sheet st)
             /\ rowToActivity r = Ok (Some a))
  /\ truthy (obj_get a "userRemoved") = false.
Proof.
  rewrite getAllActivities_run.
  destruct (map_outcome _ _) as [d|] eqn:Hd; simpl; [|discriminate].
  intros [= <- _]. rewrite elem_of_visible.
  apply map_outcome_Ok in Hd.
  split; intros [Hin Hv]; (split; [|exact Hv]).
  - apply list_elem_of_lookup in Hin as [i Hi].
    destruct (Forall2_lookup_r _ _ _ _ _ Hd Hi) as (r & Hr & Hdec).
    exists r. split; [|exact Hdec]. eapply list_elem_of_lookup_2, Hr.
  - destruct Hin as (r & Hr & Hdec).
    apply list_elem_of_lookup in Hr as [i Hi].
    destruct (Forall2_lookup_l _ _ _ _ _ Hd Hi) as (y & Hy & Hdec').
    rewrite Hdec in Hdec'. injection Hdec' as <-.
    eapply list_elem_of_lookup_2, Hy.
Qed.


(** C3: when no row after the header has the url in its key cell,
    [updateActivityField] throws "Activity not found" whatever the field
    and the value; the only request sent is the read of the key column,
    and the table is the one before the call. *)
Theorem updateActivityField_not_found
    (url : value) (field : string) (v : value) (st : store) :
  Forall (fun r => strict_eq (cell r 0) url = false) (drop 1 (sheet st)) ->
  exists st' : store,
    updateActivityField url field v st
      = (Throw (Error "Activity not found"), st') /\
    sheet st' = sheet st /\
    log st' = log st ++ [Get ColumnA] /\
    List.filter is_write (log st') = List.filter is_write (log st).
Proof.
  intros Hnone. apply find_row_None with (i := 1) in Hnone.
  unfold updateActivityField, bind.
  rewrite findActivityRowIndex_run, Hnone.
  eexists. split; [reflexivity|]. simpl.
  split; [reflexivity|]. split; [reflexivity|].
  rewrite List.filter_app. simpl. rewrite app_nil_r. reflexivity.
Qed.

End StoreFacts.

(** ** Instances on the sample table *)

Lemma rowToActivity_boolean_columns_witness :
  exists a : object,
    @rowToActivity (json_of []) zoo_row = Ok (Some a) /\
    obj_get a "alive" = VBool true /\
    obj_has a "userRemoved" = false.
Proof.
  destruct (@rowToActivity_boolean_columns (json_of []) zoo_row)
    as (_ & Hdecodes & Hflags & _).
  destruct Hdecodes as [a Ha];
    [reflexivity | intros E; discriminate E | reflexivity |].
  destruct (Hflags a Ha) as (Halive & _ & _ & Hremoved).
  exists a. split; [exact Ha|]. split.
  - apply Halive. left. reflexivity.
  - apply Hremoved. intros [E|E]; discriminate E.
Defined.

Lemma activityToRow_shape_witness :
  exists r : row,
    @activityToRow_call (json_of []) playground = Ok r /\
    length r = 15 /\
    r !! 0 = Some (VStr "https://b") /\
    r !! 1 = Some (VStr "Playground") /\
    r !! 9 = Some (VStr "5").
Proof.
  destruct (@activityToRow_shape (json_of []) playground) as [Hvalid Hrow].
  destruct (Hrow (Hvalid ltac:(vm_compute; reflexivity)))
    as (r & Hcall & Hlen & _ & Hcells & _).
  exists r. split; [exact Hcall|]. split; [exact Hlen|].
  split; [exact (proj2 (Hcells 0 "url" eq_refl))|].
  split; [exact (proj2 (Hcells 1 "shortName" eq_refl))|].
  exact (proj2 (Hcells 9 "userRating" eq_refl)).
Defined.

Lemma updateActivityField_not_found_witness :
  exists st' : store,
    @updateActivityField (json_of []) (VStr "https://b") "userRating"
       (VNum (Int 4)) (mkStore zoo_table [])
      = (Throw (Error "Activity not found"), st') /\
    sheet st' = zoo_table /\
    log st' = [Get ColumnA] /\
    List.filter is_write (log st') = [].
Proof.
  apply (@updateActivityField_not_found (json_of []) (VStr "https://b")
           "userRating" (VNum (Int 4)) (mkStore zoo_table [])).
  repeat constructor.
Defined.
Section RatingFacts.
Context `{JSON}.


End RatingFacts.


(** ** Object spread *)

Lemma obj_has_elem_of (o : object) (k : string) :
  obj_has o k = true <-> k ∈ o.*1.
Proof.
  induction o as [|[k0 v0] o IH]; simpl.
  - split; [discriminate | intros Hin; inversion Hin].
  - rewrite orb_true_iff, IH, elem_of_cons, String.eqb_eq.
    split; intros [E|E]; auto.
Qed.

Lemma obj_get_elem_of (o : object) (k : string) (v : value) :
  NoDup o.*1 -> (k, v) ∈ o -> obj_get o k = v.
Proof.
  induction o as [|[k0 v0] o IH]; simpl; intros Hnd Hin.
  - inversion Hin.
  - apply NoDup_cons in Hnd as [Hk0 Hnd].
    apply elem_of_cons in Hin as [[= -> ->]|Hin].
    + rewrite String.eqb_refl. reflexivity.
    + destruct (String.eqb k0 k) eqn:E; [|auto].
      apply String.eqb_eq in E; subst k0. exfalso. apply Hk0.
      apply list_elem_of_fmap. exists (k, v). auto.
Qed.

Lemma fold_obj_set_other (p o : object) (k : string) :
  obj_has p k = false ->
  obj_get (fold_left (fun acc kv => obj_set acc kv.1 kv.2) p o) k
  = obj_get o k.
Proof.
  revert o. induction p as [|[k0 v0] p IH]; intros o; simpl; [reflexivity|].
  intros [E0 Hp]%orb_false_elim. rewrite IH by exact Hp.
  rewrite obj_get_set, E0. reflexivity.
Qed.

Lemma fold_obj_set_elem_of (p o : object) (k : string) (v : value) :
  NoDup p.*1 -> (k, v) ∈ p ->
  obj_get (fold_left (fun acc kv => obj_set acc kv.1 kv.2) p o) k = v.
Proof.
  revert o. induction p as [|[k0 v0] p IH]; intros o; simpl; intros Hnd Hin.
  - inversion Hin.
  - apply NoDup_cons in Hnd as [Hk0 Hnd].
    apply elem_of_cons in Hin as [[= -> ->]|Hin]; [|auto].
    rewrite fold_obj_set_other.
    + rewrite obj_get_set, String.eqb_refl. reflexivity.
    + destruct (obj_has p k0) eqn:E; [|reflexivity].
      apply obj_has_elem_of in E. contradiction.
Qed.

(** [{...o, ...u}]: a property of [u] wins; the others are those of [o]. *)
Lemma spread_get_own (o : object) (u : value) (k : string) (v : value) :
  NoDup (own_props u).*1 -> (k, v) ∈ own_props u ->
  obj_get (spread o u) k = v.
Proof. apply fold_obj_set_elem_of. Qed.




Lemma obj_set_keys (o : object) (k : string) (v : value) :
  (obj_set o k v).*1 = if obj_has o k then o.*1 else o.*1 ++ [k].
Proof.
  induction o as [|[k0 v0] o IH]; [reflexivity|].
  cbn [obj_set obj_has]. destruct (String.eqb k0 k) eqn:E; [reflexivity|].
  rewrite !fmap_cons, IH. cbn [orb].
  destruct (obj_has o k); reflexivity.
Qed.

Lemma obj_set_NoDup (o : object) (k : string) (v : value) :
  NoDup o.*1 -> NoDup (obj_set o k v).*1.
Proof.
  intros Hnd. rewrite obj_set_keys.
  destruct (obj_has o k) eqn:E; [exact Hnd|].
  apply NoDup_app. split; [exact Hnd|]. split; [|apply NoDup_singleton].
  intros x Hx Hk. apply list_elem_of_singleton in Hk. subst x.
  apply obj_has_elem_of in Hx. congruence.
Qed.

Lemma assign_if_NoDup (b : bool) (o : object) (k : string) (v : value) :
  NoDup o.*1 -> NoDup (assign_if b o k v).*1.
Proof. destruct b; simpl; [apply obj_set_NoDup | auto]. Qed.

Section DecodedKeys.
Context `{JSON}.
Lemma decoded_NoDup (r : row) (svc : value) : NoDup (decoded r svc).*1.
Proof.
  unfold decoded. cbv zeta. repeat apply assign_if_NoDup.
  apply (bool_decide_unpack _). vm_compute. exact I.
Qed.
End DecodedKeys.

(** ** Writing the table *)

Lemma pad_to_id {A} (n : nat) (x : A) (l : list A) :
  n <= length l -> pad_to n x l = l.
Proof.
  intros Hn. unfold pad_to. replace (n - length l) with 0 by lia.
  simpl. apply app_nil_r.
Qed.

Lemma alter_row_length (f : row -> row) (n : nat) (t : table) :
  n - 1 < length t -> length (alter_row f n t) = length t.
Proof.
  intros Hn. unfold alter_row.
  rewrite length_insert, pad_to_id by lia. reflexivity.
Qed.

Lemma alter_row_same (f : row -> row) (n : nat) (t : table) :
  n - 1 < length t -> row_at (alter_row f n t) n = f (row_at t n).
Proof.
  intros Hn. unfold alter_row, row_at at 1.
  rewrite pad_to_id by lia.
  rewrite list_lookup_insert_eq by exact Hn. reflexivity.
Qed.

Lemma alter_row_other (f : row -> row) (n : nat) (t : table) (j : nat) :
  n - 1 < length t -> j <> n - 1 -> alter_row f n t !! j = t !! j.
Proof.
  intros Hn Hj. unfold alter_row. rewrite pad_to_id by lia.
  apply list_lookup_insert_ne. auto.
Qed.

Lemma set_cell_same (c : nat) (v : value) (r : row) :
  cell (set_cell c v r) c = v.
Proof.
  unfold set_cell, cell, pad_to.
  rewrite list_lookup_insert_eq; [reflexivity|].
  rewrite length_app, length_replicate. lia.
Qed.

Lemma set_cell_other (c k : nat) (v : value) (r : row) :
  k <> c -> same_content (cell (set_cell c v r) k) (cell r k).
Proof.
  intros Hk. unfold set_cell, cell, pad_to.
  rewrite list_lookup_insert_ne by auto.
  destruct (decide (k < length r)) as [Hlt|Hge].
  - rewrite lookup_app_l by exact Hlt. left. reflexivity.
  - rewrite lookup_app_r by lia.
    rewrite (lookup_ge_None_2 r k) by lia. simpl.
    destruct (replicate _ _ !! _) as [x|] eqn:Hx.
    + apply lookup_replicate in Hx as [-> _]. right.
      split; [right | left]; reflexivity.
    + left. reflexivity.
Qed.

(** The row that [find_row] reports. *)
Lemma find_row_found (url : value) (t : table) (n : nat) :
  find_row url (drop 1 t) 1 = Some n ->
  2 <= n /\ n - 1 < length t /\
  strict_eq (cell (row_at t n) 0) url = true /\
  Forall (fun r' => strict_eq (cell r' 0) url = false)
         (take (n - 2) (drop 1 t)).
Proof.
  intros (j & r & -> & Hj & Hr & Hbefore)%find_row_Some.
  rewrite lookup_drop in Hj.
  replace (1 + j + 1 - 1) with (1 + j) by lia.
  replace (1 + j + 1 - 2) with j by lia.
  split; [lia|]. split; [eapply lookup_lt_Some; exact Hj|].
  split; [|exact Hbefore].
  unfold row_at. replace (1 + j + 1 - 1) with (1 + j) by lia.
  rewrite Hj. exact Hr.
Qed.

Section UpdateFacts.
Context `{JSON}.

(** The current row as [updateActivity] reads it. *)
Lemma current_row_read (url : value) (t : table) (n : nat) :
  find_row url (drop 1 t) 1 = Some n ->
  default [] (head (read_range (RowAO n) t)) = take 15 (row_at t n).
Proof.
  intros (_ & Hlen & _)%find_row_found.
  cbn [read_range]. unfold row_at.
  destruct (t !! (n - 1)) as [x|] eqn:Hx; [reflexivity|].
  apply lookup_ge_None in Hx. lia.
Qed.

Lemma updateActivity_run
    (url u : value) (st : store) (n : nat) (cur : option object) :
  find_row url (drop 1 (sheet st)) 1 = Some n ->
  rowToActivity (default [] (head (read_range (RowAO n) (sheet st))))
    = Ok cur ->
  let merged := spread (spread [] (from_option VObj VNull cur)) u in
  activityToRow_throws merged = false ->
  updateActivity url u st
  = (Ok merged,
     mkStore (write_range (RowAO n) [activityToRow merged] (sheet st))
             (log st ++ [Get ColumnA; Get (RowAO n);
                         Update (RowAO n) [activityToRow merged]])).
Proof.
  intros Hfind Hcur merged Hcall.
  unfold updateActivity, bind. rewrite findActivityRowIndex_run, Hfind.
  unfold values_get, lift, values_update, ret. cbn [sheet log].
  rewrite Hcur. unfold activityToRow_call. fold merged. rewrite Hcall.
  cbn [sheet log]. rewrite <- !app_assoc. reflexivity.
Qed.

(** When the encoder throws, [updateActivity] has read the key column and
    the row, and writes nothing. *)
Lemma updateActivity_throws
    (url u : value) (st : store) (n : nat) (cur : option object) :
  find_row url (drop 1 (sheet st)) 1 = Some n ->
  rowToActivity (default [] (head (read_range (RowAO n) (sheet st))))
    = Ok cur ->
  activityToRow_throws (spread (spread [] (from_option VObj VNull cur)) u)
    = true ->
  updateActivity url u st
  = (Throw TypeError,
     mkStore (sheet st) (log st ++ [Get ColumnA; Get (RowAO n)])).
Proof.
  intros Hfind Hcur Hcall.
  unfold updateActivity, bind. rewrite findActivityRowIndex_run, Hfind.
  unfold values_get, lift, values_update, ret. cbn [sheet log].
  rewrite Hcur. unfold activityToRow_call. rewrite Hcall.
  cbn [sheet log]. rewrite <- !app_assoc. reflexivity.
Qed.

End UpdateFacts.



Section RereadFacts.
Context `{JSON}.

(** The first visible record with the url is the decoding of the first
    row with that key, provided that row decodes to a visible record with
    the url. *)
Lemma find_by_url_first
    (url : value) (rows : list row) (d : list (option object))
    (j : nat) (r : row) (a : object) :
  Forall2 (fun r y => rowToActivity r = Ok y) rows d ->
  rows !! j = Some r ->
  rowToActivity r = Ok (Some a) ->
  truthy (obj_get a "userRemoved") = false ->
  strict_eq (obj_get a "url") url = true ->
  Forall (fun r' => strict_eq (cell r' 0) url = false) (take j rows) ->
  find_by_url url (omap id (List.filter visible d)) = VObj a.
Proof.
  intros Hd. revert j.
  induction Hd as [|r0 y0 rows d Hr0 Hd IH]; intros j Hj Hdec Hvis Hurl Hbefore.
  - discriminate.
  - destruct j as [|j]; simpl in Hj.
    + injection Hj as ->. rewrite Hdec in Hr0. injection Hr0 as <-.
      unfold find_by_url. simpl. rewrite Hvis. simpl. rewrite Hurl.
      reflexivity.
    + simpl in Hbefore. apply Forall_cons in Hbefore as [Hr0url Hbefore].
      specialize (IH j Hj Hdec Hvis Hurl Hbefore).
      destruct y0 as [a0|]; simpl; [|exact IH].
      destruct (negb (truthy (obj_get a0 "userRemoved"))); [|exact IH].
      unfold find_by_url. simpl.
      destruct (rowToActivity_Some _ _ Hr0) as (Hu & svc & -> & _).
      rewrite decoded_url. unfold js_or. rewrite Hu.
      change (COL "url") with 0. rewrite Hr0url. exact IH.
Qed.

(** The formatting of a value, branch by branch: only the last branch,
    [String(value)], may throw. *)
Lemma format_cell_call_branches (v : value) :
  format_cell_call v =
    if negb (not_nullish v) then Ok (VStr "")
    else match v with
         | VBool b => Ok (VStr (if b then "true" else "false"))
         | VArr _ => Ok (VStr (JSON_stringify v))
         | _ => obind (String_of v) (fun s => Ok (VStr s))
         end.
Proof.
  unfold format_cell_call, format_cell_throws, format_cell, String_of.
  destruct v; try reflexivity.
  cbn [not_nullish negb]. destruct (printable _); reflexivity.
Qed.

Lemma updateActivityField_run
    (url : value) (field : string) (v : value) (st : store) (n c : nat) :
  find_row url (drop 1 (sheet st)) 1 = Some n ->
  assoc COLUMNS field = Some c ->
  format_cell_throws v = false ->
  updateActivityField url field v st
  = getActivityByUrl url
      (mkStore (write_range (Cell c n) [[format_cell v]] (sheet st))
               (log st ++ [Get ColumnA;
                           Update (Cell c n) [[format_cell v]]])).
Proof.
  intros Hfind Hcol Hv.
  unfold updateActivityField, getActivityByUrl, bind.
  rewrite findActivityRowIndex_run, Hfind, Hcol.
  unfold format_cell_call. rewrite Hv.
  unfold lift, values_update. cbn [sheet log].
  rewrite <- app_assoc. reflexivity.
Qed.

(** When [String(value)] throws, [updateActivityField] has only read the
    key column. *)
Lemma updateActivityField_throws
    (url : value) (field : string) (v : value) (st : store) (n c : nat) :
  find_row url (drop 1 (sheet st)) 1 = Some n ->
  assoc COLUMNS field = Some c ->
  format_cell_throws v = true ->
  updateActivityField url field v st
  = (Throw TypeError, mkStore (sheet st) (log st ++ [Get ColumnA])).
Proof.
  intros Hfind Hcol Hv.
  unfold updateActivityField, bind.
  rewrite findActivityRowIndex_run, Hfind, Hcol.
  unfold format_cell_call. rewrite Hv. reflexivity.
Qed.

Lemma getActivityByUrl_run (url : value) (st : store) :
  getActivityByUrl url st
  = (obind (map_outcome rowToActivity (read_range DataRows (sheet st)))
           (fun d => Ok (find_by_url url (omap id (List.filter visible d)))),
     mkStore (sheet st) (log st ++ [Get DataRows])).
Proof.
  unfold getActivityByUrl, bind. rewrite getAllActivities_run.
  destruct (map_outcome _ _); reflexivity.
Qed.

(** The write of [updateActivityField]: the requests sent, the table
    left behind, and the cell written. *)
Lemma updateActivityField_written
    (url : value) (field : string) (v : value) (st : store) (n c : nat) :
  find_row url (drop 1 (sheet st)) 1 = Some n ->
  assoc COLUMNS field = Some c ->
  format_cell_throws v = false ->
  log (updateActivityField url field v st).2
    = log st ++ [Get ColumnA; Update (Cell c n) [[format_cell v]];
                 Get DataRows] /\
  sheet (updateActivityField url field v st).2
    = write_range (Cell c n) [[format_cell v]] (sheet st) /\
  cell (row_at (write_range (Cell c n) [[format_cell v]] (sheet st)) n) c
    = format_cell v.
Proof.
  intros Hfind Hcol Hv.
  rewrite (updateActivityField_run url field v st n c Hfind Hcol Hv),
    getActivityByUrl_run.
  cbn [fst snd log sheet].
  split; [rewrite <- app_assoc; reflexivity|]. split; [reflexivity|].
  destruct (find_row_found _ _ _ Hfind) as (_ & Hlen & _).
  cbn [write_range]. rewrite alter_row_same by exact Hlen.
  apply set_cell_same.
Qed.

(** C4 (amended): for a url found in the table, a known field and a
    value that can be formatted, [updateActivityField] sends one write,
    for the single cell of that field in the first row whose key is the
    url (the other rows and the content of the other cells are as before),
    and then returns what [getActivityByUrl] reads in the table so
    written.  The result is the decoding of the written row whenever that
    row decodes to a record that is not removed and still has the url.
    For a value that cannot be formatted, [String(value)] throwing, the
    call throws a [TypeError] after the read of the key column and writes
    nothing. *)
Theorem updateActivityField_writes_then_rereads
    (url : value) (field : string) (v : value) (st : store) (n c : nat) :
  find_row url (drop 1 (sheet st)) 1 = Some n ->
  assoc COLUMNS field = Some c ->
  let t' := write_range (Cell c n) [[format_cell v]] (sheet st) in
  let st' := mkStore t' (log st ++ [Get ColumnA;
                                    Update (Cell c n) [[format_cell v]]]) in
  (format_cell_throws v = true ->
   updateActivityField url field v st
     = (Throw TypeError, mkStore (sheet st) (log st ++ [Get ColumnA]))) /\
  (format_cell_throws v = false ->
   updateActivityField url field v st = getActivityByUrl url st' /\
   log (updateActivityField url field v st).2
     = log st ++ [Get ColumnA; Update (Cell c n) [[format_cell v]];
                  Get DataRows] /\
   sheet (updateActivityField url field v st).2 = t' /\
   length t' = length (sheet st) /\
   cell (row_at t' n) c = format_cell v /\
   (forall k, k <> c ->
      same_content (cell (row_at t' n) k) (cell (row_at (sheet st) n) k)) /\
   (forall m, m <> n -> 1 <= m -> row_at t' m = row_at (sheet st) m) /\
   (forall a : object,
      rowToActivity (take 15 (row_at t' n)) = Ok (Some a) ->
      strict_eq (obj_get a "url") url = true ->
      obj_has a "userRemoved" = false ->
      forall res, (updateActivityField url field v st).1 = Ok res ->
                  res = VObj a)).
Proof.
  intros Hfind Hcol t' st'.
  split; [apply (updateActivityField_throws _ _ _ _ n c); assumption|].
  intros Hv.
  pose proof (updateActivityField_run url field v st n c Hfind Hcol Hv)
    as Hrun.
  fold t' in Hrun. fold st' in Hrun.
  destruct (find_row_found _ _ _ Hfind) as (Hn & Hlen & Hkey & Hbefore).
  split; [exact Hrun|]. rewrite Hrun, getActivityByUrl_run.
  cbn [fst snd log sheet st'].
  split; [rewrite <- app_assoc; reflexivity|]. split; [reflexivity|].
  subst t'. cbn [write_range].
  split; [apply alter_row_length; exact Hlen|].
  rewrite alter_row_same by exact Hlen.
  split; [apply set_cell_same|]. split; [intros k; apply set_cell_other|].
  split.
  - intros m Hm Hm1. unfold row_at at 1.
    rewrite alter_row_other by (try exact Hlen; lia). reflexivity.
  - intros a Hdec Hurl Hvis res.
    destruct (map_outcome _ _) as [d|] eqn:Hd; simpl; [|discriminate].
    intros [= <-]. apply map_outcome_Ok in Hd.
    apply (find_by_url_first url _ d (n - 2)
             (take 15 (set_cell c (format_cell v) (row_at (sheet st) n)))
             a Hd).
    + cbn [read_range]. rewrite list_lookup_fmap, lookup_drop.
      replace (1 + (n - 2)) with (n - 1) by lia.
      pose proof (alter_row_same (set_cell c (format_cell v)) n (sheet st)
                    Hlen) as Hsame.
      unfold row_at at 1 in Hsame.
      destruct (alter_row _ n (sheet st) !! (n - 1)) as [x|] eqn:Hx.
      * simpl in Hsame. subst x. reflexivity.
      * apply lookup_ge_None in Hx.
        rewrite alter_row_length in Hx by exact Hlen. lia.
    + exact Hdec.
    + rewrite obj_has_false_get by exact Hvis. reflexivity.
    + exact Hurl.
    + cbn [read_range]. rewrite <- fmap_take, take_drop_commute.
      replace (1 + (n - 2)) with (n - 1) by lia.
      assert (Heq : take (n - 1)
                         (alter_row (set_cell c (format_cell v)) n (sheet st))
                    = take (n - 1) (sheet st)).
      { unfold alter_row. rewrite pad_to_id by lia.
        apply take_insert_ge. lia. }
      rewrite Heq. replace (n - 1) with (1 + (n - 2)) by lia.
      rewrite <- take_drop_commute.
      rewrite Forall_fmap. eapply Forall_impl; [exact Hbefore|].
      intros r' Hr'. simpl. rewrite cell_take by lia. exact Hr'.
Qed.
End RereadFacts.

Lemma updateActivityField_writes_then_rereads_witness :
  @updateActivityField (json_of []) (VStr "https://a") "userRating"
     (VNum (Int 4)) (mkStore zoo_table [])
  = (Ok (VObj (zoo ++ [("userRating", VNum (Int 4))])),
     mkStore [header; set_cell 9 (VStr "4") zoo_row]
             [Get ColumnA; Update (Cell 9 2) [[VStr "4"]]; Get DataRows]) /\
  @updateActivityField (json_of []) (VStr "https://a") "userRating"
     unprintable (mkStore zoo_table [])
  = (Throw TypeError, mkStore zoo_table [Get ColumnA]).
Proof.
  split.
  - destruct (@updateActivityField_writes_then_rereads (json_of [])
                (VStr "https://a") "userRating" (VNum (Int 4))
                (mkStore zoo_table []) 2 9 eq_refl eq_refl)
      as (_ & Hwritten).
    destruct (Hwritten eq_refl) as (Hrun & _).
    rewrite Hrun. reflexivity.
  - destruct (@updateActivityField_writes_then_rereads (json_of [])
                (VStr "https://a") "userRating" unprintable
                (mkStore zoo_table []) 2 9 eq_refl eq_refl)
      as (Hthrown & _).
    exact (Hthrown eq_refl).
Defined.

(** Marking the zoo as removed: the call returns [undefined], while the
    row persisted for the url decodes to the zoo record with
    [userRemoved] set. *)
Lemma updateActivityField_reread_counterexample :
  let out := @updateActivityField (json_of []) (VStr "https://a")
               "userRemoved" (VBool true) (mkStore zoo_table []) in
  out.1 = Ok VUndefined /\
  @rowToActivity (json_of []) (take 15 (row_at (sheet out.2) 2))
    = Ok (Some (zoo ++ [("userRemoved", VBool true)])) /\
  ~ (exists a : object,
       out.1 = Ok (VObj a) /\
       @rowToActivity (json_of []) (take 15 (row_at (sheet out.2) 2))
         = Ok (Some a)).
Proof.
  split; [reflexivity|]. split; [reflexivity|].
  intros (a & Hres & _). discriminate Hres.
Qed.

(** A removed row followed by a live one with the same url: the rating is
    written into the removed row (the first match of the locator), and
    the record returned is the live one, without the rating. *)
Lemma updateActivityField_duplicate_key :
  @updateActivityField (json_of []) (VStr "https://a") "userRating"
     (VNum (Int 4)) (mkStore [header; zoo_removed_row; zoo_row] [])
  = (Ok (VObj zoo),
     mkStore [header; set_cell 9 (VStr "4") zoo_removed_row; zoo_row]
             [Get ColumnA; Update (Cell 9 2) [[VStr "4"]]; Get DataRows]).
Proof. reflexivity. Qed.

(** ** The rating handler *)

Lemma num_ltb_NaN_l (y : number) : num_ltb NaN y = false.
Proof. reflexivity. Qed.




Lemma js_lt_numbers (x y : number) : js_lt (VNum x) (VNum y) = num_ltb x y.
Proof. reflexivity. Qed.

(** Integers outside 1..5. *)
Lemma Int_outside_range (z : Z) :
  (z < 1 \/ 5 < z)%Z ->
  num_ltb (Int z) (Int 1) = true \/ num_ltb (Int 5) (Int z) = true.
Proof.
  intros [Hz|Hz]; [left | right]; unfold num_ltb, num_compare, Int.
  - unfold is_zero.
    cbn [N.eqb Z.abs_N Z.ltb Z.compare all_zero strip_leading andb].
    rewrite andb_false_r.
    destruct (z <? 0)%Z eqn:E; [reflexivity|].
    apply Z.ltb_ge in E. assert (z = 0%Z) as -> by lia. reflexivity.
  - destruct (z <? 0)%Z eqn:E; [apply Z.ltb_lt in E; lia|].
    unfold is_zero. cbn [Z.abs_N N.eqb andb].
    unfold mag_compare.
    destruct (N.compare_spec 5 (Z.abs_N z)) as [Heq|Hlt|Hgt].
    + exfalso. lia.
    + reflexivity.
    + exfalso. lia.
Qed.

(** The range check: a [TypeError] for a rating that cannot be
    converted, and the two comparisons otherwise. *)
Lemma rating_out_of_range_eq (rating : value) :
  rating_out_of_range rating =
    if negb (strict_eq rating VNull) && negb (printable rating)
    then Throw TypeError
    else Ok (negb (strict_eq rating VNull)
             && (js_lt rating (VNum (Int 1))
                 || js_lt (VNum (Int 5)) rating)).
Proof.
  unfold rating_out_of_range, less_than.
  destruct (strict_eq rating VNull); [reflexivity|].
  cbn [negb andb printable]. rewrite andb_true_r.
  destruct (printable rating); [|reflexivity].
  cbn [negb obind]. destruct (js_lt rating _); reflexivity.
Qed.

Section HandlerFacts.
Context `{JSON}.

(** A PUT whose body is a JSON object: the two validations, then the
    store. *)
Lemma handler_put (ev : event) (st : store) (o : object) :
  httpMethod ev = "PUT" ->
  JSON_parse (body ev) = Some (VObj o) ->
  handler ev st =
    if negb (truthy (obj_get o "url")) then
      (Ok (error_response 400 "URL is required"), st)
    else if negb (strict_eq (obj_get o "rating") VNull)
            && negb (printable (obj_get o "rating")) then
      (Ok (error_response 500 "Failed to update rating"), st)
    else if negb (strict_eq (obj_get o "rating") VNull)
            && (js_lt (obj_get o "rating") (VNum (Int 1))
                || js_lt (VNum (Int 5)) (obj_get o "rating")) then
      (Ok (error_response 400 "Rating must be between 1 and 5"), st)
    else
      respond (updateActivityField (obj_get o "url") "userRating"
                                   (obj_get o "rating") st).
Proof.
  intros Hput Hbody. unfold handler. rewrite Hput.
  cbn [String.eqb Ascii.eqb Bool.eqb negb].
  unfold try_catch, bind, lift. rewrite Hbody. cbn [get_prop].
  destruct (negb (truthy (obj_get o "url"))); [reflexivity|].
  rewrite rating_out_of_range_eq.
  destruct (_ && negb _); [reflexivity|].
  destruct (_ && _); [reflexivity|].
  unfold respond, ret.
  destruct (updateActivityField _ _ _ st) as [[activity|e] st'];
    [reflexivity|].
  destruct (message_is e _); reflexivity.
Qed.

(** The first request of [updateActivityField] is the read of the key
    column. *)
Lemma updateActivityField_reaches_store
    (url : value) (field : string) (v : value) (st : store) :
  exists rest,
    log (updateActivityField url field v st).2 = log st ++ Get ColumnA :: rest.
Proof.
  unfold updateActivityField, bind. rewrite findActivityRowIndex_run.
  destruct (find_row _ _ _) as [n|]; [|exists []; reflexivity].
  destruct (assoc COLUMNS field) as [c|].
  - unfold format_cell_call, lift.
    destruct (format_cell_throws v); [exists []; reflexivity|].
    unfold values_update. cbn [sheet log].
    rewrite getAllActivities_run. cbn [sheet log].
    unfold ret. destruct (obind _ _); cbn [snd log];
      rewrite <- !app_assoc; eexists; reflexivity.
  - destruct (bool_decide _); exists []; reflexivity.
Qed.

Lemma respond_state (r : outcome value * store) : (respond r).2 = r.2.
Proof. destruct r as [[?|?] ?]; reflexivity. Qed.

(** C6: a PUT whose rating is a number below 1 or above 5 (0 and 6 among
    them) is answered with status 400 and the store is left as it was,
    no request having been sent; a rating that is exactly [null], with a
    url, passes the validation: the answer is that of
    [updateActivityField], whose first request reaches the store. *)
Theorem handler_rating_range (ev : event) (st : store) (o : object) :
  httpMethod ev = "PUT" ->
  JSON_parse (body ev) = Some (VObj o) ->
  (forall n : number,
     obj_get o "rating" = VNum n ->
     num_ltb n (Int 1) = true \/ num_ltb (Int 5) n = true ->
     exists resp, handler ev st = (Ok resp, st) /\ statusCode resp = 400) /\
  (forall z : Z,
     (z < 1 \/ 5 < z)%Z ->
     num_ltb (Int z) (Int 1) = true \/ num_ltb (Int 5) (Int z) = true) /\
  (obj_get o "rating" = VNull ->
   truthy (obj_get o "url") = true ->
   handler ev st
     = respond (updateActivityField (obj_get o "url") "userRating" VNull st)
   /\ exists rest, log (handler ev st).2 = log st ++ Get ColumnA :: rest).
Proof.
  intros Hput Hbody. rewrite (handler_put ev st o Hput Hbody).
  split; [|split; [exact Int_outside_range|]].
  - intros n Hrating Hout. rewrite Hrating.
    destruct (negb (truthy (obj_get o "url"))); [eexists; split; reflexivity|].
    rewrite !js_lt_numbers.
    replace (num_ltb n (Int 1) || num_ltb (Int 5) n) with true
      by (destruct Hout as [-> | ->]; rewrite ?orb_true_r; reflexivity).
    assert (Hnn : strict_eq (VNum n) VNull = false) by reflexivity.
    rewrite Hnn. cbn [negb andb printable]. eexists; split; reflexivity.
  - intros Hrating Hurl. rewrite Hrating, Hurl. cbn [negb strict_eq andb].
    split; [reflexivity|]. rewrite respond_state.
    apply updateActivityField_reaches_store.
Qed.

End HandlerFacts.

(** ** Instances for the handler *)

Lemma handler_rating_range_witness :
  exists resp,
    @handler (json_of sample_bodies)
       (mkEvent "PUT" (json_stringify six_rating_body))
       (mkStore zoo_table [])
      = (Ok resp, mkStore zoo_table []) /\ statusCode resp = 400.
Proof.
  destruct (@handler_rating_range (json_of sample_bodies)
              (mkEvent "PUT" (json_stringify six_rating_body))
              (mkStore zoo_table [])
              [ ("url", VStr "https://a"); ("rating", VNum (Int 6)) ]
              eq_refl eq_refl) as (Hreject & _ & _).
  apply (Hreject (Int 6)); [reflexivity | right; reflexivity].
Defined.


(** A rating that is a text without numeric value is written as it is. *)
Lemma handler_text_rating :
  let out := @handler (json_of [text_rating_body])
               (mkEvent "PUT" (json_stringify text_rating_body))
               (mkStore [header; rated_row] []) in
  log out.2 = [Get ColumnA; Update (Cell 9 2) [[VStr "abc"]];
               Get DataRows].
Proof. reflexivity. Qed.


(** A rating that is an object with a property [toString] of its own:
    the comparison throws, the request is answered with status 500 and
    nothing is sent to the store. *)
Lemma handler_object_rating :
  less_than unprintable (VNum (Int 1)) = Throw TypeError /\
  @handler (json_of [object_rating_body])
     (mkEvent "PUT" (json_stringify object_rating_body))
     (mkStore zoo_table [])
  = (Ok (@error_response (json_of [object_rating_body]) 500
           "Failed to update rating"),
     mkStore zoo_table []).
Proof. split; reflexivity. Qed.

(** ** Numerals: printing then reading *)

Lemma digit_of_ascii_of_digit (d : digits) :
  digit_of_ascii (ascii_of_digit d) = Some d.
Proof. destruct d; reflexivity. Qed.

Lemma string_app_cons (c : ascii) (s t : string) :
  String c s +:+ t = String c (s +:+ t).
Proof. reflexivity. Qed.

Lemma string_app_nil_l (t : string) : "" +:+ t = t.
Proof. reflexivity. Qed.

Lemma string_app_nil_r (s : string) : s +:+ "" = s.
Proof.
  induction s as [|c s IH]; [reflexivity|].
  rewrite string_app_cons, IH. reflexivity.
Qed.

Lemma string_app_assoc (a b c : string) : (a +:+ b) +:+ c = a +:+ (b +:+ c).
Proof.
  induction a as [|x a IH]; [reflexivity|].
  rewrite !string_app_cons, IH. reflexivity.
Qed.

Lemma string_of_digits_app (a b : list digits) :
  string_of_digits (a ++ b) = string_of_digits a +:+ string_of_digits b.
Proof.
  induction a as [|x a IH]; [reflexivity|].
  cbn [app string_of_digits]. rewrite string_app_cons, IH. reflexivity.
Qed.

Lemma read_digits_string_of_digits (ds : list digits) (rest : string) :
  no_digit_head rest ->
  read_digits (string_of_digits ds +:+ rest) = (ds, rest).
Proof.
  intros Hrest. induction ds as [|d ds IH]; cbn [string_of_digits].
  - rewrite string_app_nil_l.
    destruct rest as [|c r]; [reflexivity|]. simpl in Hrest.
    simpl. rewrite Hrest. reflexivity.
  - rewrite string_app_cons. cbn [read_digits].
    rewrite digit_of_ascii_of_digit, IH. reflexivity.
Qed.

Lemma read_digits_all (ds : list digits) :
  read_digits (string_of_digits ds) = (ds, "").
Proof.
  rewrite <- (string_app_nil_r (string_of_digits ds)).
  apply read_digits_string_of_digits. exact I.
Qed.

Lemma N_of_digits_of_N (n : N) : N_of_digits (digits_of_N n) = n.
Proof.
  unfold N_of_digits, digits_of_N.
  rewrite of_list_to_list. apply DecimalN.Unsigned.of_to.
Qed.

Lemma strip_leading_lnzhead (ds : list digits) : strip_leading ds = lnzhead ds.
Proof. induction ds as [|d ds IH]; [reflexivity|]. destruct d; simpl; auto. Qed.

Lemma digits_of_N_nonzero (n : N) :
  n <> 0%N -> strip_leading (digits_of_N n) = digits_of_N n.
Proof.
  intros Hn. destruct n as [|p]; [congruence|].
  unfold digits_of_N. rewrite strip_leading_lnzhead, <- nzhead_spec.
  f_equal. change (N.to_uint (N.pos p)) with (Pos.to_uint p).
  pose proof (DecimalPos.Unsigned.to_of (Pos.to_uint p)) as Hto.
  rewrite DecimalPos.Unsigned.of_to in Hto. simpl in Hto.
  assert (Hnz : Decimal.nzhead (Pos.to_uint p) <> Decimal.Nil).
  { intros Hnil. apply unorm_0 in Hnil. rewrite <- Hto in Hnil.
    exact (DecimalPos.Unsigned.to_uint_nonzero p Hnil). }
  rewrite <- (unorm_nzhead _ Hnz). symmetry. exact Hto.
Qed.

Lemma digits_of_N_nonnil (n : N) : digits_of_N n <> [].
Proof.
  destruct n as [|p]; [discriminate|].
  unfold digits_of_N. change (N.to_uint (N.pos p)) with (Pos.to_uint p).
  intros Hnil. apply (DecimalPos.Unsigned.to_uint_nonnil p).
  apply to_list_inj. exact Hnil.
Qed.

(** Leading and trailing zeros. *)
Lemma strip_leading_zeros (ds : list digits) :
  ds = replicate (length ds - length (strip_leading ds)) d0
       ++ strip_leading ds.
Proof.
  induction ds as [|d ds IH]; [reflexivity|].
  destruct d; cbn [strip_leading];
    try (replace (length _ - length _) with 0 by lia; reflexivity).
  assert (length (strip_leading ds) <= length ds).
  { clear. induction ds as [|d ds IH]; [simpl; lia|].
    destruct d; simpl in *; lia. }
  replace (length (d0 :: ds) - length (strip_leading ds))
    with (S (length ds - length (strip_leading ds))) by (simpl; lia).
  simpl. f_equal. exact IH.
Qed.

Lemma strip_leading_length (ds : list digits) :
  length (strip_leading ds) <= length ds.
Proof.
  induction ds as [|d ds IH]; [simpl; lia|]. destruct d; simpl in *; lia.
Qed.

Lemma strip_trailing_zeros (ds : list digits) :
  ds = strip_trailing ds
       ++ replicate (length ds - length (strip_trailing ds)) d0.
Proof.
  unfold strip_trailing. rewrite length_rev.
  rewrite <- (rev_involutive ds) at 1.
  rewrite (strip_leading_zeros (rev ds)) at 1.
  rewrite rev_app_distr, length_rev.
  f_equal. clear. induction (length ds - _) as [|k IH]; [reflexivity|].
  simpl. rewrite IH. clear. induction k; simpl; [reflexivity|].
  f_equal. assumption.
Qed.

Lemma strip_leading_app_nonzero (a b : list digits) :
  strip_leading a <> [] -> strip_leading (a ++ b) = strip_leading a ++ b.
Proof.
  induction a as [|d a IH]; [simpl; congruence|].
  destruct d; simpl; auto.
Qed.

(** A list whose last digit is not zero has no trailing zeros. *)
Lemma strip_trailing_app (a b : list digits) :
  strip_trailing b = b -> b <> [] -> strip_trailing (a ++ b) = a ++ b.
Proof.
  unfold strip_trailing. intros Hb Hne.
  rewrite rev_app_distr, strip_leading_app_nonzero.
  - rewrite rev_app_distr, rev_involutive. f_equal. exact Hb.
  - intros Hnil. rewrite Hnil in Hb. simpl in Hb. congruence.
Qed.

Lemma strip_prefix_Infinity_digit (d : digits) (s : string) :
  strip_prefix "Infinity" (String (ascii_of_digit d) s) = None.
Proof. destruct d; reflexivity. Qed.

Lemma read_exponent_text (e_neg : bool) (e : nat) :
  read_exponent (exponent_text e_neg e)
  = ((if e_neg then - Z.of_nat e else Z.of_nat e)%Z, "").
Proof.
  unfold exponent_text. rewrite string_app_cons, string_app_nil_l.
  cbn [read_exponent Ascii.eqb Bool.eqb orb andb].
  assert (Hsign : read_sign ((if e_neg then "-" else "+") +:+ string_of_nat e)
                  = (e_neg, string_of_nat e)) by (destruct e_neg; reflexivity).
  rewrite Hsign. unfold string_of_nat. rewrite read_digits_all.
  destruct (digits_of_N (N.of_nat e)) as [|d ds] eqn:Hds.
  - exfalso. exact (digits_of_N_nonnil _ Hds).
  - rewrite <- Hds, N_of_digits_of_N, nat_N_Z. reflexivity.
Qed.

Lemma read_numeral_text (neg : bool) (ipd fpd : list digits)
    (ex : option (bool * nat)) :
  ipd <> [] ->
  read_unsigned_decimal neg (numeral_text ipd fpd ex)
  = Some (mk_fin neg (N_of_digits (scale10 ipd fpd (exponent_value ex)).1)
                 (scale10 ipd fpd (exponent_value ex)).2, "").
Proof.
  intros Hipd. unfold read_unsigned_decimal, numeral_text.
  set (etext := match ex with
                | Some (e_neg, e) => exponent_text e_neg e
                | None => ""
                end).
  assert (Hex : read_exponent etext = (exponent_value ex, "")).
  { subst etext. destruct ex as [[e_neg e]|]; [|reflexivity].
    apply read_exponent_text. }
  assert (Hne : no_digit_head etext).
  { subst etext. destruct ex as [[e_neg e]|]; exact eq_refl || exact I. }
  assert (Hinf : strip_prefix "Infinity"
            (string_of_digits ipd
             +:+ match fpd with [] => "" | _ => "." +:+ string_of_digits fpd end
             +:+ etext) = None).
  { destruct ipd as [|d ipd]; [congruence|].
    cbn [string_of_digits]. rewrite string_app_cons.
    apply strip_prefix_Infinity_digit. }
  rewrite Hinf.
  destruct fpd as [|f fpd].
  - rewrite string_app_nil_l, read_digits_string_of_digits by exact Hne.
    assert (Hnodot : match etext with
                     | String "." r => read_digits r
                     | _ => ([], etext)
                     end = ([] : list digits, etext)).
    { subst etext. destruct ex as [[e_neg e]|]; reflexivity. }
    rewrite Hnodot, Hex.
    destruct ipd as [|d ipd]; [congruence|].
    destruct (scale10 _ _ _); reflexivity.
  - rewrite read_digits_string_of_digits by exact eq_refl.
    rewrite !string_app_cons, string_app_nil_l.
    rewrite read_digits_string_of_digits by exact Hne.
    rewrite Hex.
    destruct ipd as [|d ipd]; [congruence|].
    destruct (scale10 _ _ _); reflexivity.
Qed.

Lemma scale10_zero (ipd fpd : list digits) :
  scale10 ipd fpd 0 = (ipd, fpd).
Proof. unfold scale10. simpl. rewrite app_nil_r. reflexivity. Qed.

(** [d.rest e+k] read back: the point moves right over [k] digits. *)
Lemma scale10_right (ds fp : list digits) (d : digits)
    (rest : list digits) (m : nat) :
  ds <> [] ->
  ds ++ fp = d :: rest ++ replicate m d0 ->
  m = 0 \/ fp = [] ->
  scale10 [d] rest (Z.of_nat (length ds - 1)) = (ds, fp).
Proof.
  intros Hds Heq Hcase. destruct ds as [|d' ds']; [congruence|].
  cbn [length] in *. replace (S (length ds') - 1) with (length ds') by lia.
  injection Heq as -> Heq.
  unfold scale10.
  replace (0 <=? Z.of_nat (length ds'))%Z with true
    by (symmetry; apply Z.leb_le; lia).
  rewrite Nat2Z.id.
  destruct Hcase as [-> | ->].
  - simpl in Heq. rewrite app_nil_r in Heq. subst rest.
    rewrite <- app_assoc, take_app_length, drop_app_length. reflexivity.
  - rewrite app_nil_r in Heq. subst ds'.
    rewrite length_app, length_replicate.
    rewrite take_app_add' by reflexivity.
    rewrite take_replicate, drop_ge by lia.
    replace (m `min` (length rest + m)) with m by lia. reflexivity.
Qed.

(** [d.rest e-(z+1)] read back: the point moves left, over [z] zeros. *)
Lemma scale10_left (d : digits) (rest : list digits) (z : nat) :
  scale10 [d] rest (- Z.of_nat (S z)) = ([d0], replicate z d0 ++ d :: rest).
Proof.
  unfold scale10.
  replace (0 <=? - Z.of_nat (S z))%Z with false
    by (symmetry; apply Z.leb_gt; lia).
  rewrite Z.opp_involutive, Nat2Z.id.
  change (replicate (S z) d0 ++ [d]) with (d0 :: (replicate z d0 ++ [d])).
  change (length [d]) with 1. cbn [take drop].
  rewrite take_0, drop_0, <- app_assoc. reflexivity.
Qed.

Lemma strip_trailing_replicate_nonnil (fp : list digits) :
  strip_trailing fp = fp -> fp <> [] -> strip_leading fp <> [].
Proof.
  intros Hfp Hne Hnil.
  pose proof (strip_leading_zeros fp) as Hz. rewrite Hnil, app_nil_r in Hz.
  simpl in Hz. rewrite Nat.sub_0_r in Hz.
  unfold strip_trailing in Hfp. rewrite Hz in Hfp at 1.
  assert (Hrev : forall k, rev (replicate k d0) = replicate k d0).
  { clear. induction k as [|k IH]; [reflexivity|]. simpl. rewrite IH.
    clear. induction k; simpl; [reflexivity | f_equal; assumption]. }
  assert (Hall : forall k, strip_leading (replicate k d0) = []).
  { clear. induction k; simpl; auto. }
  rewrite Hrev, Hall in Hfp. simpl in Hfp. congruence.
Qed.

(** Reading back what [Number::toString] writes for a non-negative
    number without trailing fraction zeros. *)
Lemma read_unsigned_toString (neg : bool) (ip : N) (fp : list digits) :
  strip_trailing fp = fp ->
  read_unsigned_decimal neg (unsigned_toString ip fp)
  = Some (mk_fin neg ip fp, "").
Proof.
  intros Hfp. unfold unsigned_toString.
  destruct (N.eqb_spec ip 0) as [-> | Hip].
  - destruct fp as [|f fp']; [reflexivity|].
    set (fp := f :: fp') in *.
    set (z := length fp - length (strip_leading fp)).
    destruct (z <=? 5)%nat.
    + replace ("0." +:+ string_of_digits fp) with (numeral_text [d0] fp None).
      2:{ unfold numeral_text. subst fp. cbn [string_of_digits].
          rewrite !string_app_cons, !string_app_nil_l, string_app_nil_r.
          reflexivity. }
      rewrite read_numeral_text by discriminate.
      cbn [exponent_value]. rewrite scale10_zero. reflexivity.
    + destruct (strip_leading fp) as [|d rest] eqn:Hlead.
      { exfalso.
        apply (strip_trailing_replicate_nonnil fp Hfp);
          [discriminate | exact Hlead]. }
      change (exp_notation (d :: rest) true (S z))
        with (numeral_text [d] rest (Some (true, S z))).
      rewrite read_numeral_text by discriminate.
      cbn [exponent_value]. rewrite scale10_left. cbn [fst snd].
      pose proof (strip_leading_zeros fp) as Hz. rewrite Hlead in Hz.
      fold z in Hz. rewrite <- Hz. reflexivity.
  - set (ds := digits_of_N ip).
    assert (Hds : ds <> []) by apply digits_of_N_nonnil.
    destruct (length ds <=? 21)%nat.
    + replace (string_of_digits ds
               +:+ match fp with
                   | [] => ""
                   | _ => "." +:+ string_of_digits fp
                   end)
        with (numeral_text ds fp None).
      2:{ unfold numeral_text. rewrite string_app_nil_r. reflexivity. }
      rewrite read_numeral_text by exact Hds.
      cbn [exponent_value]. rewrite scale10_zero. cbn [fst snd].
      subst ds. rewrite N_of_digits_of_N. reflexivity.
    + pose proof (strip_trailing_zeros (ds ++ fp)) as Hz.
      set (m := length (ds ++ fp) - length (strip_trailing (ds ++ fp))) in Hz.
      assert (Hcase : m = 0 \/ fp = []).
      { destruct fp as [|f fp']; [right; reflexivity|]. left. subst m.
        rewrite strip_trailing_app by (exact Hfp || discriminate). lia. }
      destruct (strip_trailing (ds ++ fp)) as [|d rest] eqn:Hs.
      { exfalso. simpl in Hz.
        assert (Hlead : strip_leading (ds ++ fp) = []).
        { rewrite Hz. clear. induction m; simpl; auto. }
        rewrite strip_leading_app_nonzero in Hlead.
        - apply app_eq_nil in Hlead as [Hlead _].
          subst ds. rewrite digits_of_N_nonzero in Hlead by exact Hip.
          exact (digits_of_N_nonnil _ Hlead).
        - subst ds. rewrite digits_of_N_nonzero by exact Hip.
          apply digits_of_N_nonnil. }
      change (exp_notation (d :: rest) false (length ds - 1))
        with (numeral_text [d] rest (Some (false, length ds - 1))).
      rewrite read_numeral_text by discriminate.
      cbn [exponent_value].
      rewrite (scale10_right ds fp d rest m Hds Hz Hcase). cbn [fst snd].
      subst ds. rewrite N_of_digits_of_N. reflexivity.
Qed.

(** The number of digits of a natural number below a power of ten. *)
Lemma of_lu_lu_val (u : Decimal.uint) :
  DecimalPos.Unsigned.of_lu u = lu_val (to_list u).
Proof. induction u; simpl; rewrite ?IHu; reflexivity. Qed.

Lemma N_of_digits_lu_val (ds : list digits) :
  N_of_digits ds = lu_val (rev ds).
Proof.
  unfold N_of_digits.
  change (N.of_uint (of_list ds)) with (Pos.of_uint (of_list ds)).
  rewrite DecimalPos.Unsigned.of_uint_alt, of_lu_lu_val, rev_spec,
    to_list_of_list.
  reflexivity.
Qed.

Lemma lu_val_lower (l : list digits) (d : digits) :
  d <> d0 -> (10 ^ N.of_nat (length l) <= lu_val (l ++ [d]))%N.
Proof.
  intros Hd. induction l as [|x l IH].
  - simpl. destruct d; simpl; try lia. congruence.
  - cbn [app lu_val length]. rewrite Nat2N.inj_succ, N.pow_succ_r'. lia.
Qed.

Lemma digits_of_N_length (n : N) :
  (n < 10 ^ 21)%N -> length (digits_of_N n) <= 21.
Proof.
  intros Hn. destruct (N.eq_dec n 0%N) as [->|Hnz]; [simpl; lia|].
  pose proof (digits_of_N_nonzero n Hnz) as Hlead.
  pose proof (N_of_digits_of_N n) as Hval.
  destruct (digits_of_N n) as [|d tail] eqn:E;
    [exfalso; exact (digits_of_N_nonnil n E)|].
  assert (Hd : d <> d0).
  { intros ->. simpl in Hlead.
    pose proof (strip_leading_length tail) as Hle.
    rewrite Hlead in Hle. simpl in Hle. lia. }
  rewrite N_of_digits_lu_val in Hval. cbn [rev] in Hval.
  pose proof (lu_val_lower (rev tail) d Hd) as Hlow.
  rewrite Hval, length_rev in Hlow.
  cbn [length].
  destruct (le_lt_dec (length tail) 20) as [Hok|Hbig]; [lia|].
  exfalso.
  assert (10 ^ 21 <= 10 ^ N.of_nat (length tail))%N
    by (apply N.pow_le_mono_r; lia).
  lia.
Qed.

Lemma unsigned_toString_head (ip : N) (fp : list digits) :
  exists d s, unsigned_toString ip fp = String (ascii_of_digit d) s.
Proof.
  unfold unsigned_toString.
  destruct (ip =? 0)%N.
  - destruct fp as [|f fp']; [exists d0; eexists; reflexivity|].
    destruct (_ <=? 5)%nat; [exists d0; eexists; reflexivity|].
    destruct (strip_leading _) as [|d r]; [exists d0; eexists; reflexivity|].
    exists d. eexists. reflexivity.
  - pose proof (digits_of_N_nonnil ip) as Hds.
    destruct (digits_of_N ip) as [|d ds] eqn:E; [congruence|].
    destruct (_ <=? 21)%nat.
    + exists d. eexists. cbn [string_of_digits]. rewrite string_app_cons.
      reflexivity.
    + destruct (strip_trailing _) as [|d' r];
        [exists d0; eexists; reflexivity|].
      exists d'. eexists. reflexivity.
Qed.

Lemma canonical_Fin (neg : bool) (ip : N) (fp : list digits) :
  canonical (Fin neg ip fp) ->
  neg && negb (is_zero ip fp) = neg /\ strip_trailing fp = fp.
Proof. simpl. unfold mk_fin. intros [= Hneg Hfp]. auto. Qed.

(** The text of a canonical finite number: a minus sign for a negative
    one, then the unsigned numeral. *)
Lemma Number_toString_Fin (neg : bool) (ip : N) (fp : list digits) :
  canonical (Fin neg ip fp) ->
  Number_toString (Fin neg ip fp)
  = (if neg then "-" else "") +:+ unsigned_toString ip fp.
Proof.
  intros [Hneg _]%canonical_Fin. cbn [Number_toString]. rewrite Hneg.
  reflexivity.
Qed.

Lemma trim_start_signed_numeral (neg : bool) (ip : N) (fp : list digits) :
  trim_start ((if neg then "-" else "") +:+ unsigned_toString ip fp)
  = (if neg then "-" else "") +:+ unsigned_toString ip fp.
Proof.
  destruct (unsigned_toString_head ip fp) as (d & s & ->).
  destruct neg; [reflexivity|]. rewrite string_app_nil_l.
  destruct d; reflexivity.
Qed.

Lemma read_sign_signed_numeral (neg : bool) (ip : N) (fp : list digits) :
  read_sign ((if neg then "-" else "") +:+ unsigned_toString ip fp)
  = (neg, unsigned_toString ip fp).
Proof.
  destruct neg; [reflexivity|]. rewrite string_app_nil_l.
  destruct (unsigned_toString_head ip fp) as (d & s & ->).
  destruct d; reflexivity.
Qed.

(** [parseFloat(String(x))] is [x]. *)
Lemma parseFloat_Number_toString (x : number) :
  canonical x -> parseFloat_string (Number_toString x) = x.
Proof.
  destruct x as [|neg|neg ip fp]; intros Hcan.
  - reflexivity.
  - destruct neg; reflexivity.
  - rewrite Number_toString_Fin by exact Hcan.
    unfold parseFloat_string, read_decimal.
    rewrite trim_start_signed_numeral, read_sign_signed_numeral.
    destruct (canonical_Fin _ _ _ Hcan) as [_ Hfp].
    rewrite read_unsigned_toString by exact Hfp. exact Hcan.
Qed.

(** [parseInt(String(n), 10)] is [n] for an integer printed without
    exponent. *)
Lemma parseInt10_Number_toString (neg : bool) (ip : N) :
  canonical (Fin neg ip []) ->
  length (digits_of_N ip) <= 21 ->
  parseInt10 (Number_toString (Fin neg ip [])) = Fin neg ip [].
Proof.
  intros Hcan Hlen. rewrite Number_toString_Fin by exact Hcan.
  unfold parseInt10.
  rewrite trim_start_signed_numeral, read_sign_signed_numeral.
  assert (Htext : unsigned_toString ip [] = string_of_digits (digits_of_N ip)).
  { unfold unsigned_toString.
    destruct (N.eqb_spec ip 0) as [->|_]; [reflexivity|].
    apply Nat.leb_le in Hlen. rewrite Hlen. apply string_app_nil_r. }
  rewrite Htext, read_digits_all.
  pose proof (digits_of_N_nonnil ip) as Hne.
  destruct (digits_of_N ip) as [|d ds] eqn:E; [congruence|].
  rewrite <- E, N_of_digits_of_N. exact Hcan.
Qed.

Lemma Number_toString_nonempty (x : number) : Number_toString x <> "".
Proof.
  destruct x as [|neg|neg ip fp]; [discriminate | destruct neg; discriminate|].
  cbn [Number_toString].
  destruct (unsigned_toString_head ip fp) as (d & s & ->).
  destruct (_ && _); discriminate.
Qed.

(** ** The round trip of the codec *)

Section RoundTrip.
Context `{JSON}.


Lemma decoded_shortName r svc :
  obj_get (decoded r svc) "shortName"
  = js_or (cell r (COL "shortName")) (VStr "").
Proof. decoded_field. reflexivity. Qed.

Lemma decoded_lastUpdated r svc :
  obj_get (decoded r svc) "lastUpdated"
  = js_or (cell r (COL "lastUpdated")) (VStr "").
Proof. decoded_field. reflexivity. Qed.

Lemma decoded_category r svc :
  obj_get (decoded r svc) "category"
  = if truthy (cell r (COL "category"))
    then cell r (COL "category") else VUndefined.
Proof. decoded_field. reflexivity. Qed.

Lemma decoded_openHours r svc :
  obj_get (decoded r svc) "openHours"
  = if truthy (cell r (COL "openHours"))
    then cell r (COL "openHours") else VUndefined.
Proof. decoded_field. reflexivity. Qed.

Lemma decoded_address r svc :
  obj_get (decoded r svc) "address"
  = if truthy (cell r (COL "address"))
    then cell r (COL "address") else VUndefined.
Proof. decoded_field. reflexivity. Qed.

Lemma decoded_description r svc :
  obj_get (decoded r svc) "description"
  = if truthy (cell r (COL "description"))
    then cell r (COL "description") else VUndefined.
Proof. decoded_field. reflexivity. Qed.

Lemma decoded_userComment r svc :
  obj_get (decoded r svc) "userComment"
  = if truthy (cell r (COL "userComment"))
    then cell r (COL "userComment") else VUndefined.
Proof. decoded_field. reflexivity. Qed.

Lemma decoded_drivingMinutes r svc :
  obj_get (decoded r svc) "drivingMinutes"
  = if truthy (cell r (COL "drivingMinutes"))
    then VNum (parseInt (cell r (COL "drivingMinutes"))) else VUndefined.
Proof. decoded_field. reflexivity. Qed.

Lemma decoded_transitMinutes r svc :
  obj_get (decoded r svc) "transitMinutes"
  = if truthy (cell r (COL "transitMinutes"))
    then VNum (parseInt (cell r (COL "transitMinutes"))) else VUndefined.
Proof. decoded_field. reflexivity. Qed.

Lemma decoded_distanceKm r svc :
  obj_get (decoded r svc) "distanceKm"
  = if truthy (cell r (COL "distanceKm"))
    then VNum (parseFloat (cell r (COL "distanceKm"))) else VUndefined.
Proof. decoded_field. reflexivity. Qed.

Lemma decoded_services r svc :
  obj_get (decoded r svc) "services"
  = if truthy (cell r (COL "services")) then svc else VUndefined.
Proof. decoded_field. reflexivity. Qed.


(** *** One cell written and read back, by kind of field *)

Lemma text_round_trip (v : value) :
  absent_or is_text v = true -> v <> VUndefined ->
  js_or v (VStr "") <> VStr "" ->
  truthy (js_or v (VStr "")) = true /\ js_or v (VStr "") = v.
Proof.
  intros Hv Hne. destruct v as [| |b|n|s|l|o]; try discriminate Hv;
    [congruence|].
  unfold js_or. cbn [truthy].
  destruct (String.eqb s "") eqn:E; cbn [negb]; [congruence|].
  intros _. cbn [truthy]. rewrite E. split; reflexivity.
Qed.

Lemma required_text_round_trip (v : value) :
  absent_or is_text v = true -> v <> VUndefined ->
  js_or (js_or v (VStr "")) (VStr "") = v.
Proof.
  intros Hv Hne. destruct v as [| |b|n|s|l|o]; try discriminate Hv;
    [congruence|].
  unfold js_or. cbn [truthy].
  destruct (String.eqb_spec s "") as [->|Hs]; cbn [negb]; [reflexivity|].
  cbn [truthy]. destruct (String.eqb_spec s ""); [contradiction | reflexivity].
Qed.

Lemma alive_round_trip (v : value) :
  absent_or is_flag v = true -> v <> VUndefined ->
  VBool (strict_eq (VStr (if truthy v then "true" else "false")) (VStr "true")
         || strict_eq (VStr (if truthy v then "true" else "false"))
                      (VBool true)) = v.
Proof.
  intros Hv Hne. destruct v as [| |b|n|s|l|o]; try discriminate Hv;
    [congruence|].
  destruct b; reflexivity.
Qed.

Lemma userRemoved_round_trip (v : value) :
  absent_or is_flag v = true -> v <> VUndefined ->
  VStr (if truthy v then "true" else "") <> VStr "" ->
  (if strict_eq (VStr (if truthy v then "true" else "")) (VStr "true")
      || strict_eq (VStr (if truthy v then "true" else "")) (VBool true)
   then VBool true else VUndefined) = v.
Proof.
  intros Hv Hne. destruct v as [| |b|n|s|l|o]; try discriminate Hv;
    [congruence|].
  destruct b; cbn [truthy]; [reflexivity | congruence].
Qed.

Lemma integer_round_trip (v : value) :
  absent_or is_integer v = true -> below_1e21 v = true -> v <> VUndefined ->
  truthy (if not_nullish v then VStr (ToString v) else VStr "") = true /\
  VNum (parseInt (if not_nullish v then VStr (ToString v) else VStr "")) = v.
Proof.
  intros Hv Hlen Hne. destruct v as [| |b|n|s|l|o]; try discriminate Hv;
    [congruence|].
  destruct n as [|neg|neg ip fp]; try discriminate Hv.
  destruct fp as [|f fp]; [|discriminate Hv].
  cbn [absent_or is_integer below_1e21 not_nullish ToString] in Hv, Hlen |- *.
  rename Hv into Hcan.
  apply bool_decide_eq_true in Hcan.
  apply N.ltb_lt, digits_of_N_length in Hlen.
  split.
  - cbn [truthy]. apply negb_true_iff, String.eqb_neq, Number_toString_nonempty.
  - unfold parseInt. cbn [ToString].
    rewrite parseInt10_Number_toString by assumption. reflexivity.
Qed.

Lemma rating_is_integer (v : value) :
  absent_or is_rating v = true ->
  absent_or is_integer v = true /\ below_1e21 v = true.
Proof.
  intros Hv. destruct v as [| |b|n|s|l|o]; try discriminate Hv;
    [split; reflexivity|].
  destruct n as [|neg|neg ip fp]; try discriminate Hv.
  destruct neg; [discriminate Hv|].
  destruct fp as [|f fp]; [|discriminate Hv].
  cbn [absent_or is_rating is_integer] in Hv |- *.
  apply andb_prop in Hv as [H1 H5]. apply N.leb_le in H1, H5.
  assert (Hip : ip = 1%N \/ ip = 2%N \/ ip = 3%N \/ ip = 4%N \/ ip = 5%N)
    by lia.
  destruct Hip as [->|[->|[->|[->| ->]]]]; split; reflexivity.
Qed.

Lemma finite_round_trip (v : value) :
  absent_or is_finite v = true -> v <> VUndefined ->
  truthy (if not_nullish v then VStr (ToString v) else VStr "") = true /\
  VNum (parseFloat (if not_nullish v then VStr (ToString v) else VStr "")) = v.
Proof.
  intros Hv Hne. destruct v as [| |b|n|s|l|o]; try discriminate Hv;
    [congruence|].
  destruct n as [|neg|neg ip fp]; try discriminate Hv.
  cbn [absent_or is_finite not_nullish ToString] in Hv |- *.
  apply bool_decide_eq_true in Hv. rename Hv into Hcan.
  split.
  - cbn [truthy]. apply negb_true_iff, String.eqb_neq, Number_toString_nonempty.
  - unfold parseFloat. cbn [ToString].
    rewrite parseFloat_Number_toString by assumption. reflexivity.
Qed.

End RoundTrip.

Section RoundTripTheorem.
Context `{JSON}.

(** C1 (amended): for a valid Activity [a] whose driving and transit
    minutes are below 10^21 and whose services the JSON module reads back,
    [rowToActivity (activityToRow a)] is a record that agrees with [a] on
    every field of the data model that is present in [a], except those
    written as the empty string (which read back as absent). *)
Theorem codec_round_trip (a : object) :
  valid_activity a = true ->
  below_1e21 (obj_get a "drivingMinutes") = true ->
  below_1e21 (obj_get a "transitMinutes") = true ->
  (truthy (obj_get a "services") = true ->
   JSON_parse (JSON_stringify (obj_get a "services"))
     = Some (obj_get a "services")) ->
  exists a' : object,
    rowToActivity (activityToRow a) = Ok (Some a') /\
    forall k : string,
      k ∈ HEADER_ROW ->
      obj_get a k <> VUndefined ->
      cell (activityToRow a) (COL k) <> VStr "" ->
      obj_get a' k = obj_get a k.
Proof.
  intros Hv Hdriving Htransit Hjson. unfold valid_activity in Hv.
  repeat (apply andb_prop in Hv as [Hv ?]).
  set (r := activityToRow a).
  assert (Hurl : truthy (cell r (COL "url")) = true
                 /\ cell r (COL "url") = obj_get a "url").
  { change (cell r (COL "url")) with (js_or (obj_get a "url") (VStr "")).
    destruct (obj_get a "url") as [| |b|n|s|l|o]; try discriminate Hv.
    unfold js_or. cbn [is_nonempty_text truthy] in Hv |- *.
    rewrite Hv. cbn [truthy]. rewrite Hv. split; reflexivity. }
  destruct Hurl as [Hurl Hurlcell].
  assert (Hsvc : exists svc,
            rowToActivity r = Ok (Some (decoded r svc)) /\
            (truthy (cell r (COL "services")) = true ->
             svc = obj_get a "services")).
  { rewrite rowToActivity_unfold, Hurl. cbn [negb].
    destruct (truthy (cell r (COL "services"))) eqn:Hcell;
      [|exists VUndefined; split; [reflexivity | discriminate]].
    exists (obj_get a "services"). split; [|reflexivity].
    change (cell r (COL "services"))
      with (if truthy (obj_get a "services")
            then VStr (JSON_stringify (obj_get a "services"))
            else VStr "") in Hcell |- *.
    destruct (truthy (obj_get a "services")) eqn:Ht; [|discriminate Hcell].
    unfold parse_services. cbn [ToString]. rewrite (Hjson eq_refl).
    reflexivity. }
  destruct Hsvc as (svc & Hdec & Hsvc).
  exists (decoded r svc). split; [exact Hdec|].
  intros k Hk Hpresent Hcell. unfold HEADER_ROW in Hk.
  repeat (apply elem_of_cons in Hk as [->|Hk]);
    [ .. | apply elem_of_nil in Hk; destruct Hk ].
  - rewrite decoded_url. unfold js_or. rewrite Hurl. exact Hurlcell.
  - rewrite decoded_shortName. apply required_text_round_trip; assumption.
  - rewrite decoded_alive. apply alive_round_trip; assumption.
  - rewrite decoded_lastUpdated. apply required_text_round_trip; assumption.
  - rewrite decoded_category.
    destruct (text_round_trip (obj_get a "category")) as [Ht Hc];
      [assumption .. |].
    change (cell r (COL "category"))
      with (js_or (obj_get a "category") (VStr "")).
    rewrite Ht. exact Hc.
  - rewrite decoded_openHours.
    destruct (text_round_trip (obj_get a "openHours")) as [Ht Hc];
      [assumption .. |].
    change (cell r (COL "openHours"))
      with (js_or (obj_get a "openHours") (VStr "")).
    rewrite Ht. exact Hc.
  - rewrite decoded_address.
    destruct (text_round_trip (obj_get a "address")) as [Ht Hc];
      [assumption .. |].
    change (cell r (COL "address"))
      with (js_or (obj_get a "address") (VStr "")).
    rewrite Ht. exact Hc.
  - rewrite decoded_services.
    destruct (truthy (cell r (COL "services"))) eqn:Ht; [auto|].
    exfalso. apply Hcell.
    change (cell r (COL "services"))
      with (if truthy (obj_get a "services")
            then VStr (JSON_stringify (obj_get a "services"))
            else VStr "") in Ht |- *.
    destruct (truthy (obj_get a "services")); [|reflexivity].
    cbn [truthy] in Ht. apply negb_false_iff, String.eqb_eq in Ht.
    rewrite Ht. reflexivity.
  - rewrite decoded_description.
    destruct (text_round_trip (obj_get a "description")) as [Ht Hc];
      [assumption .. |].
    change (cell r (COL "description"))
      with (js_or (obj_get a "description") (VStr "")).
    rewrite Ht. exact Hc.
  - rewrite decoded_userRating.
    destruct (integer_round_trip (obj_get a "userRating")) as [Ht Hc];
      [apply rating_is_integer; assumption
      |apply rating_is_integer; assumption | assumption |].
    change (cell r (COL "userRating"))
      with (if not_nullish (obj_get a "userRating")
            then VStr (ToString (obj_get a "userRating")) else VStr "").
    rewrite Ht. exact Hc.
  - rewrite decoded_drivingMinutes.
    destruct (integer_round_trip (obj_get a "drivingMinutes")) as [Ht Hc];
      [assumption .. |].
    change (cell r (COL "drivingMinutes"))
      with (if not_nullish (obj_get a "drivingMinutes")
            then VStr (ToString (obj_get a "drivingMinutes")) else VStr "").
    rewrite Ht. exact Hc.
  - rewrite decoded_transitMinutes.
    destruct (integer_round_trip (obj_get a "transitMinutes")) as [Ht Hc];
      [assumption .. |].
    change (cell r (COL "transitMinutes"))
      with (if not_nullish (obj_get a "transitMinutes")
            then VStr (ToString (obj_get a "transitMinutes")) else VStr "").
    rewrite Ht. exact Hc.
  - rewrite decoded_distanceKm.
    destruct (finite_round_trip (obj_get a "distanceKm")) as [Ht Hc];
      [assumption .. |].
    change (cell r (COL "distanceKm"))
      with (if not_nullish (obj_get a "distanceKm")
            then VStr (ToString (obj_get a "distanceKm")) else VStr "").
    rewrite Ht. exact Hc.
  - rewrite decoded_userComment.
    destruct (text_round_trip (obj_get a "userComment")) as [Ht Hc];
      [assumption .. |].
    change (cell r (COL "userComment"))
      with (js_or (obj_get a "userComment") (VStr "")).
    rewrite Ht. exact Hc.
  - rewrite decoded_userRemoved.
    apply userRemoved_round_trip; assumption.
Qed.

End RoundTripTheorem.

Lemma codec_round_trip_witness :
  exists a' : object,
    @rowToActivity (json_of [VArr [VStr "slide"; VStr "swing"]])
      (@activityToRow (json_of [VArr [VStr "slide"; VStr "swing"]])
         playground) = Ok (Some a') /\
    obj_get a' "services" = VArr [VStr "slide"; VStr "swing"] /\
    obj_get a' "userRating" = VNum (Int 5) /\
    obj_get a' "distanceKm" = VNum (Fin false 12 [d5]).
Proof.
  destruct (@codec_round_trip (json_of [VArr [VStr "slide"; VStr "swing"]])
              playground eq_refl eq_refl eq_refl (fun _ => eq_refl))
    as (a' & Hdec & Hfields).
  exists a'. split; [exact Hdec|].
  split; [|split]; apply Hfields;
    (apply list_elem_of_In; simpl; tauto) || discriminate.
Defined.

(** An integer of 10^21 minutes is printed as ["1e+21"], of which
    [parseInt] reads the leading 1: the field is present, its cell is not
    empty, and it comes back changed. *)
Lemma codec_round_trip_counterexample :
  valid_activity far_away = true /\
  obj_get far_away "drivingMinutes" = VNum (Int (10 ^ 21)) /\
  cell (@activityToRow (json_of []) far_away) (COL "drivingMinutes")
    = VStr "1e+21" /\
  exists a' : object,
    @rowToActivity (json_of []) (@activityToRow (json_of []) far_away)
      = Ok (Some a') /\
    obj_get a' "drivingMinutes" = VNum (Int 1) /\
    obj_get a' "drivingMinutes" <> obj_get far_away "drivingMinutes".
Proof.
  split; [vm_compute; reflexivity|]. split; [reflexivity|].
  split; [vm_compute; reflexivity|].
  eexists. split; [vm_compute; reflexivity|].
  split; [reflexivity | discriminate].
Qed.

(** ** The scenarios of the specification *)

(** The table with the header and the zoo row reads as the zoo record. *)
Example scenario_read_all :
  @getAllActivities (json_of []) (mkStore zoo_table [])
  = (Ok [zoo], mkStore zoo_table [Get DataRows]).
Proof. reflexivity. Qed.

(** After [updateActivityField(url, 'userRating', 4)] the record read by
    key has the rating 4. *)
Example scenario_update_rating :
  let st := (@updateActivityField (json_of []) (VStr "https://a")
               "userRating" (VNum (Int 4)) (mkStore zoo_table [])).2 in
  (@getActivityByUrl (json_of []) (VStr "https://a") st).1
  = Ok (VObj (zoo ++ [("userRating", VNum (Int 4))])).
Proof. reflexivity. Qed.

(** After [updateActivityField(url, 'userRating', null)] the record read
    by key has no rating. *)
Example scenario_clear_rating :
  let st := (@updateActivityField (json_of []) (VStr "https://a")
               "userRating" VNull (mkStore [header; rated_row] [])).2 in
  (@getActivityByUrl (json_of []) (VStr "https://a") st).1 = Ok (VObj zoo).
Proof. reflexivity. Qed.

(** After [markActivityRemoved] the table reads as empty. *)
Example scenario_mark_removed :
  let st := (@markActivityRemoved (json_of []) (VStr "https://a")
               (mkStore zoo_table [])).2 in
  (@getAllActivities (json_of []) st).1 = Ok [].
Proof. reflexivity. Qed.

(** The ranges as the code writes them. *)
Example range_text_cell : range_text (Cell (COL "userRating") 2) = "Sheet1!J2".
Proof. reflexivity. Qed.

Example range_text_row : range_text (RowAO 12) = "Sheet1!A12:O12".
Proof. reflexivity. Qed.

Section MoreStoreFacts.
Context `{JSON}.

(** [addActivity] appends the encoded record and returns its argument,
    unless the encoder throws: nothing is sent then. *)
Lemma addActivity_run (a : object) (st : store) :
  addActivity a st
  = if activityToRow_throws a then (Throw TypeError, st)
    else (Ok a, mkStore (sheet st ++ [activityToRow a])
                        (log st ++ [Append TableAO [activityToRow a]])).
Proof.
  unfold addActivity, bind, lift, activityToRow_call.
  destruct (activityToRow_throws a); reflexivity.
Qed.

(** A PUT for a url that is in no row is answered with status 404, the
    table being left as it was. *)
Lemma handler_not_found (ev : event) (st : store) (o : object) :
  httpMethod ev = "PUT" ->
  JSON_parse (body ev) = Some (VObj o) ->
  truthy (obj_get o "url") = true ->
  obj_get o "rating" = VNull ->
  Forall (fun r => strict_eq (cell r 0) (obj_get o "url") = false)
         (drop 1 (sheet st)) ->
  exists st',
    handler ev st = (Ok (error_response 404 "Activity not found"), st')
    /\ sheet st' = sheet st.
Proof.
  intros Hput Hbody Hurl Hrating Hnone.
  rewrite (handler_put ev st o Hput Hbody), Hurl, Hrating.
  cbn [negb strict_eq andb].
  apply find_row_None with (i := 1) in Hnone.
  unfold updateActivityField, bind.
  rewrite findActivityRowIndex_run, Hnone.
  eexists. split; reflexivity.
Qed.

End MoreStoreFacts.

(* ===================================================================== *)
(** * Further properties of the code *)
(* ===================================================================== *)

(** ** Cells with the same content *)

Lemma same_content_refl (v : value) : same_content v v.
Proof. left. reflexivity. Qed.

Lemma same_content_truthy (c c' : value) :
  same_content c c' -> truthy c = truthy c'.
Proof. intros [-> | [[-> | ->] [-> | ->]]]; reflexivity. Qed.

Lemma same_content_js_or (c c' : value) :
  same_content c c' -> js_or c (VStr "") = js_or c' (VStr "").
Proof. intros [-> | [[-> | ->] [-> | ->]]]; reflexivity. Qed.

Lemma same_content_literal (c c' : value) :
  same_content c c' ->
  strict_eq c (VStr "true") || strict_eq c (VBool true)
  = strict_eq c' (VStr "true") || strict_eq c' (VBool true).
Proof. intros [-> | [[-> | ->] [-> | ->]]]; reflexivity. Qed.

Lemma same_content_eq (c c' : value) :
  same_content c c' -> truthy c' = true -> c = c'.
Proof.
  intros [-> | [_ [-> | ->]]]; [reflexivity | discriminate | discriminate].
Qed.

Lemma same_content_assign
    (f : value -> value) (c c' : value) (o o' : object) (k : string) :
  same_content c c' -> o = o' ->
  assign_if (truthy c) o k (f c) = assign_if (truthy c') o' k (f c').
Proof.
  intros Hc ->. rewrite (same_content_truthy _ _ Hc).
  destruct (truthy c') eqn:E; [|reflexivity].
  rewrite (same_content_eq _ _ Hc E). reflexivity.
Qed.

Section MoreCodecFacts.
Context `{JSON}.

(** The decoder reads the cells A..N through their content, and the cell
    O through the test for the literal [true]. *)
Lemma decoded_ext (r r' : row) (svc : value) :
  (forall i, i < 14 -> same_content (cell r i) (cell r' i)) ->
  strict_eq (cell r 14) (VStr "true") || strict_eq (cell r 14) (VBool true)
  = strict_eq (cell r' 14) (VStr "true")
    || strict_eq (cell r' 14) (VBool true) ->
  decoded r svc = decoded r' svc.
Proof.
  intros Hc H14. unfold decoded. cbv zeta.
  change (COL "userRemoved") with 14. rewrite H14. f_equal.
  apply (same_content_assign (fun c => c)); [apply Hc; cbv; lia|].
  apply (same_content_assign (fun c => VNum (parseFloat c)));
    [apply Hc; cbv; lia|].
  apply (same_content_assign (fun c => VNum (parseInt c)));
    [apply Hc; cbv; lia|].
  apply (same_content_assign (fun c => VNum (parseInt c)));
    [apply Hc; cbv; lia|].
  apply (same_content_assign (fun c => VNum (parseInt c)));
    [apply Hc; cbv; lia|].
  apply (same_content_assign (fun c => c)); [apply Hc; cbv; lia|].
  apply (same_content_assign (fun _ => svc)); [apply Hc; cbv; lia|].
  apply (same_content_assign (fun c => c)); [apply Hc; cbv; lia|].
  apply (same_content_assign (fun c => c)); [apply Hc; cbv; lia|].
  apply (same_content_assign (fun c => c)); [apply Hc; cbv; lia|].
  change (COL "url") with 0. change (COL "shortName") with 1.
  change (COL "alive") with 2. change (COL "lastUpdated") with 3.
  rewrite (same_content_js_or _ _ (Hc 0 ltac:(lia))).
  rewrite (same_content_js_or _ _ (Hc 1 ltac:(lia))).
  rewrite (same_content_literal _ _ (Hc 2 ltac:(lia))).
  rewrite (same_content_js_or _ _ (Hc 3 ltac:(lia))).
  reflexivity.
Qed.

Lemma rowToActivity_ext (r r' : row) :
  (forall i, i < 14 -> same_content (cell r i) (cell r' i)) ->
  strict_eq (cell r 14) (VStr "true") || strict_eq (cell r 14) (VBool true)
  = strict_eq (cell r' 14) (VStr "true")
    || strict_eq (cell r' 14) (VBool true) ->
  rowToActivity r = rowToActivity r'.
Proof.
  intros Hc H14. rewrite !rowToActivity_unfold.
  pose proof (Hc 0 ltac:(lia)) as H0. pose proof (Hc 7 ltac:(lia)) as H7.
  change (COL "url") with 0. change (COL "services") with 7.
  rewrite (same_content_truthy _ _ H0), (same_content_truthy _ _ H7).
  rewrite (decoded_ext r r' VUndefined Hc H14).
  destruct (truthy (cell r' 0)); [|reflexivity]. cbn [negb].
  destruct (truthy (cell r' 7)) eqn:E7; [|reflexivity].
  rewrite (same_content_eq _ _ H7 E7).
  destruct (parse_services (cell r' 7)) as [svc|e]; [|reflexivity].
  cbn [obind]. rewrite (decoded_ext r r' svc Hc H14). reflexivity.
Qed.

(** Changing the cell O alone cannot make the decoder fail, nor make it
    find or lose the record. *)
Lemma rowToActivity_ext_success (r r' : row) (x : option object) :
  (forall i, i < 14 -> same_content (cell r i) (cell r' i)) ->
  rowToActivity r = Ok x ->
  exists x', rowToActivity r' = Ok x' /\
    match x, x' with
    | None, None => True
    | Some a, Some a' =>
        obj_get a' "url" = obj_get a "url" /\
        obj_get a' "userRemoved"
        = (if strict_eq (cell r' 14) (VStr "true")
              || strict_eq (cell r' 14) (VBool true)
           then VBool true else VUndefined)
    | _, _ => False
    end.
Proof.
  intros Hc. rewrite !rowToActivity_unfold.
  pose proof (Hc 0 ltac:(lia)) as H0. pose proof (Hc 7 ltac:(lia)) as H7.
  change (COL "url") with 0. change (COL "services") with 7.
  rewrite (same_content_truthy _ _ H0), (same_content_truthy _ _ H7).
  destruct (truthy (cell r' 0)); cbn [negb].
  2:{ intros [= <-]. exists None. split; [reflexivity | exact I]. }
  assert (Hfields : forall svc svc',
    obj_get (decoded r' svc') "url" = obj_get (decoded r svc) "url" /\
    obj_get (decoded r' svc') "userRemoved"
    = (if strict_eq (cell r' 14) (VStr "true")
          || strict_eq (cell r' 14) (VBool true)
       then VBool true else VUndefined)).
  { intros svc svc'. rewrite !decoded_url, decoded_userRemoved.
    change (COL "url") with 0.
    rewrite (same_content_js_or _ _ H0). split; reflexivity. }
  destruct (truthy (cell r' 7)) eqn:E7.
  - rewrite (same_content_eq _ _ H7 E7).
    destruct (parse_services (cell r' 7)) as [svc|e]; cbn [obind];
      [|discriminate].
    intros [= <-]. eexists. split; [reflexivity|]. apply Hfields.
  - intros [= <-]. eexists. split; [reflexivity|]. apply Hfields.
Qed.

Lemma cell_app_blank (r : row) (k i : nat) :
  same_content (cell (r ++ replicate k (VStr "")) i) (cell r i).
Proof.
  unfold cell. destruct (decide (i < length r)) as [Hlt|Hge].
  - rewrite lookup_app_l by exact Hlt. left. reflexivity.
  - rewrite lookup_app_r by lia. rewrite (lookup_ge_None_2 r i) by lia.
    destruct (replicate _ _ !! _) as [x|] eqn:Hx; simpl.
    + apply lookup_replicate in Hx as [-> _]. right.
      split; [right | left]; reflexivity.
    + left. reflexivity.
Qed.

(** X1: [rowToActivity] reads the cells A..O only, and reads a missing
    cell like an empty one: a row decodes the same when it is cut after
    column O, and when empty cells are added at (or left out from) its
    end. *)
Theorem rowToActivity_trailing_cells (r : row) (k : nat) :
  rowToActivity (take 15 r) = rowToActivity r /\
  rowToActivity (r ++ replicate k (VStr "")) = rowToActivity r.
Proof.
  split.
  - apply rowToActivity_ext.
    + intros i Hi. rewrite cell_take by lia. apply same_content_refl.
    + rewrite cell_take by lia. reflexivity.
  - apply rowToActivity_ext.
    + intros i Hi. apply cell_app_blank.
    + apply same_content_literal, cell_app_blank.
Qed.

End MoreCodecFacts.

(** ** The fields of a decoded record *)

Lemma assign_if_keys (b : bool) (o : object) (k : string) (v : value) :
  obj_has o k = false ->
  (assign_if b o k v).*1 = o.*1 ++ (if b then [k] else []).
Proof.
  intros Hk. destruct b; simpl; [|rewrite app_nil_r; reflexivity].
  rewrite obj_set_keys, Hk. reflexivity.
Qed.

Section DecodedShape.
Context `{JSON}.

(** The names of a decoded record: the four fields every record has, then
    the optional fields that are set, in the order of the header. *)
Lemma decoded_keys (r : row) (svc : value) :
  exists b4 b5 b6 b7 b8 b9 b10 b11 b12 b13 b14 : bool,
    (decoded r svc).*1
    = ["url"; "shortName"; "alive"; "lastUpdated"]
      ++ (if b4 then ["category"] else [])
      ++ (if b5 then ["openHours"] else [])
      ++ (if b6 then ["address"] else [])
      ++ (if b7 then ["services"] else [])
      ++ (if b8 then ["description"] else [])
      ++ (if b9 then ["userRating"] else [])
      ++ (if b10 then ["drivingMinutes"] else [])
      ++ (if b11 then ["transitMinutes"] else [])
      ++ (if b12 then ["distanceKm"] else [])
      ++ (if b13 then ["userComment"] else [])
      ++ (if b14 then ["userRemoved"] else []).
Proof.
  unfold decoded. cbv zeta.
  do 11 eexists.
  repeat (rewrite assign_if_keys
            by (rewrite ?obj_has_assign_if;
                cbn [String.eqb Ascii.eqb Bool.eqb obj_has];
                rewrite ?andb_false_r; reflexivity)).
  cbn [fmap list_fmap fst]. rewrite <- !app_assoc. reflexivity.
Qed.

Lemma decoded_sublist (r : row) (svc : value) :
  sublist (decoded r svc).*1 HEADER_ROW.
Proof.
  destruct (decoded_keys r svc)
    as (b4 & b5 & b6 & b7 & b8 & b9 & b10 & b11 & b12 & b13 & b14 & ->).
  change HEADER_ROW with
    (["url"; "shortName"; "alive"; "lastUpdated"]
     ++ ["category"] ++ ["openHours"] ++ ["address"] ++ ["services"]
     ++ ["description"] ++ ["userRating"] ++ ["drivingMinutes"]
     ++ ["transitMinutes"] ++ ["distanceKm"] ++ ["userComment"]
     ++ ["userRemoved"]).
  repeat (apply sublist_app;
          [first [reflexivity
                 | match goal with
                   | |- sublist (if ?b then _ else _) _ =>
                       destruct b; [reflexivity | apply sublist_nil_l]
                   end]|]).
  destruct b14; [reflexivity | apply sublist_nil_l].
Qed.

(** A decoded record has no field outside the header. *)
Lemma decoded_has_header (r : row) (svc : value) (k : string) :
  obj_has (decoded r svc) k = true -> k ∈ HEADER_ROW.
Proof.
  intros Hk%obj_has_elem_of.
  pose proof (sublist_submseteq _ _ (decoded_sublist r svc)) as Hs.
  eapply elem_of_submseteq; eassumption.
Qed.

(** X2: every record [rowToActivity] returns lists its fields in the
    order of the header, without repetition and with no field outside the
    header; it begins with url, shortName, alive and lastUpdated; its url
    is the key cell and is truthy; alive is a boolean; an optional text
    field that is present is the cell and is not empty; userRemoved, when
    present, is [true]. *)
Theorem rowToActivity_record_shape (r : row) (a : object) :
  rowToActivity r = Ok (Some a) ->
  sublist a.*1 HEADER_ROW /\
  NoDup a.*1 /\
  take 4 a.*1 = take 4 HEADER_ROW /\
  obj_get a "url" = cell r 0 /\
  truthy (obj_get a "url") = true /\
  (exists b : bool, obj_get a "alive" = VBool b) /\
  (forall k : string,
     k ∈ ["category"; "openHours"; "address"; "description";
          "userComment"] ->
     obj_has a k = true ->
     obj_get a k = cell r (COL k) /\ truthy (obj_get a k) = true) /\
  (obj_has a "userRemoved" = true -> obj_get a "userRemoved" = VBool true).
Proof.
  intros (Hurl & svc & -> & _)%rowToActivity_Some.
  split; [apply decoded_sublist|]. split; [apply decoded_NoDup|].
  split.
  { destruct (decoded_keys r svc)
      as (b4 & b5 & b6 & b7 & b8 & b9 & b10 & b11 & b12 & b13 & b14 & ->).
    reflexivity. }
  rewrite decoded_url. change (COL "url") with 0 in *.
  unfold js_or. rewrite Hurl.
  split; [reflexivity|]. split; [exact Hurl|].
  split; [rewrite decoded_alive; eauto|].
  split.
  - intros k Hk.
    repeat (apply elem_of_cons in Hk as [->|Hk];
            [decoded_field;
             match goal with
             | |- context [truthy ?c] =>
                 destruct (truthy c) eqn:E; [auto | discriminate]
             end|]).
    apply elem_of_nil in Hk. destruct Hk.
  - rewrite decoded_has_userRemoved, decoded_userRemoved.
    intros ->. reflexivity.
Qed.

End DecodedShape.

(** ** The services cell *)





Lemma trim_end_idem (s : string) : trim_end (trim_end s) = trim_end s.
Proof.
  induction s as [|c s IH]; [reflexivity|]. cbn [trim_end].
  destruct (trim_end s) as [|c' t] eqn:E.
  - destruct (is_ws c) eqn:Ec; [reflexivity|].
    cbn [trim_end]. rewrite Ec. reflexivity.
  - cbn [trim_end] in *. rewrite IH. reflexivity.
Qed.

Lemma trim_start_head (s : string) : no_ws_head (trim_start s).
Proof.
  induction s as [|c s IH]; [exact I|]. cbn [trim_start].
  destruct (is_ws c) eqn:E; [exact IH | exact E].
Qed.

Lemma trim_start_id (s : string) : no_ws_head s -> trim_start s = s.
Proof. destruct s as [|c s]; [reflexivity|]. simpl. intros ->. reflexivity. Qed.

Lemma trim_end_head (s : string) : no_ws_head s -> no_ws_head (trim_end s).
Proof.
  destruct s as [|c s]; [intros _; exact I|]. cbn [no_ws_head trim_end].
  intros E. destruct (trim_end s); [rewrite E|]; exact E.
Qed.

Lemma trim_idem (s : string) : trim (trim s) = trim s.
Proof.
  unfold trim.
  rewrite (trim_start_id (trim_end (trim_start s)))
    by apply trim_end_head, trim_start_head.
  apply trim_end_idem.
Qed.


Section ServicesFacts.
Context `{JSON}.

(** A services cell that is a string never makes the decoder throw. *)
Lemma parse_services_text (s : string) :
  exists svc, parse_services (VStr s) = Ok svc.
Proof. unfold parse_services. destruct (JSON_parse _); eauto. Qed.


End ServicesFacts.

(** ** Tables of text *)

Lemma text_row_Forall (r : row) :
  text_row r = true <-> Forall (fun v => is_text v = true) r.
Proof.
  unfold text_row. induction r as [|v r IH]; simpl.
  - split; [constructor | reflexivity].
  - rewrite andb_true_iff, IH, Forall_cons. reflexivity.
Qed.

Lemma text_table_Forall (t : table) :
  text_table t = true <-> Forall (fun r => text_row r = true) t.
Proof.
  unfold text_table. induction t as [|r t IH]; simpl.
  - split; [constructor | reflexivity].
  - rewrite andb_true_iff, IH, Forall_cons. reflexivity.
Qed.

(** A cell of a row of text is a string, or lies beyond the row. *)
Lemma text_row_cell (r : row) (i : nat) :
  text_row r = true ->
  cell r i = VUndefined \/ exists s, cell r i = VStr s.
Proof.
  intros Hr%text_row_Forall. unfold cell.
  destruct (r !! i) as [v|] eqn:Hi; simpl; [|left; reflexivity].
  apply (Forall_lookup_1 _ _ _ _ Hr) in Hi.
  destruct v; try discriminate. right. eauto.
Qed.

Lemma text_row_take (n : nat) (r : row) :
  text_row r = true -> text_row (take n r) = true.
Proof. rewrite !text_row_Forall. apply Forall_take. Qed.

Lemma text_row_set_cell (c : nat) (s : string) (r : row) :
  text_row r = true -> text_row (set_cell c (VStr s) r) = true.
Proof.
  rewrite !text_row_Forall. intros Hr. unfold set_cell, pad_to.
  apply Forall_insert; [|reflexivity].
  apply Forall_app. split; [exact Hr|]. apply Forall_replicate. reflexivity.
Qed.

Lemma text_table_row_at (t : table) (n : nat) :
  text_table t = true -> text_row (row_at t n) = true.
Proof.
  intros Ht%text_table_Forall. unfold row_at.
  destruct (t !! (n - 1)) as [r|] eqn:Hr; simpl; [|reflexivity].
  apply (Forall_lookup_1 _ _ _ _ Ht Hr).
Qed.

Lemma text_table_alter_row (f : row -> row) (n : nat) (t : table) :
  n - 1 < length t ->
  text_table t = true ->
  text_row (f (row_at t n)) = true ->
  text_table (alter_row f n t) = true.
Proof.
  intros Hn Ht Hf. apply text_table_Forall. unfold alter_row.
  rewrite pad_to_id by lia.
  apply Forall_insert; [apply text_table_Forall; exact Ht | exact Hf].
Qed.

Section TextTableFacts.
Context `{JSON}.

Lemma format_cell_text (v : value) : exists s, format_cell v = VStr s.
Proof.
  unfold format_cell. destruct (negb (not_nullish v)); [eauto|].
  destruct v; eauto.
Qed.

Lemma text_row_readable (r : row) :
  text_row r = true -> services_readable r.
Proof.
  intros Hr Ht. left.
  destruct (text_row_cell r (COL "services") Hr) as [E|[s E]]; [|eauto].
  rewrite E in Ht. discriminate.
Qed.
End TextTableFacts.

(** ** Reading the table, continued *)

Lemma key_cells_data_rows (t : table) :
  (fun r => cell r 0) <$> read_range DataRows t
  = (fun r => cell r 0) <$> drop 1 t.
Proof.
  cbn [read_range]. rewrite <- list_fmap_compose.
  apply list_fmap_ext. intros i r _. simpl. apply cell_take. lia.
Qed.

Section ListingFacts.
Context `{JSON}.

(** The records of a listing come in the order of their rows, each with
    the key cell of its row as url. *)
Lemma visible_urls (rows : list row) (d : list (option object)) :
  Forall2 (fun r y => rowToActivity r = Ok y) rows d ->
  sublist ((fun a => obj_get a "url") <$> omap id (List.filter visible d))
          ((fun r => cell r 0) <$> rows).
Proof.
  induction 1 as [|r y rows d Hr _ IH]; [constructor|].
  cbn [List.filter fmap list_fmap].
  destruct y as [a|]; cbn [visible]; [|apply sublist_cons; exact IH].
  destruct (negb (truthy (obj_get a "userRemoved")));
    [|apply sublist_cons; exact IH].
  cbn [omap list_omap id fmap list_fmap].
  destruct (rowToActivity_Some _ _ Hr) as (Hurl & svc & -> & _).
  rewrite decoded_url. change (COL "url") with 0 in *.
  unfold js_or. rewrite Hurl. apply sublist_skip. exact IH.
Qed.

Lemma text_table_decodes (t : table) :
  text_table t = true ->
  exists d, map_outcome rowToActivity (read_range DataRows t) = Ok d.
Proof.
  intros Ht%text_table_Forall. apply map_outcome_total.
  cbn [read_range]. apply Forall_fmap, Forall_drop.
  eapply Forall_impl; [exact Ht|]. intros r Hr. simpl.
  destruct (truthy (cell (take 15 r) (COL "url"))) eqn:Hurl.
  - destruct (rowToActivity_total (take 15 r) Hurl) as [a Ha]; [|eauto].
    apply text_row_readable, text_row_take, Hr.
  - rewrite rowToActivity_None by exact Hurl. eauto.
Qed.

(** X4: on a table whose cells are all strings [getAllActivities]
    returns a list, it does not fail.  Whenever it returns, the table is
    as before, one read was sent, there are at most as many records as
    rows below the header, and the urls of the records are key cells of
    the table, in the order of the rows. *)
Theorem getAllActivities_in_table_order (st : store) :
  (text_table (sheet st) = true ->
   exists l, (getAllActivities st).1 = Ok l) /\
  (forall (l : list object) (st' : store),
     getAllActivities st = (Ok l, st') ->
     st' = mkStore (sheet st) (log st ++ [Get DataRows]) /\
     sublist ((fun a => obj_get a "url") <$> l)
             ((fun r => cell r 0) <$> drop 1 (sheet st)) /\
     length l <= length (sheet st) - 1).
Proof.
  rewrite getAllActivities_run. split.
  - intros Ht. destruct (text_table_decodes _ Ht) as [d ->]. simpl. eauto.
  - intros l st'.
    destruct (map_outcome _ _) as [d|] eqn:Hd; simpl; [|discriminate].
    intros [= <- <-]. apply map_outcome_Ok in Hd.
    pose proof (visible_urls _ _ Hd) as Hsub.
    rewrite key_cells_data_rows in Hsub.
    split; [reflexivity|]. split; [exact Hsub|].
    apply sublist_length in Hsub. rewrite !length_fmap, length_drop in Hsub.
    exact Hsub.
Qed.

(** X5: [findActivityRowIndex] sends one read of the key column and
    changes nothing.  It returns the number, counted from 1 with the
    header, of the first row below the header whose key cell is strictly
    equal to the url, and [null] when there is none; the header row is
    never the answer. *)
Theorem findActivityRowIndex_first_match (url : value) (st : store) :
  exists res : option nat,
    findActivityRowIndex url st
      = (Ok res, mkStore (sheet st) (log st ++ [Get ColumnA])) /\
    match res with
    | Some n =>
        2 <= n <= length (sheet st) /\
        strict_eq (cell (row_at (sheet st) n) 0) url = true /\
        forall m, 2 <= m < n ->
                  strict_eq (cell (row_at (sheet st) m) 0) url = false
    | None =>
        forall m, 2 <= m <= length (sheet st) ->
                  strict_eq (cell (row_at (sheet st) m) 0) url = false
    end.
Proof.
  rewrite findActivityRowIndex_run. eexists. split; [reflexivity|].
  destruct (find_row url (drop 1 (sheet st)) 1) as [n|] eqn:Hfind.
  - destruct (find_row_found _ _ _ Hfind) as (Hn & Hlen & Hkey & Hbefore).
    split; [lia|]. split; [exact Hkey|].
    intros m Hm. unfold row_at.
    destruct (sheet st !! (m - 1)) as [r|] eqn:Hr.
    + simpl. eapply (Forall_lookup_1 _ _ (m - 2) r Hbefore).
      rewrite lookup_take_lt by lia. rewrite lookup_drop.
      replace (1 + (m - 2)) with (m - 1) by lia. exact Hr.
    + apply lookup_ge_None in Hr. lia.
  - apply find_row_None in Hfind.
    intros m Hm. unfold row_at.
    destruct (sheet st !! (m - 1)) as [r|] eqn:Hr.
    + simpl. eapply (Forall_lookup_1 _ _ (m - 2) r Hfind).
      rewrite lookup_drop.
      replace (1 + (m - 2)) with (m - 1) by lia. exact Hr.
    + apply lookup_ge_None in Hr. lia.
Qed.

Lemma assoc_COLUMNS_None (field : string) :
  field ∉ HEADER_ROW -> assoc COLUMNS field = None.
Proof.
  intros Hf. unfold COLUMNS. cbn [assoc].
  repeat match goal with
         | |- context [String.eqb ?k field] =>
             destruct (String.eqb_spec k field) as [<-|_];
             [exfalso; apply Hf; apply (bool_decide_unpack _);
              vm_compute; exact I|]
         end.
  reflexivity.
Qed.

(** X6: for a url that is found and a field that is neither a column nor
    a name every object inherits, [updateActivityField] throws
    "Unknown field: <field>" after the read of the key column: nothing is
    written. *)
Theorem updateActivityField_unknown_field
    (url : value) (field : string) (v : value) (st : store) (n : nat) :
  find_row url (drop 1 (sheet st)) 1 = Some n ->
  field ∉ HEADER_ROW ->
  field ∉ Object_prototype_names ->
  updateActivityField url field v st
  = (Throw (Error ("Unknown field: " +:+ field)),
     mkStore (sheet st) (log st ++ [Get ColumnA])).
Proof.
  intros Hfind Hcol Hproto. unfold updateActivityField, bind.
  rewrite findActivityRowIndex_run, Hfind, (assoc_COLUMNS_None _ Hcol).
  rewrite bool_decide_eq_false_2 by exact Hproto. reflexivity.
Qed.

(** The table [updateActivityField] leaves behind. *)
Lemma updateActivityField_sheet
    (url : value) (field : string) (v : value) (st : store) :
  sheet (updateActivityField url field v st).2
  = match find_row url (drop 1 (sheet st)) 1, assoc COLUMNS field with
    | Some n, Some c =>
        if format_cell_throws v then sheet st
        else write_range (Cell c n) [[format_cell v]] (sheet st)
    | _, _ => sheet st
    end.
Proof.
  destruct (find_row url (drop 1 (sheet st)) 1) as [n|] eqn:Hfind.
  - destruct (assoc COLUMNS field) as [c|] eqn:Hcol.
    + destruct (format_cell_throws v) eqn:Hv.
      * rewrite (updateActivityField_throws _ _ _ _ _ _ Hfind Hcol Hv).
        reflexivity.
      * apply (updateActivityField_written _ _ _ _ _ _ Hfind Hcol Hv).
    + unfold updateActivityField, bind.
      rewrite findActivityRowIndex_run, Hfind, Hcol.
      destruct (bool_decide _); reflexivity.
  - unfold updateActivityField, bind.
    rewrite findActivityRowIndex_run, Hfind. reflexivity.
Qed.

Lemma write_cell_text_table (c n : nat) (v : value) (t : table) :
  n - 1 < length t ->
  text_table t = true ->
  text_table (write_range (Cell c n) [[format_cell v]] t) = true.
Proof.
  intros Hn Ht. cbn [write_range].
  apply text_table_alter_row; [exact Hn | exact Ht|].
  destruct (format_cell_text v) as [s ->].
  apply text_row_set_cell, text_table_row_at, Ht.
Qed.

(** X7: whatever value it is given, [updateActivityField] writes a
    string or nothing: a table whose cells are all strings stays one.  On
    such a table, once the url is found and the field is a column, the
    call fails only for a value that cannot be formatted, with a
    [TypeError] and the table untouched; for any other value the cell
    holds a string afterwards and the call returns, the re-read cannot
    throw. *)
Theorem updateActivityField_keeps_text_table
    (url : value) (field : string) (v : value) (st : store) :
  text_table (sheet st) = true ->
  text_table (sheet (updateActivityField url field v st).2) = true /\
  (forall n c : nat,
     find_row url (drop 1 (sheet st)) 1 = Some n ->
     assoc COLUMNS field = Some c ->
     (format_cell_throws v = true ->
      updateActivityField url field v st
        = (Throw TypeError, mkStore (sheet st) (log st ++ [Get ColumnA]))) /\
     (format_cell_throws v = false ->
      (exists s : string,
         cell (row_at (sheet (updateActivityField url field v st).2) n) c
         = VStr s) /\
      (exists res : value,
         (updateActivityField url field v st).1 = Ok res))).
Proof.
  intros Ht. split.
  - rewrite updateActivityField_sheet.
    destruct (find_row _ _ _) as [n|] eqn:Hfind; [|exact Ht].
    destruct (assoc COLUMNS field) as [c|]; [|exact Ht].
    destruct (format_cell_throws v); [exact Ht|].
    apply write_cell_text_table; [|exact Ht].
    apply (find_row_found _ _ _ Hfind).
  - intros n c Hfind Hcol.
    split; [apply (updateActivityField_throws _ _ _ _ n c); assumption|].
    intros Hv.
    destruct (updateActivityField_written _ _ v _ _ _ Hfind Hcol Hv)
      as (_ & -> & ->).
    split; [apply format_cell_text|].
    rewrite (updateActivityField_run _ _ v _ _ _ Hfind Hcol Hv),
      getActivityByUrl_run.
    cbn [fst sheet].
    destruct (text_table_decodes
                (write_range (Cell c n) [[format_cell v]] (sheet st)))
      as [d ->]; [|simpl; eauto].
    apply write_cell_text_table; [|exact Ht].
    apply (find_row_found _ _ _ Hfind).
Qed.

End ListingFacts.

(** ** Strict equality and truthiness *)

Lemma digit_val_inj (x y : digits) : digit_val x = digit_val y -> x = y.
Proof.
  destruct x, y; simpl; intros E; first [reflexivity | discriminate E].
Qed.

Lemma all_zero_cons (x : digits) (a : list digits) :
  all_zero (x :: a) = match x with d0 => all_zero a | _ => false end.
Proof. destruct x; reflexivity. Qed.

Lemma frac_compare_Eq_all_zero (a b : list digits) :
  frac_compare a b = Eq -> all_zero a = all_zero b.
Proof.
  revert b. induction a as [|x a IH]; intros [|y b]; cbn [frac_compare].
  - reflexivity.
  - destruct (all_zero (y :: b)) eqn:E; [reflexivity | discriminate].
  - destruct (all_zero (x :: a)) eqn:E; [reflexivity | discriminate].
  - destruct (N.compare_spec (digit_val x) (digit_val y)) as [Hxy| |];
      [|discriminate | discriminate].
    apply digit_val_inj in Hxy. subst y. intros Hab%IH.
    rewrite !all_zero_cons, Hab. reflexivity.
Qed.

Lemma mag_compare_Eq_is_zero (i1 : N) (f1 : list digits)
                             (i2 : N) (f2 : list digits) :
  mag_compare i1 f1 i2 f2 = Eq -> is_zero i1 f1 = is_zero i2 f2.
Proof.
  unfold mag_compare, is_zero.
  destruct (N.compare_spec i1 i2) as [->| |]; [|discriminate | discriminate].
  intros ->%frac_compare_Eq_all_zero. reflexivity.
Qed.

Lemma num_eqb_truthy (x y : number) :
  num_eqb x y = true -> truthy (VNum x) = truthy (VNum y).
Proof.
  unfold num_eqb. destruct x as [|n1|n1 i1 f1], y as [|n2|n2 i2 f2];
    cbn [num_compare truthy]; try discriminate; try reflexivity.
  - destruct n1; discriminate.
  - destruct n2; discriminate.
  - destruct (is_zero i1 f1) eqn:Z1, (is_zero i2 f2) eqn:Z2;
      cbn [andb negb]; try reflexivity; intros Hc;
      destruct n1, n2; try discriminate Hc.
    all: destruct (mag_compare _ _ _ _) eqn:Em; try discriminate Hc.
    all: apply mag_compare_Eq_is_zero in Em; congruence.
Qed.

(** Two strictly equal values are both truthy or both falsy. *)
Lemma strict_eq_truthy (a b : value) :
  strict_eq a b = true -> truthy a = truthy b.
Proof.
  destruct a, b; cbn [strict_eq]; try discriminate; try reflexivity.
  - intros E%Bool.eqb_prop. subst. reflexivity.
  - apply num_eqb_truthy.
  - intros E%String.eqb_eq. subst. reflexivity.
Qed.

Lemma same_content_sym (v w : value) : same_content v w -> same_content w v.
Proof. intros [-> | [Hv Hw]]; [left; reflexivity | right; auto]. Qed.

Lemma same_content_trans (u v w : value) :
  same_content u v -> same_content v w -> same_content u w.
Proof.
  intros [-> | [Hu Hv]] [-> | [Hv' Hw]]; unfold same_content; auto.
Qed.

(** ** The table around the row of a url *)

Lemma find_row_split (url : value) (t : table) (n : nat) :
  find_row url (drop 1 t) 1 = Some n ->
  exists (hd : row) (pre : list row) (rn : row) (post : list row),
    t = hd :: pre ++ rn :: post /\ n = length pre + 2 /\
    strict_eq (cell rn 0) url = true /\
    Forall (fun r => strict_eq (cell r 0) url = false) pre.
Proof.
  intros Hfind.
  destruct (find_row_Some _ _ _ _ Hfind) as (j & r & -> & Hj & Hr & Hbefore).
  destruct t as [|hd data]; [rewrite drop_nil in Hj; discriminate|].
  change (drop 1 (hd :: data)) with data in *.
  exists hd, (take j data), r, (drop (S j) data).
  split; [|split; [|split; [exact Hr | exact Hbefore]]].
  - f_equal. symmetry. apply take_drop_middle. exact Hj.
  - rewrite length_take. apply lookup_lt_Some in Hj. lia.
Qed.

Lemma find_row_app_found
    (url : value) (pre : list row) (rn : row) (post : list row) (i : nat) :
  Forall (fun r => strict_eq (cell r 0) url = false) pre ->
  strict_eq (cell rn 0) url = true ->
  find_row url (pre ++ rn :: post) i = Some (i + length pre + 1).
Proof.
  intros Hpre Hrn. revert i.
  induction Hpre as [|r pre Hr _ IH]; intros i; cbn [app find_row length].
  - rewrite Hrn. f_equal. lia.
  - rewrite Hr, IH. f_equal. lia.
Qed.

Lemma find_row_join
    (url : value) (hd : row) (pre : list row) (rn : row) (post : list row) :
  Forall (fun r => strict_eq (cell r 0) url = false) pre ->
  strict_eq (cell rn 0) url = true ->
  find_row url (drop 1 (hd :: pre ++ rn :: post)) 1 = Some (length pre + 2).
Proof.
  intros Hpre Hrn. change (drop 1 (hd :: ?l)) with l.
  rewrite (find_row_app_found _ _ _ _ _ Hpre Hrn). f_equal. lia.
Qed.

Lemma row_at_split (hd : row) (pre : list row) (rn : row) (post : list row) :
  row_at (hd :: pre ++ rn :: post) (length pre + 2) = rn.
Proof.
  unfold row_at. replace (length pre + 2 - 1) with (S (length pre)) by lia.
  change ((hd :: pre ++ rn :: post) !! S (length pre))
    with ((pre ++ rn :: post) !! length pre).
  rewrite list_lookup_middle by reflexivity. reflexivity.
Qed.

Lemma alter_row_split
    (f : row -> row) (hd : row) (pre : list row) (rn : row)
    (post : list row) :
  alter_row f (length pre + 2) (hd :: pre ++ rn :: post)
  = hd :: pre ++ f rn :: post.
Proof.
  unfold alter_row. rewrite row_at_split.
  rewrite pad_to_id by (cbn [length]; rewrite length_app; cbn [length]; lia).
  replace (length pre + 2 - 1) with (S (length pre)) by lia.
  change (<[S (length pre) := f rn]> (hd :: pre ++ rn :: post))
    with (hd :: <[length pre := f rn]> (pre ++ rn :: post)).
  f_equal.
  rewrite insert_app_r_alt by lia.
  replace (length pre - length pre) with 0 by lia. reflexivity.
Qed.

Lemma data_rows_split
    (hd : row) (pre : list row) (rn : row) (post : list row) :
  read_range DataRows (hd :: pre ++ rn :: post)
  = (take 15 <$> pre) ++ take 15 rn :: (take 15 <$> post).
Proof.
  cbn [read_range]. change (drop 1 (hd :: ?l)) with l.
  rewrite fmap_app. reflexivity.
Qed.

(** ** Listings, piece by piece *)

Lemma filter_all {A} (p : A -> bool) (l : list A) :
  Forall (fun a => p a = true) l -> List.filter p l = l.
Proof.
  induction 1 as [|a l Ha _ IH]; [reflexivity|].
  cbn [List.filter]. rewrite Ha, IH. reflexivity.
Qed.

(** A list in which exactly one element passes the test. *)
Lemma filter_length_1 {A} (p : A -> bool) (l : list A) :
  length (List.filter p l) = 1 ->
  exists (pre : list A) (x : A) (post : list A),
    l = pre ++ x :: post /\ p x = true /\
    Forall (fun y => p y = false) pre /\
    Forall (fun y => p y = false) post.
Proof.
  induction l as [|a l IH]; cbn [List.filter]; [discriminate|].
  destruct (p a) eqn:Ha.
  - cbn [length]. intros Hlen. exists [], a, l.
    split; [reflexivity|]. split; [exact Ha|]. split; [constructor|].
    assert (Hnil : List.filter p l = [])
      by (destruct (List.filter p l); [reflexivity | discriminate Hlen]).
    clear -Hnil. induction l as [|b l IH]; [constructor|].
    cbn [List.filter] in Hnil. destruct (p b) eqn:Hb; [discriminate|].
    constructor; [exact Hb | apply IH, Hnil].
  - intros (pre & x & post & -> & Hx & Hpre & Hpost)%IH.
    exists (a :: pre), x, post.
    split; [reflexivity|]. split; [exact Hx|].
    split; [constructor; assumption | exact Hpost].
Qed.

Lemma key_rows_unique (url : value) (t : table) :
  length (key_rows url t) = 1 ->
  exists (hd : row) (pre : list row) (rn : row) (post : list row),
    t = hd :: pre ++ rn :: post /\
    strict_eq (cell rn 0) url = true /\
    Forall (fun r => strict_eq (cell r 0) url = false) pre /\
    Forall (fun r => strict_eq (cell r 0) url = false) post.
Proof.
  unfold key_rows. destruct t as [|hd data]; [discriminate|].
  change (drop 1 (hd :: data)) with data.
  intros (pre & rn & post & -> & Hrn & Hpre & Hpost)%filter_length_1.
  exists hd, pre, rn, post. auto.
Qed.

Lemma no_key_take (url : value) (rows : list row) :
  Forall (fun r => strict_eq (cell r 0) url = false) rows ->
  Forall (fun r => strict_eq (cell r 0) url = false) (take 15 <$> rows).
Proof.
  intros Hrows. apply Forall_fmap. eapply Forall_impl; [exact Hrows|].
  intros r Hr. simpl. rewrite cell_take by lia. exact Hr.
Qed.

Section RemovalFacts.
Context `{JSON}.

Lemma getAllActivities_visible (st : store) :
  (getAllActivities st).1
  = visible_records (read_range DataRows (sheet st)).
Proof. rewrite getAllActivities_run. reflexivity. Qed.

Lemma getActivityByUrl_visible (url : value) (st : store) :
  (getActivityByUrl url st).1
  = obind (visible_records (read_range DataRows (sheet st)))
          (fun l => Ok (find_by_url url l)).
Proof.
  rewrite getActivityByUrl_run. unfold visible_records. cbn [fst].
  destruct (map_outcome _ _); reflexivity.
Qed.

Lemma visible_records_cons (r : row) (rows : list row) :
  visible_records (r :: rows)
  = obind (visible_records [r])
          (fun a => obind (visible_records rows) (fun b => Ok (a ++ b))).
Proof.
  unfold visible_records. cbn [map_outcome].
  destruct (rowToActivity r) as [y|e]; cbn [obind]; [|reflexivity].
  destruct (map_outcome rowToActivity rows) as [d|e]; cbn [obind];
    [|reflexivity].
  cbn [List.filter]. destruct (visible y); [|reflexivity].
  destruct y; reflexivity.
Qed.

Lemma visible_records_app (xs ys : list row) :
  visible_records (xs ++ ys)
  = obind (visible_records xs)
          (fun a => obind (visible_records ys) (fun b => Ok (a ++ b))).
Proof.
  induction xs as [|x xs IH].
  - cbn [app]. change (visible_records []) with (@Ok (list object) []).
    cbn [obind]. destruct (visible_records ys); reflexivity.
  - cbn [app].
    rewrite (visible_records_cons x (xs ++ ys)), (visible_records_cons x xs).
    rewrite IH.
    destruct (visible_records [x]) as [a|]; cbn [obind]; [|reflexivity].
    destruct (visible_records xs) as [b|]; cbn [obind]; [|reflexivity].
    destruct (visible_records ys) as [c|]; cbn [obind]; [|reflexivity].
    rewrite app_assoc. reflexivity.
Qed.

(** The listing of a table, around one of its rows. *)
Lemma visible_records_split
    (pre : list row) (rn : row) (post : list row) :
  visible_records (pre ++ rn :: post)
  = obind (visible_records pre)
      (fun a => obind (visible_records [rn])
         (fun b => obind (visible_records post)
            (fun c => Ok (a ++ b ++ c)))).
Proof.
  rewrite visible_records_app, visible_records_cons.
  destruct (visible_records pre) as [a|]; cbn [obind]; [|reflexivity].
  destruct (visible_records [rn]) as [b|]; cbn [obind]; [|reflexivity].
  destruct (visible_records post) as [c|]; reflexivity.
Qed.

Lemma visible_records_other_urls
    (url : value) (rows : list row) (l : list object) :
  visible_records rows = Ok l ->
  Forall (fun r => strict_eq (cell r 0) url = false) rows ->
  Forall (fun a => other_url url a = true) l.
Proof.
  revert l. induction rows as [|r rows IH]; intros l.
  - intros [= <-] _. constructor.
  - rewrite visible_records_cons.
    destruct (visible_records [r]) as [a|] eqn:Hr; cbn [obind];
      [|discriminate].
    destruct (visible_records rows) as [b|]; cbn [obind]; [|discriminate].
    intros [= <-] [Hkey Hrows]%Forall_cons.
    apply Forall_app. split; [|apply IH; [reflexivity | exact Hrows]].
    unfold visible_records in Hr. cbn [map_outcome] in Hr.
    destruct (rowToActivity r) as [[o|]|] eqn:Hdec; cbn [obind] in Hr;
      [|injection Hr as <-; constructor | discriminate].
    cbn [List.filter] in Hr. destruct (visible (Some o));
      injection Hr as <-; [|constructor].
    repeat constructor. unfold other_url.
    destruct (rowToActivity_Some _ _ Hdec) as (Hu & svc & -> & _).
    rewrite decoded_url. change (COL "url") with 0 in *.
    unfold js_or. rewrite Hu, Hkey. reflexivity.
Qed.

Lemma find_by_url_none (url : value) (l : list object) :
  Forall (fun a => other_url url a = true) l ->
  find_by_url url l = VUndefined.
Proof.
  unfold find_by_url.
  induction 1 as [|a l Ha _ IH]; [reflexivity|]. cbn [List.find].
  unfold other_url in Ha. apply negb_true_iff in Ha. rewrite Ha. exact IH.
Qed.

(** The record of the row of the url does not pass [other_url]. *)
Lemma key_row_filtered (url : value) (r : row) (la : list object) :
  visible_records [r] = Ok la ->
  strict_eq (cell r 0) url = true ->
  List.filter (other_url url) la = [].
Proof.
  unfold visible_records. cbn [map_outcome].
  destruct (rowToActivity r) as [[o|]|] eqn:Hdec; cbn [obind];
    [|intros [= <-]; reflexivity | discriminate].
  cbn [List.filter]. intros Hla Hkey.
  destruct (visible (Some o)); injection Hla as <-; [|reflexivity].
  cbn [omap list_omap id List.filter]. unfold other_url.
  destruct (rowToActivity_Some _ _ Hdec) as (Hu & svc & -> & _).
  rewrite decoded_url. change (COL "url") with 0 in *.
  unfold js_or. rewrite Hu, Hkey. reflexivity.
Qed.

Lemma rowToActivity_not_None (r : row) :
  truthy (cell r 0) = true -> rowToActivity r <> Ok None.
Proof.
  intros Hu. rewrite rowToActivity_unfold. change (COL "url") with 0.
  rewrite Hu. cbn [negb].
  destruct (truthy (cell r (COL "services"))); [|discriminate].
  destruct (parse_services _); discriminate.
Qed.

Lemma set_cell_take_content (c : nat) (v : value) (rn : row) (i : nat) :
  i < 15 -> i <> c ->
  same_content (cell (take 15 rn) i) (cell (take 15 (set_cell c v rn)) i).
Proof.
  intros Hi Hc. rewrite !cell_take by lia.
  apply same_content_sym, set_cell_other. exact Hc.
Qed.

(** Once the cell O of a row with a url holds ["true"], the row is not
    listed. *)
Lemma removed_row_hidden (rn : row) (x : option object) :
  truthy (cell rn 0) = true ->
  rowToActivity (take 15 rn) = Ok x ->
  visible_records [take 15 (set_cell 14 (VStr "true") rn)] = Ok [].
Proof.
  intros Hu Hdec.
  destruct (rowToActivity_ext_success (take 15 rn)
              (take 15 (set_cell 14 (VStr "true") rn)) x)
    as (x' & Hdec' & Hrel); [|exact Hdec|].
  { intros i Hi. apply set_cell_take_content; lia. }
  unfold visible_records. cbn [map_outcome]. rewrite Hdec'. cbn [obind].
  destruct x as [a|], x' as [a'|]; try contradiction.
  - destruct Hrel as [_ Hrem]. rewrite cell_take, set_cell_same in Hrem by lia.
    cbn [List.filter visible]. rewrite Hrem. reflexivity.
  - exfalso. apply (rowToActivity_not_None (take 15 rn)); [|exact Hdec].
    rewrite cell_take by lia. exact Hu.
Qed.

(** Removing the only row of a url: the records listed afterwards. *)
Lemma markActivityRemoved_unique_key
    (url : value) (st : store) (l : list object) :
  truthy url = true ->
  length (key_rows url (sheet st)) = 1 ->
  visible_records (read_range DataRows (sheet st)) = Ok l ->
  (markActivityRemoved url st).1 = Ok VUndefined /\
  visible_records
    (read_range DataRows (sheet (markActivityRemoved url st).2))
  = Ok (List.filter (other_url url) l).
Proof.
  intros Hurl Huniq Hrun.
  destruct (key_rows_unique _ _ Huniq)
    as (hd & pre & rn & post & Ht & Hrn & Hpre & Hpost).
  pose proof (find_row_join url hd pre rn post Hpre Hrn) as Hfind.
  rewrite <- Ht in Hfind.
  assert (Hcol : assoc COLUMNS "userRemoved" = Some 14) by reflexivity.
  unfold markActivityRemoved.
  pose proof (updateActivityField_run url "userRemoved" (VBool true) st
                _ _ Hfind Hcol eq_refl) as Hupd.
  destruct (updateActivityField_written url "userRemoved" (VBool true) st
              _ _ Hfind Hcol eq_refl) as (_ & Hsheet & _).
  rewrite Hsheet, Hupd, getActivityByUrl_visible.
  cbn [sheet format_cell not_nullish negb write_range].
  rewrite Ht in Hrun |- *. rewrite alter_row_split, data_rows_split.
  rewrite data_rows_split in Hrun.
  rewrite visible_records_split in Hrun |- *.
  destruct (visible_records (take 15 <$> pre)) as [A|] eqn:HA;
    cbn [obind] in Hrun |- *; [|discriminate].
  destruct (visible_records [take 15 rn]) as [la|] eqn:Hla;
    cbn [obind] in Hrun; [|discriminate].
  destruct (visible_records (take 15 <$> post)) as [B|] eqn:HB;
    cbn [obind] in Hrun; [|discriminate].
  injection Hrun as <-.
  assert (Hx : exists x, rowToActivity (take 15 rn) = Ok x).
  { unfold visible_records in Hla. cbn [map_outcome] in Hla.
    destruct (rowToActivity (take 15 rn)); [eauto | discriminate]. }
  destruct Hx as [x Hx].
  rewrite (removed_row_hidden rn x); [|rewrite (strict_eq_truthy _ _ Hrn);
                                        exact Hurl | exact Hx].
  cbn [obind app].
  pose proof (visible_records_other_urls url _ _ HA (no_key_take _ _ Hpre))
    as HAo.
  pose proof (visible_records_other_urls url _ _ HB (no_key_take _ _ Hpost))
    as HBo.
  split.
  - f_equal. apply find_by_url_none. apply Forall_app. auto.
  - f_equal. rewrite !List.filter_app.
    rewrite (filter_all _ _ HAo), (filter_all _ _ HBo).
    rewrite (key_row_filtered url _ _ Hla)
      by (rewrite cell_take by lia; exact Hrn).
    reflexivity.
Qed.


(** X8: when exactly one row below the header has the url as its key,
    [markActivityRemoved] returns [undefined], and the listing
    afterwards is the listing before without the records of that url:
    every other record is still listed, in the same order. *)
Theorem markActivityRemoved_hides_url
    (url : value) (st : store) (l : list object) :
  truthy url = true ->
  length (key_rows url (sheet st)) = 1 ->
  (getAllActivities st).1 = Ok l ->
  (markActivityRemoved url st).1 = Ok VUndefined /\
  (getAllActivities (markActivityRemoved url st).2).1
  = Ok (List.filter (other_url url) l).
Proof.
  intros Hurl Huniq Hrun. rewrite getAllActivities_visible in *.
  apply markActivityRemoved_unique_key; assumption.
Qed.

End RemovalFacts.

(** ** Marking twice, and restoring *)

Lemma set_cell_key (c : nat) (v : value) (rn : row) (url : value) :
  c <> 0 -> truthy url = true ->
  strict_eq (cell rn 0) url = true ->
  strict_eq (cell (set_cell c v rn) 0) url = true.
Proof.
  intros Hc Hurl Hrn.
  assert (E : cell (set_cell c v rn) 0 = cell rn 0); [|rewrite E; exact Hrn].
  apply same_content_eq.
  - apply set_cell_other. auto.
  - rewrite (strict_eq_truthy _ _ Hrn). exact Hurl.
Qed.

Lemma set_cell_set_cell (c : nat) (v w : value) (r : row) :
  set_cell c w (set_cell c v r) = set_cell c w r.
Proof.
  unfold set_cell at 1. rewrite pad_to_id.
  - unfold set_cell. apply list_insert_insert_eq.
  - unfold set_cell, pad_to.
    rewrite length_insert, length_app, length_replicate. lia.
Qed.

Section RestoreFacts.
Context `{JSON}.

(** The table after [updateActivityField], around the row of the url. *)
Lemma updateActivityField_split
    (url : value) (field : string) (v : value) (st : store) (c : nat)
    (hd : row) (pre : list row) (rn : row) (post : list row) :
  sheet st = hd :: pre ++ rn :: post ->
  Forall (fun r => strict_eq (cell r 0) url = false) pre ->
  strict_eq (cell rn 0) url = true ->
  assoc COLUMNS field = Some c ->
  format_cell_throws v = false ->
  sheet (updateActivityField url field v st).2
  = hd :: pre ++ set_cell c (format_cell v) rn :: post.
Proof.
  intros Ht Hpre Hrn Hcol Hv.
  pose proof (find_row_join url hd pre rn post Hpre Hrn) as Hfind.
  rewrite <- Ht in Hfind.
  rewrite updateActivityField_sheet, Hfind, Hcol, Hv. cbn [write_range].
  rewrite Ht. apply alter_row_split.
Qed.

(** X9: marking a record as removed a second time changes nothing: the
    locator finds the same row, whose cell O already holds ["true"]. *)
Theorem markActivityRemoved_idempotent
    (url : value) (st : store) (n : nat) :
  truthy url = true ->
  find_row url (drop 1 (sheet st)) 1 = Some n ->
  find_row url (drop 1 (sheet (markActivityRemoved url st).2)) 1 = Some n /\
  cell (row_at (sheet (markActivityRemoved url st).2) n) 14 = VStr "true" /\
  sheet (markActivityRemoved url (markActivityRemoved url st).2).2
  = sheet (markActivityRemoved url st).2.
Proof.
  intros Hurl Hfind.
  destruct (find_row_split _ _ _ Hfind)
    as (hd & pre & rn & post & Ht & -> & Hrn & Hpre).
  assert (Hcol : assoc COLUMNS "userRemoved" = Some 14) by reflexivity.
  unfold markActivityRemoved.
  pose proof (updateActivityField_split url "userRemoved" (VBool true) st
                14 hd pre rn post Ht Hpre Hrn Hcol eq_refl) as Ht1.
  cbn [format_cell not_nullish negb] in Ht1.
  assert (Hrn1 : strict_eq (cell (set_cell 14 (VStr "true") rn) 0) url
                 = true) by (apply set_cell_key; auto).
  split; [rewrite Ht1; apply find_row_join; assumption|].
  split; [rewrite Ht1, row_at_split; apply set_cell_same|].
  rewrite (updateActivityField_split url "userRemoved" (VBool true) _
             14 hd pre _ post Ht1 Hpre Hrn1 Hcol eq_refl).
  cbn [format_cell not_nullish negb]. rewrite set_cell_set_cell.
  symmetry. exact Ht1.
Qed.

(** X10: removing a record and then writing [false] into its userRemoved
    field restores the listing: for a url that is found in a row not
    marked as removed, [getAllActivities] gives afterwards what it gave
    before, and the second call returns what [getActivityByUrl] returned
    before. *)
Theorem markActivityRemoved_then_restore
    (url : value) (st : store) (n : nat) :
  truthy url = true ->
  find_row url (drop 1 (sheet st)) 1 = Some n ->
  strict_eq (cell (row_at (sheet st) n) 14) (VStr "true")
  || strict_eq (cell (row_at (sheet st) n) 14) (VBool true) = false ->
  let st1 := (markActivityRemoved url st).2 in
  let restore := updateActivityField url "userRemoved" (VBool false) st1 in
  (getAllActivities restore.2).1 = (getAllActivities st).1 /\
  restore.1 = (getActivityByUrl url st).1.
Proof.
  intros Hurl Hfind Hlive st1 restore.
  destruct (find_row_split _ _ _ Hfind)
    as (hd & pre & rn & post & Ht & -> & Hrn & Hpre).
  rewrite Ht, row_at_split in Hlive.
  assert (Hcol : assoc COLUMNS "userRemoved" = Some 14) by reflexivity.
  pose proof (updateActivityField_split url "userRemoved" (VBool true) st
                14 hd pre rn post Ht Hpre Hrn Hcol eq_refl) as Ht1.
  cbn [format_cell not_nullish negb] in Ht1.
  fold (markActivityRemoved url st) in Ht1. fold st1 in Ht1.
  assert (Hrn1 : strict_eq (cell (set_cell 14 (VStr "true") rn) 0) url
                 = true) by (apply set_cell_key; auto).
  pose proof (updateActivityField_split url "userRemoved" (VBool false) st1
                14 hd pre _ post Ht1 Hpre Hrn1 Hcol eq_refl) as Ht2.
  cbn [format_cell not_nullish negb] in Ht2. fold restore in Ht2.
  rewrite set_cell_set_cell in Ht2.
  assert (Hsame : visible_records (read_range DataRows (sheet restore.2))
                  = visible_records (read_range DataRows (sheet st))).
  { rewrite Ht2, Ht, !data_rows_split, !visible_records_split.
    assert (Hrow : visible_records [take 15 (set_cell 14 (VStr "false") rn)]
                   = visible_records [take 15 rn]).
    { unfold visible_records. cbn [map_outcome].
      rewrite (rowToActivity_ext (take 15 rn)
                 (take 15 (set_cell 14 (VStr "false") rn))); [reflexivity| |].
      - intros i Hi. apply set_cell_take_content; lia.
      - rewrite !cell_take by lia. rewrite set_cell_same, Hlive.
        reflexivity. }
    rewrite Hrow. reflexivity. }
  split; [rewrite !getAllActivities_visible; exact Hsame|].
  pose proof (find_row_join url hd pre _ post Hpre Hrn1) as Hfind1.
  rewrite <- Ht1 in Hfind1.
  pose proof (updateActivityField_run url "userRemoved" (VBool false) st1
                _ _ Hfind1 Hcol eq_refl) as Hrun.
  fold restore in Hrun.
  pose proof (updateActivityField_written url "userRemoved" (VBool false)
                st1 _ _ Hfind1 Hcol eq_refl) as (_ & Hsheet & _).
  fold restore in Hsheet.
  rewrite Hrun, !getActivityByUrl_visible. cbn [sheet].
  rewrite <- Hsheet, Hsame. reflexivity.
Qed.

End RestoreFacts.

(** ** Adding a record *)

Lemma filter_nil_Forall {A} (p : A -> bool) (l : list A) :
  List.filter p l = [] -> Forall (fun a => p a = false) l.
Proof.
  induction l as [|a l IH]; [constructor|]. cbn [List.filter].
  destruct (p a) eqn:Ha; [discriminate|].
  intros Hl. constructor; [exact Ha | apply IH, Hl].
Qed.

Lemma find_by_url_last (url : value) (l : list object) (a : object) :
  Forall (fun b => other_url url b = true) l ->
  strict_eq (obj_get a "url") url = true ->
  find_by_url url (l ++ [a]) = VObj a.
Proof.
  unfold find_by_url. intros Hl Ha.
  induction Hl as [|b l Hb _ IH]; cbn [app List.find].
  - rewrite Ha. reflexivity.
  - unfold other_url in Hb. apply negb_true_iff in Hb. rewrite Hb. exact IH.
Qed.

Section AddFacts.
Context `{JSON}.

(** The row of a record with a url always decodes. *)
Lemma activityToRow_decodes (a : object) :
  truthy (obj_get a "url") = true ->
  exists svc,
    rowToActivity (activityToRow a) = Ok (Some (decoded (activityToRow a) svc)).
Proof.
  intros Hurl.
  assert (Hcell : truthy (cell (activityToRow a) (COL "url")) = true).
  { rewrite activityToRow_cells. cbn. unfold js_or. rewrite Hurl. exact Hurl. }
  rewrite rowToActivity_unfold, Hcell. cbn [negb].
  destruct (truthy (cell (activityToRow a) (COL "services"))); [|eauto].
  assert (Hs : exists s, cell (activityToRow a) (COL "services") = VStr s).
  { rewrite activityToRow_cells. cbn.
    destruct (truthy (obj_get a "services")); eauto. }
  destruct Hs as [s ->].
  destruct (parse_services_text s) as [svc ->]. cbn [obind]. eauto.
Qed.

Lemma data_rows_app (t : table) (r : row) :
  t <> [] ->
  read_range DataRows (t ++ [r]) = read_range DataRows t ++ [take 15 r].
Proof.
  intros Ht. destruct t as [|hd data]; [contradiction|].
  cbn [read_range app]. change (drop 1 (hd :: ?l)) with l.
  rewrite fmap_app. reflexivity.
Qed.

(** X11: on a table that has its header row, a record that can be
    encoded (the conversion of its number fields to strings does not
    throw) is, once added by [addActivity], listed as the last one, in the
    form the decoder gives to its row, unless it is marked as removed; it
    is what [getActivityByUrl] returns when no record listed before has
    its url.  [addActivity] returns its argument. *)
Theorem addActivity_then_listed
    (a : object) (u : string) (st : store) (l : list object) :
  obj_get a "url" = VStr u ->
  u <> "" ->
  activityToRow_throws a = false ->
  sheet st <> [] ->
  (getAllActivities st).1 = Ok l ->
  exists a' : object,
    rowToActivity (activityToRow a) = Ok (Some a') /\
    obj_get a' "url" = VStr u /\
    (addActivity a st).1 = Ok a /\
    (getAllActivities (addActivity a st).2).1
    = Ok (if truthy (obj_get a "userRemoved") then l else l ++ [a']) /\
    (truthy (obj_get a "userRemoved") = false ->
     Forall (fun b => other_url (VStr u) b = true) l ->
     (getActivityByUrl (VStr u) (addActivity a st).2).1 = Ok (VObj a')).
Proof.
  intros Hurl Hu Hcall Ht Hrun.
  assert (Htruthy : truthy (obj_get a "url") = true).
  { rewrite Hurl. simpl. destruct u; [contradiction | reflexivity]. }
  destruct (activityToRow_decodes a Htruthy) as [svc Hdec].
  exists (decoded (activityToRow a) svc).
  assert (Hkey : obj_get (decoded (activityToRow a) svc) "url" = VStr u).
  { rewrite decoded_url, activityToRow_cells. cbn.
    rewrite Hurl. unfold js_or. cbn [truthy].
    destruct u; [contradiction | reflexivity]. }
  assert (Hrem : obj_get (decoded (activityToRow a) svc) "userRemoved"
                 = if truthy (obj_get a "userRemoved")
                   then VBool true else VUndefined).
  { rewrite decoded_userRemoved, activityToRow_cells. cbn.
    destruct (truthy (obj_get a "userRemoved")); reflexivity. }
  rewrite addActivity_run, Hcall.
  split; [exact Hdec|]. split; [exact Hkey|]. split; [reflexivity|].
  cbn [snd].
  rewrite getAllActivities_visible, getActivityByUrl_visible in *.
  cbn [sheet]. rewrite data_rows_app by exact Ht.
  rewrite take_ge by (rewrite activityToRow_length; lia).
  rewrite visible_records_app, Hrun. cbn [obind].
  unfold visible_records. cbn [map_outcome]. rewrite Hdec.
  cbn [obind List.filter visible]. rewrite Hrem.
  destruct (truthy (obj_get a "userRemoved")); cbn [truthy negb].
  - rewrite app_nil_r. split; [reflexivity | discriminate].
  - cbn [omap list_omap id]. split; [reflexivity|].
    intros _ Hl. cbn [obind]. f_equal. apply find_by_url_last; [exact Hl|].
    rewrite Hkey. simpl. apply String.eqb_refl.
Qed.

(** X12: [addActivity] never looks for the url in the table.  For a
    record that can be encoded it returns its argument and sends one
    append, and the table grows by one row whatever it holds; when the
    encoder throws, the call throws a [TypeError] and nothing is sent.
    Either way, for a url the locator finds, the answer of the locator
    afterwards is the same row: a record added under a url that is
    already there is never the one an update by url reaches. *)
Theorem addActivity_keeps_older_row
    (a : object) (url : value) (st : store) (n : nat) :
  find_row url (drop 1 (sheet st)) 1 = Some n ->
  (activityToRow_throws a = false ->
   (addActivity a st).1 = Ok a /\
   log (addActivity a st).2
     = log st ++ [Append TableAO [activityToRow a]] /\
   length (sheet (addActivity a st).2) = S (length (sheet st))) /\
  (activityToRow_throws a = true ->
   addActivity a st = (Throw TypeError, st)) /\
  find_row url (drop 1 (sheet (addActivity a st).2)) 1 = Some n.
Proof.
  intros Hfind. rewrite addActivity_run.
  destruct (activityToRow_throws a); cbn [fst snd sheet log].
  - split; [discriminate|]. split; [reflexivity | exact Hfind].
  - split; [intros _|split; [discriminate|]].
    + split; [reflexivity|]. split; [reflexivity|].
      rewrite length_app; cbn [length]; lia.
    + destruct (find_row_split _ _ _ Hfind)
        as (hd & pre & rn & post & -> & -> & Hrn & Hpre).
      cbn [app]. rewrite <- app_assoc. cbn [app].
      apply find_row_join; assumption.
Qed.

End AddFacts.

Lemma fold_obj_set_keeps (q o : object) (k : string) :
  obj_has o k = true ->
  obj_has (fold_left (fun acc kv => obj_set acc kv.1 kv.2) q o) k = true.
Proof.
  revert o. induction q as [|[k1 v1] q IH]; intros o Ho; [exact Ho|].
  cbn [fold_left fst snd]. apply IH. rewrite obj_has_set, Ho.
  apply orb_true_r.
Qed.

Lemma fold_obj_set_has (p o : object) (k : string) (v : value) :
  (k, v) ∈ p ->
  obj_has (fold_left (fun acc kv => obj_set acc kv.1 kv.2) p o) k = true.
Proof.
  revert o. induction p as [|[k0 v0] p IH]; intros o Hin; [inversion Hin|].
  cbn [fold_left fst snd].
  apply elem_of_cons in Hin as [[= <- <-]|Hin]; [|apply IH, Hin].
  apply fold_obj_set_keeps. rewrite obj_has_set, String.eqb_refl.
  reflexivity.
Qed.

(** ** Updating a whole record *)

Section UpdateWholeFacts.
Context `{JSON}.

(** X13: for a url that no row below the header has as its key,
    [updateActivity] throws "Activity not found" after the read of the
    key column: the row is neither read nor written. *)
Theorem updateActivity_not_found (url u : value) (st : store) :
  Forall (fun r => strict_eq (cell r 0) url = false) (drop 1 (sheet st)) ->
  updateActivity url u st
  = (Throw (Error "Activity not found"),
     mkStore (sheet st) (log st ++ [Get ColumnA])).
Proof.
  intros Hnone. apply find_row_None with (i := 1) in Hnone.
  unfold updateActivity, bind.
  rewrite findActivityRowIndex_run, Hnone. reflexivity.
Qed.

(** The row [updateActivity] leaves behind. *)
Lemma updateActivity_row
    (url u : value) (st : store) (n : nat) (cur : option object) :
  find_row url (drop 1 (sheet st)) 1 = Some n ->
  rowToActivity (take 15 (row_at (sheet st) n)) = Ok cur ->
  let merged := merged_record cur u in
  activityToRow_throws merged = false ->
  updateActivity url u st
  = (Ok merged,
     mkStore (write_range (RowAO n) [activityToRow merged] (sheet st))
             (log st ++ [Get ColumnA; Get (RowAO n);
                         Update (RowAO n) [activityToRow merged]])) /\
  take 15 (row_at (write_range (RowAO n) [activityToRow merged] (sheet st))
                  n)
  = activityToRow merged.
Proof.
  intros Hfind Hcur merged Hcall.
  rewrite <- (current_row_read _ _ _ Hfind) in Hcur.
  split; [apply updateActivity_run; assumption|].
  apply find_row_found in Hfind as (Hn & Hlen & _).
  cbn [write_range]. rewrite alter_row_same by exact Hlen.
  unfold set_cells_AO.
  rewrite pad_to_id by (rewrite activityToRow_length; lia).
  rewrite take_app_le by (rewrite length_take, activityToRow_length; lia).
  rewrite take_take. rewrite take_ge by (rewrite activityToRow_length; lia).
  reflexivity.
Qed.

(** X14: when the merged record can be encoded, a property of the update
    whose name is not in the header is part of the record
    [updateActivity] returns, and is not stored: the record decoded from
    the row written does not have it. *)
Theorem updateActivity_drops_unknown_keys
    (url u : value) (st : store) (n : nat) (cur : option object)
    (k : string) (v : value) :
  find_row url (drop 1 (sheet st)) 1 = Some n ->
  cells_printable (take 15 (row_at (sheet st) n)) = true ->
  rowToActivity (take 15 (row_at (sheet st) n)) = Ok cur ->
  activityToRow_throws (merged_record cur u) = false ->
  NoDup (own_props u).*1 ->
  (k, v) ∈ own_props u ->
  k ∉ HEADER_ROW ->
  exists (merged : object) (st' : store),
    updateActivity url u st = (Ok merged, st') /\
    obj_get merged k = v /\
    obj_has merged k = true /\
    forall a' : object,
      rowToActivity (take 15 (row_at (sheet st') n)) = Ok (Some a') ->
      obj_has a' k = false.
Proof.
  intros Hfind _ Hcur Hcall Hnd Hin Hk.
  destruct (updateActivity_row url u st n cur Hfind Hcur Hcall)
    as [Hrun Hrow].
  eexists _, _. split; [exact Hrun|]. cbn [sheet].
  split; [apply spread_get_own; assumption|]. split.
  - apply fold_obj_set_has with (v := v). exact Hin.
  - intros a'. rewrite Hrow.
    intros (_ & svc & -> & _)%rowToActivity_Some.
    destruct (obj_has (decoded _ svc) k) eqn:E; [|reflexivity].
    apply decoded_has_header in E. contradiction.
Qed.

(** X15: [updateActivity] can change the key of a record.  When the
    update sets a url that is a non-empty string and is not yet a key of
    the table, and the merged record can be encoded, the row keeps its
    place and the locator finds the new url there; the old url, if it was
    the key of this row only, is not found any more. *)
Theorem updateActivity_changes_key
    (url u : value) (st : store) (n : nat) (cur : option object)
    (new : string) :
  find_row url (drop 1 (sheet st)) 1 = Some n ->
  cells_printable (take 15 (row_at (sheet st) n)) = true ->
  rowToActivity (take 15 (row_at (sheet st) n)) = Ok cur ->
  activityToRow_throws (merged_record cur u) = false ->
  NoDup (own_props u).*1 ->
  ("url", VStr new) ∈ own_props u ->
  new <> "" ->
  key_rows (VStr new) (sheet st) = [] ->
  cell (row_at (sheet (updateActivity url u st).2) n) 0 = VStr new /\
  find_row (VStr new) (drop 1 (sheet (updateActivity url u st).2)) 1
  = Some n /\
  (length (key_rows url (sheet st)) = 1 ->
   strict_eq (VStr new) url = false ->
   find_row url (drop 1 (sheet (updateActivity url u st).2)) 1 = None).
Proof.
  intros Hfind _ Hcur Hcall Hnd Hin Hnew Hfresh.
  destruct (updateActivity_row url u st n cur Hfind Hcur Hcall) as [Hrun _].
  rewrite Hrun. cbn [snd sheet write_range].
  set (merged := merged_record cur u).
  assert (Hurl : obj_get merged "url" = VStr new)
    by (apply spread_get_own; assumption).
  assert (Hcell : forall r, cell (set_cells_AO (activityToRow merged) r) 0
                            = VStr new).
  { intros r. unfold set_cells_AO.
    rewrite pad_to_id by (rewrite activityToRow_length; lia).
    rewrite take_ge by (rewrite activityToRow_length; lia).
    rewrite activityToRow_cells. cbn. rewrite Hurl. unfold js_or.
    cbn [truthy]. destruct new; [contradiction | reflexivity]. }
  apply filter_nil_Forall in Hfresh.
  destruct (find_row_split _ _ _ Hfind)
    as (hd & pre & rn & post & Ht & -> & Hrn & Hpre).
  rewrite Ht in *. change (drop 1 (hd :: ?l)) with l in Hfresh.
  apply Forall_app in Hfresh as [Hfpre Hfpost].
  apply Forall_cons in Hfpost as [_ Hfpost].
  rewrite alter_row_split, row_at_split.
  split; [apply Hcell|]. split.
  - apply find_row_join; [exact Hfpre|]. rewrite Hcell. simpl.
    apply String.eqb_refl.
  - intros Huniq Hne.
    destruct (key_rows_unique _ _ Huniq)
      as (hd' & pre' & rn' & post' & Ht' & Hrn' & Hpre' & Hpost').
    pose proof (find_row_join url hd' pre' rn' post' Hpre' Hrn') as Hfind'.
    rewrite <- Ht', find_row_join in Hfind' by assumption.
    injection Hfind' as Hlen.
    assert (Heq : pre = pre' /\ rn = rn' /\ post = post').
    { injection Ht' as _ Happ.
      assert (Hl : length pre = length pre') by lia.
      apply app_inj_1 in Happ as [-> [= -> ->]]; auto. }
    destruct Heq as (<- & <- & <-).
    apply find_row_None. change (drop 1 (hd :: ?l)) with l.
    apply Forall_app. split; [exact Hpre|].
    constructor; [rewrite Hcell; exact Hne | exact Hpost'].
Qed.

End UpdateWholeFacts.

(** ** The handlers: methods, validation, errors *)

Section HandlersFacts.
Context `{JSON}.

Lemma error_response_cors (status : nat) (msg : string) :
  ("Access-Control-Allow-Origin", "*") ∈ headers (error_response status msg).
Proof. apply list_elem_of_In. left. reflexivity. Qed.

(** X16: each of the four functions answers a request whose method is
    not its own without touching the store: OPTIONS with status 200, an
    empty body and the list of the methods it allows; any other method
    with status 405 "Method not allowed". *)
Theorem handlers_method_dispatch
    (m : string) (h : event -> M response) (ev : event) (st : store) :
  (m, h) ∈ endpoints ->
  httpMethod ev <> m ->
  exists resp : response,
    h ev st = (Ok resp, st) /\
    if String.eqb (httpMethod ev) "OPTIONS"
    then statusCode resp = 200 /\ response_body resp = "" /\
         headers resp
         = [ ("Access-Control-Allow-Origin", "*");
             ("Access-Control-Allow-Headers", "Content-Type");
             ("Access-Control-Allow-Methods", m +:+ ", OPTIONS") ]
    else resp = error_response 405 "Method not allowed".
Proof.
  intros Hin Hm. unfold endpoints in Hin.
  repeat (apply elem_of_cons in Hin as [[= -> ->]|Hin]);
    [| | | |apply elem_of_nil in Hin; destruct Hin].
  all: unfold handler, UpdateComment.handler, GetActivities.handler,
         DeleteActivity.handler.
  all: destruct (String.eqb (httpMethod ev) "OPTIONS") eqn:Eo;
         [eexists; split; [reflexivity|]; repeat split|].
  all: match goal with
       | |- context [negb (String.eqb ?x ?m')] =>
           destruct (String.eqb_spec x m') as [E|_]; [contradiction|]
       end.
  all: eexists; split; reflexivity.
Qed.

End HandlersFacts.

Section HandlersFacts2.
Context `{JSON}.

Lemma answered_error (status : nat) (msg : string) (st : store) :
  status ∈ status_codes -> answered (Ok (error_response status msg), st).
Proof.
  intros Hs. exists (error_response status msg), st.
  split; [reflexivity|]. split; [exact Hs | apply error_response_cors].
Qed.

Lemma answered_success (b : string) (st : store) :
  answered (Ok (mkResponse 200
                  [ ("Content-Type", "application/json");
                    ("Access-Control-Allow-Origin", "*") ] b), st).
Proof.
  eexists _, _. split; [reflexivity|].
  split; apply (bool_decide_unpack _); vm_compute; exact I.
Qed.

Lemma try_catch_answered
    (m : M response) (h : exn -> M response) (st : store) :
  (forall resp st', m st = (Ok resp, st') -> answered (Ok resp, st')) ->
  (forall e st', answered (h e st')) ->
  answered (try_catch m h st).
Proof.
  intros Hm Hh. unfold try_catch.
  destruct (m st) as [[resp|e] st'] eqn:E; [apply Hm; reflexivity | apply Hh].
Qed.

Ltac status_in := apply (bool_decide_unpack _); vm_compute; exact I.

Lemma catch_answered (msg : string) (e : exn) (st : store) :
  answered
    ((if message_is e "Activity not found"
      then ret (error_response 404 "Activity not found")
      else ret (error_response 500 msg)) st).
Proof.
  destruct (message_is e _); apply answered_error; status_in.
Qed.

(** X17: whatever the request and the table, each of the four
    functions returns an answer, it never throws: the status is one of
    200, 400, 404, 405 and 500, and the answer carries the header
    Access-Control-Allow-Origin: *. *)
Theorem handlers_always_answer
    (m : string) (h : event -> M response) (ev : event) (st : store) :
  (m, h) ∈ endpoints ->
  exists (resp : response) (st' : store),
    h ev st = (Ok resp, st') /\
    statusCode resp ∈ status_codes /\
    ("Access-Control-Allow-Origin", "*") ∈ headers resp.
Proof.
  intros Hin. change (answered (h ev st)). unfold endpoints in Hin.
  repeat (apply elem_of_cons in Hin as [[= -> ->]|Hin]);
    [| | | |apply elem_of_nil in Hin; destruct Hin].
  all: unfold handler, UpdateComment.handler, GetActivities.handler,
         DeleteActivity.handler.
  all: destruct (String.eqb (httpMethod ev) "OPTIONS");
         [eexists _, _; split; [reflexivity|]; split; status_in|].
  all: destruct (negb (String.eqb (httpMethod ev) _));
         [apply answered_error; status_in|].
  all: apply try_catch_answered;
         [|first [apply catch_answered
                 | intros; apply answered_error; status_in]].
  all: intros resp st'; unfold bind, lift, ret.
  all: try (destruct (JSON_parse (body ev)) as [parsed|]; [|discriminate];
            destruct (get_prop parsed "url") as [url|]; [|discriminate]).
  - destruct (get_prop parsed "rating") as [rating|]; [|discriminate].
    destruct (negb (truthy url));
      [intros [= <- <-]; apply answered_error; status_in|].
    destruct (rating_out_of_range rating) as [[|]|]; [| |discriminate];
      [intros [= <- <-]; apply answered_error; status_in|].
    destruct (updateActivityField _ _ _ st) as [[activity|e] st1];
      [|discriminate].
    intros [= <- <-]. apply answered_success.
  - destruct (get_prop parsed "comment") as [comment|]; [|discriminate].
    destruct (negb (truthy url));
      [intros [= <- <-]; apply answered_error; status_in|].
    destruct (UpdateComment.userComment_of comment); [|discriminate].
    destruct (updateActivityField _ _ _ st) as [[activity|e] st1];
      [|discriminate].
    intros [= <- <-]. apply answered_success.
  - destruct (getAllActivities st) as [[l|e] st1]; [|discriminate].
    intros [= <- <-]. apply answered_success.
  - destruct (negb (truthy url));
      [intros [= <- <-]; apply answered_error; status_in|].
    destruct (markActivityRemoved url st) as [[activity|e] st1];
      [|discriminate].
    intros [= <- <-]. apply answered_success.
Qed.

(** X18: the three functions that take a url from the request body
    validate before they reach the store.  A body that is not JSON text,
    or is the text of [null], is answered with status 500 and the
    message of the function; a body without a truthy url with status 400
    "URL is required".  In both cases the store is as before: nothing was
    read or written. *)
Theorem handlers_validate_first
    (m msg : string) (h : event -> M response) (ev : event) (st : store) :
  (m, msg, h) ∈ writers ->
  httpMethod ev = m ->
  (JSON_parse (body ev) = None \/ JSON_parse (body ev) = Some VNull ->
   h ev st = (Ok (error_response 500 msg), st)) /\
  (forall parsed url : value,
     JSON_parse (body ev) = Some parsed ->
     get_prop parsed "url" = Ok url ->
     truthy url = false ->
     h ev st = (Ok (error_response 400 "URL is required"), st)).
Proof.
  intros Hin Hm. unfold writers in Hin.
  repeat (apply elem_of_cons in Hin as [[= -> -> ->]|Hin]);
    [| | |apply elem_of_nil in Hin; destruct Hin].
  all: unfold handler, UpdateComment.handler, DeleteActivity.handler.
  all: rewrite Hm; cbn [String.eqb Ascii.eqb Bool.eqb negb].
  all: unfold try_catch, bind, lift, ret.
  all: split;
         [intros [-> | ->]; reflexivity
         |intros parsed url -> Hurl Hfalsy; rewrite Hurl, Hfalsy].
  - destruct (get_prop parsed "rating") eqn:E; [reflexivity|].
    destruct parsed; discriminate.
  - destruct (get_prop parsed "comment") eqn:E; [reflexivity|].
    destruct parsed; discriminate.
  - reflexivity.
Qed.

(** X19: for a url that no row below the header has as its key, the
    three functions answer with status 404 "Activity not found" after
    the read of the key column; nothing is written.  (The rating is one
    that the range check lets pass, the comparisons neither throwing nor
    holding; the comment is a string or missing.) *)
Theorem handlers_not_found (ev : event) (st : store) (o : object) :
  JSON_parse (body ev) = Some (VObj o) ->
  truthy (obj_get o "url") = true ->
  Forall (fun r => strict_eq (cell r 0) (obj_get o "url") = false)
         (drop 1 (sheet st)) ->
  let not_found :=
    (Ok (error_response 404 "Activity not found"),
     mkStore (sheet st) (log st ++ [Get ColumnA])) in
  (httpMethod ev = "DELETE" -> DeleteActivity.handler ev st = not_found) /\
  (httpMethod ev = "PUT" ->
   not_nullish (obj_get o "comment") = false
   \/ is_text (obj_get o "comment") = true ->
   UpdateComment.handler ev st = not_found) /\
  (httpMethod ev = "PUT" ->
   rating_out_of_range (obj_get o "rating") = Ok false ->
   handler ev st = not_found).
Proof.
  intros Hbody Hurl Hnone not_found.
  apply find_row_None with (i := 1) in Hnone.
  assert (Hupd : forall field v,
            updateActivityField (obj_get o "url") field v st
            = (Throw (Error "Activity not found"),
               mkStore (sheet st) (log st ++ [Get ColumnA]))).
  { intros field v. unfold updateActivityField, bind.
    rewrite findActivityRowIndex_run, Hnone. reflexivity. }
  split; [|split].
  - intros Hm. unfold DeleteActivity.handler. rewrite Hm.
    cbn [String.eqb Ascii.eqb Bool.eqb negb].
    unfold try_catch, bind, lift, ret, markActivityRemoved.
    rewrite Hbody. cbn [get_prop]. rewrite Hurl. cbn [negb].
    rewrite Hupd. reflexivity.
  - intros Hm Hcomment. unfold UpdateComment.handler. rewrite Hm.
    cbn [String.eqb Ascii.eqb Bool.eqb negb].
    unfold try_catch, bind, lift, ret.
    rewrite Hbody. cbn [get_prop]. rewrite Hurl. cbn [negb].
    destruct (obj_get o "comment") eqn:Ec;
      cbn [UpdateComment.userComment_of];
      try (rewrite Hupd; reflexivity);
      destruct Hcomment as [Hc|Hc]; discriminate Hc.
  - intros Hm Hrating. rewrite rating_out_of_range_eq in Hrating.
    rewrite (handler_put ev st o Hm Hbody), Hurl. cbn [negb].
    destruct (_ && negb _); [discriminate Hrating|].
    injection Hrating as ->. rewrite Hupd. reflexivity.
Qed.

End HandlersFacts2.

(** ** The handlers: what is stored and what is echoed *)

Lemma find_by_url_middle (url : value) (A B : list object) (a : object) :
  Forall (fun b => other_url url b = true) A ->
  strict_eq (obj_get a "url") url = true ->
  find_by_url url (A ++ a :: B) = VObj a.
Proof.
  unfold find_by_url. intros HA Ha.
  induction HA as [|b A Hb _ IH]; cbn [app List.find].
  - rewrite Ha. reflexivity.
  - unfold other_url in Hb. apply negb_true_iff in Hb. rewrite Hb. exact IH.
Qed.

(** A cell of a row of text that is not the string ["true"] is not the
    literal [true]. *)
Lemma text_cell_not_true (r : row) (i : nat) :
  text_row r = true ->
  cell r i <> VStr "true" ->
  strict_eq (cell r i) (VStr "true") || strict_eq (cell r i) (VBool true)
  = false.
Proof.
  intros Hr Hne. destruct (text_row_cell r i Hr) as [->|[s Hs]];
    [reflexivity|].
  rewrite Hs in *. cbn [strict_eq]. rewrite orb_false_r.
  destruct (String.eqb_spec s "true") as [->|_]; [contradiction | reflexivity].
Qed.

Section EchoFacts.
Context `{JSON}.

(** On a table of text, for a url found in a row that is not marked as
    removed, [updateActivityField] returns the record decoded from the
    row it has written. *)
Lemma updateActivityField_echo
    (url : value) (field : string) (v : value) (st : store) (n c : nat) :
  truthy url = true ->
  find_row url (drop 1 (sheet st)) 1 = Some n ->
  assoc COLUMNS field = Some c ->
  format_cell_throws v = false ->
  c <> 0 -> c < 14 ->
  text_table (sheet st) = true ->
  cell (row_at (sheet st) n) 14 <> VStr "true" ->
  exists a : object,
    (updateActivityField url field v st).1 = Ok (VObj a) /\
    cell (row_at (sheet (updateActivityField url field v st).2) n) c
    = format_cell v /\
    rowToActivity
      (take 15 (row_at (sheet (updateActivityField url field v st).2) n))
    = Ok (Some a).
Proof.
  intros Hurl Hfind Hcol Hv Hc0 Hc14 Htext Hlive.
  pose proof (updateActivityField_run url field v st n c Hfind Hcol Hv)
    as Hrun.
  destruct (updateActivityField_written url field v st n c Hfind Hcol Hv)
    as (_ & Hsheet & Hcell).
  assert (Htext' : text_table (write_range (Cell c n) [[format_cell v]]
                                 (sheet st)) = true).
  { apply write_cell_text_table; [|exact Htext].
    apply (find_row_found _ _ _ Hfind). }
  destruct (find_row_split _ _ _ Hfind)
    as (hd & pre & rn & post & Ht & -> & Hrn & Hpre).
  rewrite Ht, row_at_split in Hlive.
  assert (Hrow : text_row rn = true).
  { rewrite <- (row_at_split hd pre rn post), <- Ht.
    apply text_table_row_at, Htext. }
  destruct (format_cell_text v) as [s Hs].
  set (rn' := set_cell c (format_cell v) rn).
  assert (Hrow' : text_row (take 15 rn') = true).
  { apply text_row_take. subst rn'. rewrite Hs.
    apply text_row_set_cell, Hrow. }
  assert (Hkey' : cell (take 15 rn') 0 = cell rn 0).
  { rewrite cell_take by lia. subst rn'. apply same_content_eq.
    - apply set_cell_other. auto.
    - rewrite (strict_eq_truthy _ _ Hrn). exact Hurl. }
  assert (Hdec : exists a', rowToActivity (take 15 rn') = Ok (Some a')).
  { apply rowToActivity_total; [|apply text_row_readable, Hrow'].
    change (COL "url") with 0. rewrite Hkey', (strict_eq_truthy _ _ Hrn).
    exact Hurl. }
  destruct Hdec as [a' Hdec].
  assert (Hvis : truthy (obj_get a' "userRemoved") = false).
  { destruct (rowToActivity_Some _ _ Hdec) as (_ & svc & -> & _).
    rewrite decoded_userRemoved. change (COL "userRemoved") with 14.
    rewrite cell_take by lia.
    rewrite (same_content_literal _ (cell rn 14))
      by (subst rn'; apply set_cell_other; lia).
    rewrite (text_cell_not_true rn 14 Hrow Hlive). reflexivity. }
  assert (Hmatch : strict_eq (obj_get a' "url") url = true).
  { destruct (rowToActivity_Some _ _ Hdec) as (Hu & svc & -> & _).
    rewrite decoded_url. change (COL "url") with 0 in *.
    unfold js_or. rewrite Hu, Hkey'. exact Hrn. }
  exists a'. rewrite Hsheet. split; [|split].
  - rewrite Hrun, getActivityByUrl_visible. cbn [sheet write_range].
    rewrite Ht, alter_row_split. fold rn'.
    destruct (text_table_decodes _ Htext') as [d Hd].
    assert (Hall : exists l', visible_records
                     (read_range DataRows (hd :: pre ++ rn' :: post))
                   = Ok l').
    { cbn [write_range] in Hd. rewrite Ht, alter_row_split in Hd.
      fold rn' in Hd. unfold visible_records. rewrite Hd. simpl. eauto. }
    destruct Hall as [l' Hall].
    rewrite data_rows_split, visible_records_split in *.
    destruct (visible_records (take 15 <$> pre)) as [A|] eqn:HA;
      cbn [obind] in Hall |- *; [|discriminate].
    assert (Hone : visible_records [take 15 rn'] = Ok [a']).
    { unfold visible_records. cbn [map_outcome]. rewrite Hdec.
      cbn [obind List.filter visible]. rewrite Hvis. reflexivity. }
    rewrite Hone in *. cbn [obind] in Hall |- *.
    destruct (visible_records (take 15 <$> post)) as [B|];
      cbn [obind] in Hall |- *; [|discriminate].
    f_equal. cbn [app]. apply find_by_url_middle; [|exact Hmatch].
    apply (visible_records_other_urls url _ _ HA (no_key_take _ _ Hpre)).
  - exact Hcell.
  - cbn [write_range]. rewrite Ht, alter_row_split, row_at_split.
    exact Hdec.
Qed.

End EchoFacts.

(** [parseInt] of the text of a positive number is its integer part. *)
Lemma parseInt10_integer_part (ip : N) (fp : list digits) :
  ip <> 0%N ->
  length (digits_of_N ip) <= 21 ->
  parseInt10 (Number_toString (Fin false ip fp)) = Fin false ip [].
Proof.
  intros Hip Hlen. cbn [Number_toString andb]. rewrite string_app_nil_l.
  unfold parseInt10.
  pose proof (trim_start_signed_numeral false ip fp) as Htrim.
  pose proof (read_sign_signed_numeral false ip fp) as Hsign.
  change (trim_start (unsigned_toString ip fp) = unsigned_toString ip fp)
    in Htrim.
  change (read_sign (unsigned_toString ip fp)
          = (false, unsigned_toString ip fp)) in Hsign.
  rewrite Htrim, Hsign. clear Htrim Hsign.
  unfold unsigned_toString.
  destruct (N.eqb_spec ip 0) as [E|_]; [contradiction|].
  apply Nat.leb_le in Hlen. rewrite Hlen.
  rewrite read_digits_string_of_digits
    by (destruct fp; [exact I | reflexivity]).
  pose proof (digits_of_N_nonnil ip) as Hne.
  destruct (digits_of_N ip) as [|d ds] eqn:E; [congruence|].
  rewrite <- E, N_of_digits_of_N. reflexivity.
Qed.

(** A number that is neither below 1 nor above 5. *)
Lemma in_range_integer_part (neg : bool) (ip : N) (fp : list digits) :
  num_ltb (Fin neg ip fp) (Int 1) = false ->
  num_ltb (Int 5) (Fin neg ip fp) = false ->
  neg = false /\ (1 <= ip <= 5)%N.
Proof.
  unfold num_ltb, Int. cbn [num_compare Z.ltb Z.compare Z.abs_N].
  change (is_zero (N.pos 1) []) with false.
  change (is_zero (N.pos 5) []) with false.
  rewrite andb_false_r. cbn [andb].
  destruct neg; [discriminate|]. unfold mag_compare.
  destruct (N.compare_spec ip 1) as [->| |]; [| discriminate |].
  - intros _ _. split; [reflexivity | lia].
  - intros _. destruct (N.compare_spec 5 ip) as [<-| |]; [| discriminate |].
    + intros _. split; [reflexivity | lia].
    + intros _. split; [reflexivity | lia].
Qed.

Section StoredFacts.
Context `{JSON}.

(** A PUT of the comment function whose body is a JSON object with a url:
    the comment is made ready, then the store is asked. *)
Lemma comment_put (ev : event) (st : store) (o : object) (w : value) :
  httpMethod ev = "PUT" ->
  JSON_parse (body ev) = Some (VObj o) ->
  truthy (obj_get o "url") = true ->
  UpdateComment.userComment_of (obj_get o "comment") = Ok w ->
  UpdateComment.handler ev st
  = match updateActivityField (obj_get o "url") "userComment" w st with
    | (Ok activity, st') => (Ok (success_response activity), st')
    | (Throw e, st') =>
        (Ok (if message_is e "Activity not found"
             then error_response 404 "Activity not found"
             else error_response 500 "Failed to update comment"), st')
    end.
Proof.
  intros Hput Hbody Hurl Hw. unfold UpdateComment.handler. rewrite Hput.
  cbn [String.eqb Ascii.eqb Bool.eqb negb].
  unfold try_catch, bind, lift, ret. rewrite Hbody. cbn [get_prop].
  rewrite Hurl, Hw. cbn [negb].
  destruct (updateActivityField _ _ _ st) as [[activity|e] st'];
    [reflexivity|].
  destruct (message_is e _); reflexivity.
Qed.

(** X20: the comment function stores the comment without the white space
    at its ends, and stores the empty string for a comment that is
    missing, [null] or white space only.  On a table of text, for a url
    found in a row that is not marked as removed, the answer has status
    200 and carries the record decoded from the written row, whose
    userComment is the trimmed comment, or is absent when that is
    empty. *)
Theorem comment_handler_stores_trimmed
    (ev : event) (st : store) (o : object) (n : nat) :
  httpMethod ev = "PUT" ->
  JSON_parse (body ev) = Some (VObj o) ->
  truthy (obj_get o "url") = true ->
  not_nullish (obj_get o "comment") = false
  \/ is_text (obj_get o "comment") = true ->
  text_table (sheet st) = true ->
  find_row (obj_get o "url") (drop 1 (sheet st)) 1 = Some n ->
  cell (row_at (sheet st) n) 14 <> VStr "true" ->
  let text := match obj_get o "comment" with
              | VStr s => trim s
              | _ => ""
              end in
  exists (a : object) (st' : store),
    UpdateComment.handler ev st = (Ok (success_response (VObj a)), st') /\
    cell (row_at (sheet st') n) (COL "userComment") = VStr text /\
    rowToActivity (take 15 (row_at (sheet st') n)) = Ok (Some a) /\
    obj_get a "userComment"
    = (if String.eqb text "" then VUndefined else VStr text) /\
    trim text = text.
Proof.
  intros Hput Hbody Hurl Hcomment Htext Hfind Hlive text.
  assert (Hw : exists w,
            UpdateComment.userComment_of (obj_get o "comment") = Ok w /\
            format_cell w = VStr text /\
            format_cell_throws w = false).
  { subst text. destruct (obj_get o "comment") as [| |b|x|s|l|p];
      cbn [UpdateComment.userComment_of];
      try (destruct Hcomment as [Hc|Hc]; discriminate Hc).
    - eexists. repeat split; reflexivity.
    - eexists. repeat split; reflexivity.
    - eexists. split; [reflexivity|]. unfold js_or. cbn [truthy].
      destruct (String.eqb_spec (trim s) "") as [->|_];
        split; reflexivity. }
  destruct Hw as (w & Hw & Hformat & Hprintable).
  destruct (updateActivityField_echo (obj_get o "url") "userComment" w st n
              13 Hurl Hfind eq_refl Hprintable ltac:(lia) ltac:(lia)
              Htext Hlive)
    as (a & Hres & Hcell & Hdec).
  rewrite (comment_put ev st o w Hput Hbody Hurl Hw).
  destruct (updateActivityField _ _ _ st) as [res st'].
  cbn [fst snd] in *. rewrite Hres.
  exists a, st'. split; [reflexivity|].
  rewrite Hformat in Hcell. split; [exact Hcell|]. split; [exact Hdec|].
  split.
  - destruct (rowToActivity_Some _ _ Hdec) as (_ & svc & -> & _).
    rewrite decoded_userComment. change (COL "userComment") with 13.
    rewrite cell_take by lia. rewrite Hcell. cbn [truthy].
    destruct (String.eqb text ""); reflexivity.
  - subst text. destruct (obj_get o "comment"); try reflexivity.
    apply trim_idem.
Qed.

(** X21: a comment that is neither a string nor missing (a number, a
    boolean, an array or an object) has no [trim]: the request is
    answered with status 500 "Failed to update comment", and nothing is
    read or written. *)
Theorem comment_handler_rejects_non_text
    (ev : event) (st : store) (o : object) :
  httpMethod ev = "PUT" ->
  JSON_parse (body ev) = Some (VObj o) ->
  truthy (obj_get o "url") = true ->
  not_nullish (obj_get o "comment") = true ->
  is_text (obj_get o "comment") = false ->
  UpdateComment.handler ev st
  = (Ok (error_response 500 "Failed to update comment"), st).
Proof.
  intros Hput Hbody Hurl Hnn Htext. unfold UpdateComment.handler.
  rewrite Hput. cbn [String.eqb Ascii.eqb Bool.eqb negb].
  unfold try_catch, bind, lift, ret. rewrite Hbody. cbn [get_prop].
  rewrite Hurl. cbn [negb].
  destruct (obj_get o "comment"); try discriminate; reflexivity.
Qed.

(** X22: after a DELETE for a url that is the key of exactly one row,
    answered with status 200, a GET lists the records that were listed
    before, without those of the url. *)
Theorem delete_then_list
    (ev ev' : event) (st : store) (o : object) (l : list object) :
  httpMethod ev = "DELETE" ->
  JSON_parse (body ev) = Some (VObj o) ->
  truthy (obj_get o "url") = true ->
  length (key_rows (obj_get o "url") (sheet st)) = 1 ->
  (getAllActivities st).1 = Ok l ->
  httpMethod ev' = "GET" ->
  exists st' : store,
    DeleteActivity.handler ev st
    = (Ok (mkResponse 200
             [ ("Content-Type", "application/json");
               ("Access-Control-Allow-Origin", "*") ]
             (JSON_stringify
                (VObj [ ("success", VBool true);
                        ("message",
                         VStr "Activity removed successfully") ]))),
       st') /\
    (GetActivities.handler ev' st').1
    = Ok (mkResponse 200
            [ ("Content-Type", "application/json");
              ("Access-Control-Allow-Origin", "*") ]
            (JSON_stringify
               (VArr (VObj <$> List.filter (other_url (obj_get o "url"))
                                           l)))).
Proof.
  intros Hdel Hbody Hurl Huniq Hrun Hget.
  rewrite getAllActivities_visible in Hrun.
  destruct (markActivityRemoved_unique_key _ _ _ Hurl Huniq Hrun)
    as [Hres Hafter].
  unfold DeleteActivity.handler. rewrite Hdel.
  cbn [String.eqb Ascii.eqb Bool.eqb negb].
  unfold try_catch at 1, bind at 1 2 3, lift, ret.
  rewrite Hbody. cbn [get_prop]. rewrite Hurl. cbn [negb].
  destruct (markActivityRemoved (obj_get o "url") st) as [res st'].
  cbn [fst snd] in *. rewrite Hres.
  exists st'. split; [reflexivity|].
  unfold GetActivities.handler. rewrite Hget.
  cbn [String.eqb Ascii.eqb Bool.eqb negb].
  unfold try_catch, bind, ret.
  pose proof (getAllActivities_visible st') as Hlist.
  rewrite Hafter in Hlist.
  destruct (getAllActivities st') as [res' st'']. cbn [fst] in Hlist.
  rewrite Hlist. reflexivity.
Qed.

(** X23: the rating function accepts every number from 1 to 5, whole or
    not.  On a table of text, for a url found in a row that is not
    marked as removed, the text of the number is stored, the answer has
    status 200, and the record it carries is the one decoded from the
    written row: its userRating is the integer part of the number (4 for
    4.5). *)
Theorem handler_rating_echo
    (ev : event) (st : store) (o : object) (neg : bool) (ip : N)
    (fp : list digits) (n : nat) :
  httpMethod ev = "PUT" ->
  JSON_parse (body ev) = Some (VObj o) ->
  truthy (obj_get o "url") = true ->
  obj_get o "rating" = VNum (Fin neg ip fp) ->
  num_ltb (Fin neg ip fp) (Int 1) = false ->
  num_ltb (Int 5) (Fin neg ip fp) = false ->
  text_table (sheet st) = true ->
  find_row (obj_get o "url") (drop 1 (sheet st)) 1 = Some n ->
  cell (row_at (sheet st) n) 14 <> VStr "true" ->
  exists (a : object) (st' : store),
    handler ev st = (Ok (success_response (VObj a)), st') /\
    cell (row_at (sheet st') n) (COL "userRating")
    = VStr (Number_toString (Fin neg ip fp)) /\
    rowToActivity (take 15 (row_at (sheet st') n)) = Ok (Some a) /\
    obj_get a "userRating" = VNum (Fin false ip []).
Proof.
  intros Hput Hbody Hurl Hrating Hlow Hhigh Htext Hfind Hlive.
  destruct (in_range_integer_part _ _ _ Hlow Hhigh) as [-> Hip].
  destruct (updateActivityField_echo (obj_get o "url") "userRating"
              (VNum (Fin false ip fp)) st n 9 Hurl Hfind eq_refl eq_refl
              ltac:(lia) ltac:(lia) Htext Hlive)
    as (a & Hres & Hcell & Hdec).
  rewrite (handler_put ev st o Hput Hbody), Hurl, Hrating.
  rewrite !js_lt_numbers, Hlow, Hhigh. cbn [negb orb printable].
  rewrite !andb_false_r.
  destruct (updateActivityField _ _ _ st) as [res st'].
  cbn [fst snd respond] in *. rewrite Hres.
  exists a, st'. split; [reflexivity|].
  cbn [format_cell not_nullish negb ToString] in Hcell.
  split; [exact Hcell|]. split; [exact Hdec|].
  destruct (rowToActivity_Some _ _ Hdec) as (_ & svc & -> & _).
  rewrite decoded_userRating. change (COL "userRating") with 9.
  rewrite cell_take by lia. rewrite Hcell.
  assert (Hne : truthy (VStr (Number_toString (Fin false ip fp))) = true).
  { cbn [truthy].
    destruct (String.eqb_spec (Number_toString (Fin false ip fp)) "")
      as [E|_]; [|reflexivity].
    exfalso. exact (Number_toString_nonempty _ E). }
  rewrite Hne. unfold parseInt. cbn [ToString].
  rewrite parseInt10_integer_part; [reflexivity | lia|].
  apply digits_of_N_length. lia.
Qed.

End StoredFacts.

(** ** The credentials *)

Lemma replace_escaped_newlines_cons (c : ascii) (r : string) :
  replace_escaped_newlines (String c r)
  = match r with
    | EmptyString => String c EmptyString
    | String c0 r' =>
        if Ascii.eqb c0 "n" && Ascii.eqb c "\"
        then String "010" (replace_escaped_newlines r')
        else String c (replace_escaped_newlines r)
    end.
Proof.
  destruct r as [|c0 r']; [reflexivity|].
  destruct c0 as [[] [] [] [] [] [] [] []]; cbn [Ascii.eqb Bool.eqb andb];
    reflexivity.
Qed.

Lemma has_escaped_newline_cons (c : ascii) (r : string) :
  has_escaped_newline (String c r)
  = match r with
    | EmptyString => false
    | String c0 _ =>
        (Ascii.eqb c0 "n" && Ascii.eqb c "\") || has_escaped_newline r
    end.
Proof.
  destruct r as [|c0 r']; [reflexivity|].
  destruct c0 as [[] [] [] [] [] [] [] []]; cbn [Ascii.eqb Bool.eqb andb orb];
    reflexivity.
Qed.

(** The text after the replacement begins with [n] only if the text
    before did. *)
Lemma replace_escaped_newlines_head (s : string) (x : string) :
  replace_escaped_newlines s = String "n" x ->
  exists r, s = String "n" r.
Proof.
  destruct s as [|c r]; [discriminate|].
  rewrite replace_escaped_newlines_cons.
  destruct r as [|c0 r']; [intros [= -> _]; eauto|].
  destruct (_ && _); [discriminate|]. intros [= -> _]. eauto.
Qed.

Lemma replace_escaped_newlines_clean_upto (k : nat) (s : string) :
  String.length s <= k ->
  has_escaped_newline (replace_escaped_newlines s) = false.
Proof.
  revert s. induction k as [|k IH]; intros s Hlen.
  - destruct s; [reflexivity | simpl in Hlen; lia].
  - destruct s as [|c r]; [reflexivity|].
    rewrite replace_escaped_newlines_cons.
    destruct r as [|c0 r']; [reflexivity|].
    cbn [String.length] in Hlen.
    destruct (Ascii.eqb c0 "n" && Ascii.eqb c "\") eqn:E.
    + rewrite has_escaped_newline_cons.
      destruct (replace_escaped_newlines r') as [|c1 x] eqn:Er;
        [reflexivity|].
      rewrite andb_false_r. cbn [orb]. rewrite <- Er. apply IH. lia.
    + rewrite has_escaped_newline_cons.
      destruct (replace_escaped_newlines (String c0 r')) as [|c1 x] eqn:Er;
        [reflexivity|].
      assert (Hrest : has_escaped_newline (String c1 x) = false)
        by (rewrite <- Er; apply IH; cbn [String.length]; lia).
      rewrite Hrest, orb_false_r.
      destruct (Ascii.eqb_spec c1 "n") as [->|_]; [|reflexivity].
      apply replace_escaped_newlines_head in Er as [r0 [= -> _]].
      cbn [Ascii.eqb Bool.eqb andb] in E. cbn [andb]. exact E.
Qed.

Lemma replace_escaped_newlines_id (s : string) :
  has_escaped_newline s = false -> replace_escaped_newlines s = s.
Proof.
  induction s as [|c r IH]; [reflexivity|].
  rewrite has_escaped_newline_cons, replace_escaped_newlines_cons.
  destruct r as [|c0 r']; [reflexivity|].
  intros [-> Hr]%orb_false_elim. rewrite IH by exact Hr. reflexivity.
Qed.

(** X24: [getAuthClient] throws its error exactly when one of the two
    variables is not set or is empty.  Otherwise the client is built with
    the e-mail as it is and with the key in which every backslash
    followed by [n] has become a line feed: none is left, and a key
    without any is passed on unchanged. *)
Theorem getAuthClient_credentials (env : environment) :
  (truthy (env_get env "GOOGLE_SERVICE_ACCOUNT_EMAIL") = false
   \/ truthy (env_get env "GOOGLE_PRIVATE_KEY") = false ->
   getAuthClient env
   = Throw (Error
       "Missing GOOGLE_SERVICE_ACCOUNT_EMAIL or GOOGLE_PRIVATE_KEY")) /\
  (forall email key : string,
     assoc env "GOOGLE_SERVICE_ACCOUNT_EMAIL" = Some email ->
     assoc env "GOOGLE_PRIVATE_KEY" = Some key ->
     email <> "" -> key <> "" ->
     getAuthClient env
     = Ok (mkAuth email (replace_escaped_newlines key)
                  ["https://www.googleapis.com/auth/spreadsheets"]) /\
     has_escaped_newline (replace_escaped_newlines key) = false /\
     (has_escaped_newline key = false ->
      replace_escaped_newlines key = key)).
Proof.
  split.
  - unfold getAuthClient. cbv zeta. intros [-> | ->];
      rewrite ?orb_true_r; reflexivity.
  - intros email key Hemail Hkey Hne Hnk.
    split; [|split].
    + unfold getAuthClient, env_get. rewrite Hemail, Hkey. cbn [truthy].
      destruct email; [contradiction|]. destruct key; [contradiction|].
      reflexivity.
    + apply (replace_escaped_newlines_clean_upto (String.length key)). lia.
    + apply replace_escaped_newlines_id.
Qed.

(** ** Reading one record *)

Lemma find_by_url_spec (url : value) (l : list object) :
  match find_by_url url l with
  | VObj a =>
      exists i : nat,
        l !! i = Some a /\ strict_eq (obj_get a "url") url = true /\
        Forall (fun b => other_url url b = true) (take i l)
  | res => res = VUndefined /\ Forall (fun b => other_url url b = true) l
  end.
Proof.
  unfold find_by_url. induction l as [|b l IH]; cbn [List.find].
  - split; [reflexivity | constructor].
  - destruct (strict_eq (obj_get b "url") url) eqn:Hb.
    + exists 0. split; [reflexivity|]. split; [exact Hb | constructor].
    + assert (Hob : other_url url b = true)
        by (unfold other_url; rewrite Hb; reflexivity).
      destruct (List.find _ l) as [a|].
      * destruct IH as (i & Hi & Ha & Hbefore). exists (S i).
        split; [exact Hi|]. split; [exact Ha|]. constructor; assumption.
      * destruct IH as [_ IH]. split; [reflexivity|].
        constructor; assumption.
Qed.

Section ReadBackFacts.
Context `{JSON}.

(** X25: [getActivityByUrl] sends one read and changes nothing.  When
    the listing succeeds it returns the first listed record whose url is
    strictly equal to the argument, which is never a record marked as
    removed, and [undefined] when no listed record has the url. *)
Theorem getActivityByUrl_first_listed
    (url : value) (st : store) (l : list object) :
  (getAllActivities st).1 = Ok l ->
  getActivityByUrl url st
  = (Ok (find_by_url url l),
     mkStore (sheet st) (log st ++ [Get DataRows])) /\
  match find_by_url url l with
  | VObj a =>
      exists i : nat,
        l !! i = Some a /\ strict_eq (obj_get a "url") url = true /\
        truthy (obj_get a "userRemoved") = false /\
        Forall (fun b => other_url url b = true) (take i l)
  | res => res = VUndefined /\ Forall (fun b => other_url url b = true) l
  end.
Proof.
  intros Hrun. split.
  - rewrite getActivityByUrl_run.
    rewrite getAllActivities_run in Hrun. cbn [fst] in Hrun.
    destruct (map_outcome _ _) as [d|]; cbn [obind] in Hrun |- *;
      [|discriminate].
    injection Hrun as <-. reflexivity.
  - pose proof (find_by_url_spec url l) as Hspec.
    destruct (find_by_url url l) as [| | | | | |a]; try exact Hspec.
    destruct Hspec as (i & Hi & Ha & Hbefore).
    exists i. split; [exact Hi|]. split; [exact Ha|].
    split; [|exact Hbefore].
    destruct (getAllActivities st) as [res st'] eqn:Hall.
    cbn [fst] in Hrun. subst res.
    apply (getAllActivities_elem _ _ _ a Hall).
    eapply list_elem_of_lookup_2, Hi.
Qed.

(** X26: on a table of text, for a url found in a row that is not
    marked as removed and a value that can be formatted,
    [updateActivityField] returns the record with the value just written:
    a non-empty string written to a text field is the field of the record
    returned, a boolean written to alive is its alive, and [null] or
    [undefined] written to an optional field leaves the record without
    that field. *)
Theorem updateActivityField_reads_back
    (url : value) (field : string) (v : value) (st : store) (n : nat) :
  truthy url = true ->
  find_row url (drop 1 (sheet st)) 1 = Some n ->
  format_cell_throws v = false ->
  text_table (sheet st) = true ->
  cell (row_at (sheet st) n) 14 <> VStr "true" ->
  field ∈ ["shortName"; "alive"; "lastUpdated"; "category"; "openHours";
           "address"; "description"; "userRating"; "drivingMinutes";
           "transitMinutes"; "distanceKm"; "userComment"] ->
  exists a : object,
    (updateActivityField url field v st).1 = Ok (VObj a) /\
    rowToActivity
      (take 15 (row_at (sheet (updateActivityField url field v st).2) n))
    = Ok (Some a) /\
    (forall s : string,
       v = VStr s -> s <> "" ->
       field ∈ ["shortName"; "lastUpdated"; "category"; "openHours";
                "address"; "description"; "userComment"] ->
       obj_get a field = VStr s) /\
    (forall b : bool,
       v = VBool b -> field = "alive" -> obj_get a "alive" = VBool b) /\
    (not_nullish v = false ->
     field ∈ optional_fields -> obj_has a field = false).
Proof.
  intros Hurl Hfind Hv Htext Hlive Hfield.
  assert (Hcol : exists c, assoc COLUMNS field = Some c /\ c <> 0 /\ c < 14
                           /\ c = COL field).
  { repeat (apply elem_of_cons in Hfield as [->|Hfield];
            [eexists; split; [reflexivity|]; cbv; repeat split; lia|]).
    apply elem_of_nil in Hfield. destruct Hfield. }
  destruct Hcol as (c & Hcol & Hc0 & Hc14 & Hc).
  destruct (updateActivityField_echo url field v st n c Hurl Hfind Hcol Hv
              Hc0 Hc14 Htext Hlive) as (a & Hres & Hcell & Hdec).
  exists a. split; [exact Hres|]. split; [exact Hdec|].
  destruct (rowToActivity_Some _ _ Hdec) as (_ & svc & -> & _).
  assert (Hcell' : cell (take 15 (row_at
                     (sheet (updateActivityField url field v st).2) n))
                     (COL field) = format_cell v).
  { rewrite cell_take by (rewrite <- Hc; lia). rewrite <- Hc. exact Hcell. }
  clear Hcell Hdec Hres. revert Hcell'.
  generalize (take 15 (row_at
                (sheet (updateActivityField url field v st).2) n)).
  intros r Hcell. split; [|split].
  - intros s -> Hs Hin. cbn [format_cell not_nullish negb ToString] in Hcell.
    assert (Ht : truthy (VStr s) = true)
      by (simpl; destruct s; [contradiction | reflexivity]).
    repeat (apply elem_of_cons in Hin as [->|Hin];
            [decoded_field; rewrite Hcell; unfold js_or; rewrite ?Ht;
             reflexivity|]).
    apply elem_of_nil in Hin. destruct Hin.
  - intros b -> ->. rewrite decoded_alive, Hcell.
    destruct b; reflexivity.
  - intros Hnull Hin.
    assert (Hblank : format_cell v = VStr "")
      by (unfold format_cell; rewrite Hnull; reflexivity).
    rewrite Hblank in Hcell. unfold optional_fields in Hin.
    repeat (apply elem_of_cons in Hin as [->|Hin];
            [first [decoded_field; rewrite Hcell; reflexivity
                   | exfalso; clear -Hfield;
                     repeat (apply elem_of_cons in Hfield
                               as [Hfield|Hfield];
                             [discriminate Hfield|]);
                     apply elem_of_nil in Hfield; exact Hfield]|]).
    apply elem_of_nil in Hin. destruct Hin.
Qed.

End ReadBackFacts.

Lemma getActivityByUrl_first_listed_witness :
  @getActivityByUrl (json_of []) (VStr "https://p") (mkStore two_table [])
  = (Ok (VObj park), mkStore two_table [Get DataRows]).
Proof.
  exact (proj1 (@getActivityByUrl_first_listed (json_of [])
                  (VStr "https://p") (mkStore two_table []) [zoo; park]
                  eq_refl)).
Defined.

Lemma updateActivityField_reads_back_witness :
  exists a : object,
    (@updateActivityField (json_of []) (VStr "https://a") "category"
       (VStr "animals") (mkStore two_table [])).1 = Ok (VObj a) /\
    obj_get a "category" = VStr "animals".
Proof.
  destruct (@updateActivityField_reads_back (json_of []) (VStr "https://a")
              "category" (VStr "animals") (mkStore two_table []) 2
              eq_refl eq_refl eq_refl eq_refl ltac:(discriminate))
    as (a & Hres & _ & Htext & _).
  - apply (bool_decide_unpack _). vm_compute. exact I.
  - exists a. split; [exact Hres|].
    apply (Htext "animals"); [reflexivity | discriminate|].
    apply (bool_decide_unpack _). vm_compute. exact I.
Defined.

(** ** The rows an update leaves alone *)

Section FrameFacts.
Context `{JSON}.

(** X27: [updateActivity] writes one row at most and nothing else: the
    table keeps its length, every other row is as before, and so are the
    cells of the row beyond column O.  When the merged record can be
    encoded, the one write sent is that of the cells A..O which the row
    holds afterwards; when the encoder throws, no write is sent. *)
Theorem updateActivity_touches_one_row
    (url u : value) (st : store) (n : nat) (cur : option object) :
  find_row url (drop 1 (sheet st)) 1 = Some n ->
  cells_printable (take 15 (row_at (sheet st) n)) = true ->
  rowToActivity (take 15 (row_at (sheet st) n)) = Ok cur ->
  length (sheet (updateActivity url u st).2) = length (sheet st) /\
  (forall m : nat,
     m <> n ->
     row_at (sheet (updateActivity url u st).2) m = row_at (sheet st) m) /\
  drop 15 (row_at (sheet (updateActivity url u st).2) n)
  = drop 15 (row_at (sheet st) n) /\
  (activityToRow_throws (merged_record cur u) = false ->
   List.filter is_write (log (updateActivity url u st).2)
   = List.filter is_write (log st)
     ++ [Update (RowAO n)
           [take 15 (row_at (sheet (updateActivity url u st).2) n)]]) /\
  (activityToRow_throws (merged_record cur u) = true ->
   List.filter is_write (log (updateActivity url u st).2)
   = List.filter is_write (log st)).
Proof.
  intros Hfind _ Hcur.
  destruct (activityToRow_throws (merged_record cur u)) eqn:Hcall.
  - pose proof Hcur as Hread.
    rewrite <- (current_row_read _ _ _ Hfind) in Hread.
    rewrite (updateActivity_throws url u st n cur Hfind Hread Hcall).
    cbn [snd sheet log].
    split; [reflexivity|]. split; [reflexivity|]. split; [reflexivity|].
    split; [discriminate|]. intros _.
    rewrite List.filter_app. cbn. apply app_nil_r.
  - destruct (updateActivity_row url u st n cur Hfind Hcur Hcall)
      as [Hrun Hrow].
    rewrite Hrun. cbn [snd sheet log]. rewrite Hrow.
    destruct (find_row_found _ _ _ Hfind) as (Hn & Hlen & _).
    cbn [write_range].
    split; [apply alter_row_length; exact Hlen|].
    split; [|split; [|split; [intros _|discriminate]]].
    + intros m Hm. unfold row_at at 1.
      rewrite alter_row_other by (try exact Hlen; lia). reflexivity.
    + rewrite alter_row_same by exact Hlen. unfold set_cells_AO.
      rewrite pad_to_id by (rewrite activityToRow_length; lia).
      rewrite drop_app_length'; [reflexivity|].
      rewrite length_take, activityToRow_length. lia.
    + rewrite List.filter_app. reflexivity.
Qed.

End FrameFacts.

Lemma updateActivity_touches_one_row_witness :
  let st' := (@updateActivity (json_of []) (VStr "https://a")
                (VObj [("shortName", VStr "Tierpark")])
                (mkStore two_table [])).2 in
  length (sheet st') = 3 /\ row_at (sheet st') 3 = park_row.
Proof.
  destruct (@updateActivity_touches_one_row (json_of []) (VStr "https://a")
              (VObj [("shortName", VStr "Tierpark")]) (mkStore two_table [])
              2 (Some zoo) eq_refl eq_refl eq_refl)
    as (Hlen & Hother & _).
  split; [exact Hlen|]. apply (Hother 3). discriminate.
Defined.

(** ** Instances on the sample tables *)

Lemma rowToActivity_record_shape_witness :
  sublist zoo.*1 HEADER_ROW /\ NoDup zoo.*1 /\
  obj_get zoo "url" = cell zoo_row 0.
Proof.
  destruct (@rowToActivity_record_shape (json_of []) zoo_row zoo eq_refl)
    as (Hs & Hn & _ & Hu & _).
  split; [exact Hs|]. split; [exact Hn | exact Hu].
Defined.


Lemma updateActivityField_unknown_field_witness :
  @updateActivityField (json_of []) (VStr "https://a") "rating"
     (VNum (Int 4)) (mkStore zoo_table [])
  = (Throw (Error "Unknown field: rating"), mkStore zoo_table [Get ColumnA]).
Proof.
  apply (@updateActivityField_unknown_field (json_of []) (VStr "https://a")
           "rating" (VNum (Int 4)) (mkStore zoo_table []) 2 eq_refl);
    apply (bool_decide_unpack _); vm_compute; exact I.
Defined.

Lemma updateActivityField_keeps_text_table_witness :
  text_table
    (sheet (@updateActivityField (json_of []) (VStr "https://a") "alive"
              (VBool false) (mkStore zoo_table [])).2) = true /\
  (exists res : value,
     (@updateActivityField (json_of []) (VStr "https://a") "alive"
        (VBool false) (mkStore zoo_table [])).1 = Ok res) /\
  @updateActivityField (json_of []) (VStr "https://a") "alive"
     unprintable (mkStore zoo_table [])
  = (Throw TypeError, mkStore zoo_table [Get ColumnA]).
Proof.
  destruct (@updateActivityField_keeps_text_table (json_of [])
              (VStr "https://a") "alive" (VBool false)
              (mkStore zoo_table []) eq_refl) as [Htext Hcall].
  destruct (Hcall 2 2 eq_refl eq_refl) as [_ Hwritten].
  destruct (Hwritten eq_refl) as [_ Hres].
  split; [exact Htext|]. split; [exact Hres|].
  destruct (@updateActivityField_keeps_text_table (json_of [])
              (VStr "https://a") "alive" unprintable
              (mkStore zoo_table []) eq_refl) as [_ Hthrows].
  destruct (Hthrows 2 2 eq_refl eq_refl) as [Hthrown _].
  exact (Hthrown eq_refl).
Defined.

Lemma markActivityRemoved_hides_url_witness :
  (@markActivityRemoved (json_of []) (VStr "https://a")
     (mkStore two_table [])).1 = Ok VUndefined /\
  (@getAllActivities (json_of [])
     (@markActivityRemoved (json_of []) (VStr "https://a")
        (mkStore two_table [])).2).1 = Ok [park].
Proof.
  exact (@markActivityRemoved_hides_url (json_of []) (VStr "https://a")
           (mkStore two_table []) [zoo; park] eq_refl eq_refl eq_refl).
Defined.

Lemma markActivityRemoved_idempotent_witness :
  let st1 := (@markActivityRemoved (json_of []) (VStr "https://a")
                (mkStore two_table [])).2 in
  cell (row_at (sheet st1) 2) 14 = VStr "true" /\
  sheet (@markActivityRemoved (json_of []) (VStr "https://a") st1).2
  = sheet st1.
Proof.
  exact (proj2 (@markActivityRemoved_idempotent (json_of [])
                  (VStr "https://a") (mkStore two_table []) 2
                  eq_refl eq_refl)).
Defined.

Lemma markActivityRemoved_then_restore_witness :
  let st1 := (@markActivityRemoved (json_of []) (VStr "https://a")
                (mkStore two_table [])).2 in
  let restore := @updateActivityField (json_of []) (VStr "https://a")
                   "userRemoved" (VBool false) st1 in
  (@getAllActivities (json_of []) restore.2).1 = Ok [zoo; park] /\
  restore.1 = Ok (VObj zoo).
Proof.
  exact (@markActivityRemoved_then_restore (json_of []) (VStr "https://a")
           (mkStore two_table []) 2 eq_refl eq_refl eq_refl).
Defined.

Lemma addActivity_then_listed_witness :
  exists a' : object,
    @rowToActivity (json_of [VArr [VStr "slide"; VStr "swing"]])
       (@activityToRow (json_of [VArr [VStr "slide"; VStr "swing"]]) park)
    = Ok (Some a') /\
    (@getAllActivities (json_of [VArr [VStr "slide"; VStr "swing"]])
       (@addActivity (json_of [VArr [VStr "slide"; VStr "swing"]]) park
          (mkStore zoo_table [])).2).1
    = Ok [zoo; a'] /\
    (@getActivityByUrl (json_of [VArr [VStr "slide"; VStr "swing"]])
       (VStr "https://p")
       (@addActivity (json_of [VArr [VStr "slide"; VStr "swing"]]) park
          (mkStore zoo_table [])).2).1
    = Ok (VObj a').
Proof.
  destruct (@addActivity_then_listed
              (json_of [VArr [VStr "slide"; VStr "swing"]]) park
              "https://p" (mkStore zoo_table []) [zoo]
              eq_refl ltac:(discriminate) eq_refl ltac:(discriminate)
              eq_refl)
    as (a' & Hdec & _ & _ & Hlist & Hget).
  exists a'. split; [exact Hdec|]. split; [exact Hlist|].
  apply Hget; [reflexivity|]. repeat constructor.
Defined.

Lemma addActivity_keeps_older_row_witness :
  length (sheet (@addActivity (json_of []) zoo (mkStore zoo_table [])).2)
  = 3 /\
  find_row (VStr "https://a")
    (drop 1 (sheet (@addActivity (json_of []) zoo
                      (mkStore zoo_table [])).2)) 1
  = Some 2.
Proof.
  destruct (@addActivity_keeps_older_row (json_of []) zoo (VStr "https://a")
              (mkStore zoo_table []) 2 eq_refl)
    as (Hadded & _ & Hfind).
  destruct (Hadded eq_refl) as (_ & _ & Hlen).
  split; [exact Hlen | exact Hfind].
Defined.

Lemma updateActivity_not_found_witness :
  @updateActivity (json_of []) (VStr "https://z")
     (VObj [("shortName", VStr "Zoo 2")]) (mkStore zoo_table [])
  = (Throw (Error "Activity not found"), mkStore zoo_table [Get ColumnA]).
Proof.
  apply (@updateActivity_not_found (json_of []) (VStr "https://z")
           (VObj [("shortName", VStr "Zoo 2")]) (mkStore zoo_table [])).
  repeat constructor.
Defined.

Lemma updateActivity_drops_unknown_keys_witness :
  exists (merged : object) (st' : store),
    @updateActivity (json_of []) (VStr "https://a")
       (VObj [("stars", VNum (Int 3))]) (mkStore zoo_table [])
    = (Ok merged, st') /\
    obj_get merged "stars" = VNum (Int 3) /\
    @rowToActivity (json_of []) (take 15 (row_at (sheet st') 2))
    = Ok (Some zoo).
Proof.
  destruct (@updateActivity_drops_unknown_keys (json_of [])
              (VStr "https://a") (VObj [("stars", VNum (Int 3))])
              (mkStore zoo_table []) 2 (Some zoo) "stars" (VNum (Int 3))
              eq_refl eq_refl eq_refl eq_refl)
    as (merged & st' & Hrun & Hget & _ & _).
  - apply (bool_decide_unpack _). vm_compute. exact I.
  - apply list_elem_of_In. left. reflexivity.
  - apply (bool_decide_unpack _). vm_compute. exact I.
  - exists merged, st'. split; [exact Hrun|]. split; [exact Hget|].
    injection Hrun as _ <-. reflexivity.
Defined.

Lemma updateActivity_changes_key_witness :
  let st' := (@updateActivity (json_of []) (VStr "https://a")
                (VObj [("url", VStr "https://b")])
                (mkStore zoo_table [])).2 in
  find_row (VStr "https://b") (drop 1 (sheet st')) 1 = Some 2 /\
  find_row (VStr "https://a") (drop 1 (sheet st')) 1 = None.
Proof.
  destruct (@updateActivity_changes_key (json_of []) (VStr "https://a")
              (VObj [("url", VStr "https://b")]) (mkStore zoo_table [])
              2 (Some zoo) "https://b" eq_refl eq_refl eq_refl eq_refl)
    as (_ & Hnew & Hold).
  - apply (bool_decide_unpack _). vm_compute. exact I.
  - apply list_elem_of_In. left. reflexivity.
  - discriminate.
  - reflexivity.
  - split; [exact Hnew|]. apply Hold; reflexivity.
Defined.

Lemma handlers_method_dispatch_witness :
  @GetActivities.handler (json_of []) (mkEvent "POST" "")
     (mkStore zoo_table [])
  = (Ok (@error_response (json_of []) 405 "Method not allowed"),
     mkStore zoo_table []).
Proof.
  destruct (@handlers_method_dispatch (json_of []) "GET"
              (@GetActivities.handler (json_of [])) (mkEvent "POST" "")
              (mkStore zoo_table []))
    as (resp & Hrun & Hresp).
  - apply list_elem_of_In. right. right. left. reflexivity.
  - discriminate.
  - rewrite Hrun. cbn in Hresp. rewrite Hresp. reflexivity.
Defined.

Lemma handlers_always_answer_witness :
  exists (resp : response) (st' : store),
    @DeleteActivity.handler (json_of more_bodies)
       (mkEvent "DELETE" (json_stringify url_body)) (mkStore zoo_table [])
    = (Ok resp, st') /\
    statusCode resp ∈ status_codes.
Proof.
  destruct (@handlers_always_answer (json_of more_bodies) "DELETE"
              (@DeleteActivity.handler (json_of more_bodies))
              (mkEvent "DELETE" (json_stringify url_body))
              (mkStore zoo_table []))
    as (resp & st' & Hrun & Hstatus & _).
  - apply list_elem_of_In. right. right. right. left. reflexivity.
  - exists resp, st'. split; [exact Hrun | exact Hstatus].
Defined.

Lemma handlers_validate_first_witness :
  @UpdateComment.handler (json_of more_bodies)
     (mkEvent "PUT" "{url:") (mkStore zoo_table [])
  = (Ok (@error_response (json_of more_bodies) 500
           "Failed to update comment"),
     mkStore zoo_table []) /\
  @UpdateComment.handler (json_of more_bodies)
     (mkEvent "PUT" (json_stringify no_url_body)) (mkStore zoo_table [])
  = (Ok (@error_response (json_of more_bodies) 400 "URL is required"),
     mkStore zoo_table []).
Proof.
  split.
  - apply (@handlers_validate_first (json_of more_bodies) "PUT"
             "Failed to update comment"
             (@UpdateComment.handler (json_of more_bodies))
             (mkEvent "PUT" "{url:") (mkStore zoo_table []));
      [|reflexivity | left; reflexivity].
    apply list_elem_of_In. right. left. reflexivity.
  - apply (@handlers_validate_first (json_of more_bodies) "PUT"
             "Failed to update comment"
             (@UpdateComment.handler (json_of more_bodies))
             (mkEvent "PUT" (json_stringify no_url_body))
             (mkStore zoo_table []))
      with (parsed := no_url_body) (url := VUndefined);
      try reflexivity.
    apply list_elem_of_In. right. left. reflexivity.
Defined.

Lemma handlers_not_found_witness :
  @DeleteActivity.handler (json_of more_bodies)
     (mkEvent "DELETE" (json_stringify unknown_url_body))
     (mkStore zoo_table [])
  = (Ok (@error_response (json_of more_bodies) 404 "Activity not found"),
     mkStore zoo_table [Get ColumnA]) /\
  @handler (json_of more_bodies)
     (mkEvent "PUT" (json_stringify unknown_url_body))
     (mkStore zoo_table [])
  = (Ok (@error_response (json_of more_bodies) 404 "Activity not found"),
     mkStore zoo_table [Get ColumnA]).
Proof.
  split.
  - destruct (@handlers_not_found (json_of more_bodies)
                (mkEvent "DELETE" (json_stringify unknown_url_body))
                (mkStore zoo_table []) [("url", VStr "https://z")]
                eq_refl eq_refl)
      as (Hdelete & _ & _).
    + repeat constructor.
    + apply Hdelete. reflexivity.
  - destruct (@handlers_not_found (json_of more_bodies)
                (mkEvent "PUT" (json_stringify unknown_url_body))
                (mkStore zoo_table []) [("url", VStr "https://z")]
                eq_refl eq_refl)
      as (_ & _ & Hrating).
    + repeat constructor.
    + apply Hrating; reflexivity.
Defined.

Lemma comment_handler_stores_trimmed_witness :
  exists (a : object) (st' : store),
    @UpdateComment.handler (json_of more_bodies)
       (mkEvent "PUT" (json_stringify comment_body)) (mkStore zoo_table [])
    = (Ok (@success_response (json_of more_bodies) (VObj a)), st') /\
    cell (row_at (sheet st') 2) 13 = VStr "nice place" /\
    obj_get a "userComment" = VStr "nice place".
Proof.
  destruct (@comment_handler_stores_trimmed (json_of more_bodies)
              (mkEvent "PUT" (json_stringify comment_body))
              (mkStore zoo_table [])
              [("url", VStr "https://a"); ("comment", VStr "  nice place ")]
              2 eq_refl eq_refl eq_refl (or_intror eq_refl) eq_refl eq_refl
              ltac:(discriminate))
    as (a & st' & Hrun & Hcell & _ & Hcomment & _).
  exists a, st'. split; [exact Hrun|]. split; [exact Hcell | exact Hcomment].
Defined.

Lemma comment_handler_rejects_non_text_witness :
  @UpdateComment.handler (json_of more_bodies)
     (mkEvent "PUT" (json_stringify number_comment_body))
     (mkStore zoo_table [])
  = (Ok (@error_response (json_of more_bodies) 500
           "Failed to update comment"),
     mkStore zoo_table []).
Proof.
  exact (@comment_handler_rejects_non_text (json_of more_bodies)
           (mkEvent "PUT" (json_stringify number_comment_body))
           (mkStore zoo_table [])
           [("url", VStr "https://a"); ("comment", VNum (Int 7))]
           eq_refl eq_refl eq_refl eq_refl eq_refl).
Defined.

Lemma delete_then_list_witness :
  exists st' : store,
    (@DeleteActivity.handler (json_of more_bodies)
       (mkEvent "DELETE" (json_stringify url_body))
       (mkStore two_table [])).2 = st' /\
    (@GetActivities.handler (json_of more_bodies) (mkEvent "GET" "") st').1
    = Ok (mkResponse 200
            [ ("Content-Type", "application/json");
              ("Access-Control-Allow-Origin", "*") ]
            (json_stringify (VArr [VObj park]))).
Proof.
  destruct (@delete_then_list (json_of more_bodies)
              (mkEvent "DELETE" (json_stringify url_body))
              (mkEvent "GET" "") (mkStore two_table [])
              [("url", VStr "https://a")] [zoo; park]
              eq_refl eq_refl eq_refl eq_refl eq_refl eq_refl)
    as (st' & Hdelete & Hget).
  exists st'. split; [rewrite Hdelete; reflexivity | exact Hget].
Defined.

Lemma handler_rating_echo_witness :
  exists (a : object) (st' : store),
    @handler (json_of more_bodies)
       (mkEvent "PUT" (json_stringify half_rating_body))
       (mkStore zoo_table [])
    = (Ok (@success_response (json_of more_bodies) (VObj a)), st') /\
    cell (row_at (sheet st') 2) 9 = VStr "4.5" /\
    obj_get a "userRating" = VNum (Int 4).
Proof.
  destruct (@handler_rating_echo (json_of more_bodies)
              (mkEvent "PUT" (json_stringify half_rating_body))
              (mkStore zoo_table [])
              [("url", VStr "https://a"); ("rating", VNum (Fin false 4 [d5]))]
              false 4%N [d5] 2
              eq_refl eq_refl eq_refl eq_refl eq_refl eq_refl eq_refl
              eq_refl ltac:(discriminate))
    as (a & st' & Hrun & Hcell & _ & Hrating).
  exists a, st'. split; [exact Hrun|]. split; [exact Hcell | exact Hrating].
Defined.
